(** * Genara: check-digit services (TCKN, VKN, IBAN, credit card, IMEI, ISBN,
      EAN) and the service factory's format detection.

    A shallow embedding of the TypeScript sources.

    Conventions of the embedding.
    - A JavaScript string is a [list ascii]; the alphabet is ASCII, so
      [\s] is tab, line feed, vertical tab, form feed, carriage return and
      space, [\d] is 0-9 and [toUpperCase] maps a-z to A-Z.
    - A JavaScript number is an integer or [NaN].  Every number the services
      compute is an integer far below 2^53, where double arithmetic is exact.
    - [Math.random()] reads the next entry of a tape of rationals and returns
      its fractional part, a value in [0,1); every outcome of the random
      source is the run of some tape.
    - A thrown exception is the [Throw] case of [result]. *)

From Stdlib Require Import String.
From Stdlib Require Import ZArith List Ascii Bool Lia QArith Qround Lqa.
Import Init.Datatypes.
Import ListNotations.
Local Open Scope Z_scope.

(* ================================================================= *)
(** ** Strings *)

Definition str := list ascii.

Definition lit (s : string) : str := String.list_ascii_of_string s.

(** [charCodeAt] *)
Definition code (c : ascii) : Z := Z.of_N (N_of_ascii c).

Definition char_eqb (a b : ascii) : bool := Ascii.eqb a b.

Fixpoint str_eqb (a b : str) : bool :=
  match a, b with
  | [], [] => true
  | x :: a', y :: b' => char_eqb x y && str_eqb a' b'
  | _, _ => false
  end.

(** [\d] *)
Definition is_digit (c : ascii) : bool := (48 <=? code c) && (code c <=? 57).

(** [[A-Z]] *)
Definition is_upper (c : ascii) : bool := (65 <=? code c) && (code c <=? 90).

Definition is_lower (c : ascii) : bool := (97 <=? code c) && (code c <=? 122).

(** [\s] *)
Definition is_space (c : ascii) : bool :=
  ((9 <=? code c) && (code c <=? 13)) || (code c =? 32).

Definition toUpperCase_char (c : ascii) : ascii :=
  if is_lower c then ascii_of_N (Z.to_N (code c - 32)) else c.

Definition toUpperCase (s : str) : str := map toUpperCase_char s.

Definition toLowerCase_char (c : ascii) : ascii :=
  if is_upper c then ascii_of_N (Z.to_N (code c + 32)) else c.

Definition toLowerCase (s : str) : str := map toLowerCase_char s.

(** [s.replace(/[...]/g, '')]: drop every character of the class. *)
Definition remove_all (cls : ascii -> bool) (s : str) : str :=
  filter (fun c => negb (cls c)) s.

(** [/^\d+$/] *)
Definition all_digits (s : str) : bool := forallb is_digit s.

(** [/^\d{n}$/] *)
Definition digits_exactly (n : nat) (s : str) : bool :=
  Nat.eqb (length s) n && all_digits s.

Fixpoint startsWith (p s : str) : bool :=
  match p, s with
  | [], _ => true
  | x :: p', y :: s' => char_eqb x y && startsWith p' s'
  | _ :: _, [] => false
  end.

(** [s.substring(a, b)] for [a <= b] and [s.substring(a)] *)
Definition substring (a b : nat) (s : str) : str := firstn (b - a) (skipn a s).

Definition substring_from (a : nat) (s : str) : str := skipn a s.

Definition padStart (n : nat) (c : ascii) (s : str) : str :=
  repeat c (n - length s) ++ s.

Definition padEnd (n : nat) (c : ascii) (s : str) : str :=
  s ++ repeat c (n - length s).

(** [array.includes(s)] *)
Definition includes (l : list str) (s : str) : bool := existsb (str_eqb s) l.

Fixpoint drop_leading_space (s : str) : str :=
  match s with
  | c :: r => if is_space c then drop_leading_space r else s
  | [] => []
  end.

(** [s.trim()] *)
Definition trim (s : str) : str :=
  rev (drop_leading_space (rev (drop_leading_space s))).

(* ================================================================= *)
(** ** Numbers *)

Inductive num : Type :=
| NaN
| Num (z : Z).

Definition nadd (a b : num) : num :=
  match a, b with Num x, Num y => Num (x + y) | _, _ => NaN end.

Definition nsub (a b : num) : num :=
  match a, b with Num x, Num y => Num (x - y) | _, _ => NaN end.

Definition nmul (a b : num) : num :=
  match a, b with Num x, Num y => Num (x * y) | _, _ => NaN end.

(** [a % b]: the remainder has the sign of the dividend; [x % 0] is NaN. *)
Definition nmod (a b : num) : num :=
  match a, b with
  | Num x, Num y => if y =? 0 then NaN else Num (Z.rem x y)
  | _, _ => NaN
  end.

(** [a === b] on numbers: NaN is not equal to itself. *)
Definition strict_eq (a b : num) : bool :=
  match a, b with Num x, Num y => x =? y | _, _ => false end.

(** [a > b] *)
Definition ngt (a b : num) : bool :=
  match a, b with Num x, Num y => y <? x | _, _ => false end.

Definition digit_char (d : Z) : ascii := ascii_of_N (Z.to_N (48 + d)).

Definition digit_val (c : ascii) : Z := code c - 48.

Fixpoint dec_digits (fuel : nat) (z : Z) : str :=
  match fuel with
  | O => []
  | S f =>
      if z <? 10 then [digit_char z]
      else dec_digits f (z / 10) ++ [digit_char (z mod 10)]
  end.

(** Decimal numeral of a non-negative integer. *)
Definition dec_of_Z (z : Z) : str := dec_digits (S (Z.to_nat (Z.log2 z))) z.

(** [n.toString()] *)
Definition toString (n : num) : str :=
  match n with
  | NaN => lit "NaN"
  | Num z => if z <? 0 then "-"%char :: dec_of_Z (- z) else dec_of_Z z
  end.

Fixpoint leading (cls : ascii -> bool) (s : str) : str :=
  match s with
  | c :: r => if cls c then c :: leading cls r else []
  | [] => []
  end.

(** Value of a digit string read in base 10 (Horner). *)
Definition dec_value (s : str) : Z :=
  fold_left (fun acc c => acc * 10 + digit_val c) s 0.

Definition is_hex (c : ascii) : bool :=
  is_digit c || ((65 <=? code c) && (code c <=? 70))
             || ((97 <=? code c) && (code c <=? 102)).

Definition hex_val (c : ascii) : Z :=
  if is_digit c then code c - 48
  else if code c <=? 70 then code c - 55 else code c - 87.

Definition hex_value (s : str) : Z :=
  fold_left (fun acc c => acc * 16 + hex_val c) s 0.

Definition split_sign (s : str) : bool * str :=
  match s with
  | c :: r =>
      if char_eqb c "-" then (true, r)
      else if char_eqb c "+" then (false, r)
      else (false, s)
  | [] => (false, [])
  end.

Definition signed (neg : bool) (z : Z) : num := Num (if neg then - z else z).

(** [parseInt(s, 10)]: leading white space, an optional sign, then the
    longest run of decimal digits; NaN when that run is empty. *)
Definition parseInt10 (s : str) : num :=
  let '(neg, body) := split_sign (drop_leading_space s) in
  match leading is_digit body with
  | [] => NaN
  | ds => signed neg (dec_value ds)
  end.

(** [parseInt(s)]: as above, except that a [0x] or [0X] prefix selects
    base 16. *)
Definition parseInt (s : str) : num :=
  let '(neg, body) := split_sign (drop_leading_space s) in
  match body with
  | z :: x :: r =>
      if char_eqb z "0" && (char_eqb x "x" || char_eqb x "X") then
        match leading is_hex r with
        | [] => NaN
        | hs => signed neg (hex_value hs)
        end
      else
        match leading is_digit body with
        | [] => NaN
        | ds => signed neg (dec_value ds)
        end
  | _ =>
      match leading is_digit body with
      | [] => NaN
      | ds => signed neg (dec_value ds)
      end
  end.

(** [parseInt(s[i], 10)]; an index past the end reads [undefined], which
    parses to NaN. *)
Definition parseInt10_at (s : str) (i : nat) : num :=
  match nth_error s i with
  | Some c => parseInt10 [c]
  | None => NaN
  end.

(** [Number(c)] for a one-character string [c]. *)
Definition Number_char (c : ascii) : num :=
  if is_digit c then Num (digit_val c)
  else if is_space c then Num 0
  else NaN.

(* ================================================================= *)
(** ** Values, exceptions, randomness *)

Inductive js_value : Type :=
| JsUndefined
| JsNull
| JsBoolean (b : bool)
| JsNumber (n : num)
| JsString (s : str).

(** [String(v)] *)
Definition js_String (v : js_value) : str :=
  match v with
  | JsUndefined => lit "undefined"
  | JsNull => lit "null"
  | JsBoolean true => lit "true"
  | JsBoolean false => lit "false"
  | JsNumber n => toString n
  | JsString s => s
  end.

Inductive result (A : Type) : Type :=
| Ok (a : A)
| Throw (msg : string).
Arguments Ok {A} a.
Arguments Throw {A} msg.

(** Calling a string method on a value that is not a string. *)
Definition TypeError : string := "TypeError"%string.

Definition as_string (v : js_value) : result str :=
  match v with
  | JsString s => Ok s
  | _ => Throw TypeError
  end.

(** A string spliced into a message: [`... ${s}`]. *)
Definition show (s : str) : string := String.string_of_list_ascii s.

(** [ValidationResult]: [errors] is absent on success. *)
Record ValidationResult : Type := mkValidation {
  isValid : bool;
  errors : option (list string)
}.

Definition valid : ValidationResult := mkValidation true None.

Definition invalid (message : string) : ValidationResult :=
  mkValidation false (Some [message]).

(** An own property of an object literal used as a table. *)
Fixpoint lookup {A : Type} (table : list (str * A)) (key : str) : option A :=
  match table with
  | [] => None
  | (k, v) :: rest => if str_eqb key k then Some v else lookup rest key
  end.

(** The lower-case names an object literal inherits from [Object.prototype];
    [table[key]] finds these too, and what it finds is not an entry. *)
Definition INHERITED : list str := map lit ["constructor"; "__proto__"]%string.

(** [getExpectedLength()]: a number, or a range [{ min, max }]. *)
Inductive ExpectedLength : Type :=
| Exactly (n : nat)
| Between (min max : nat).

Record Rng : Type := mkRng { tape : nat -> Q; cursor : nat }.

Definition Rand (A : Type) : Type := Rng -> A * Rng.

Definition ret {A} (a : A) : Rand A := fun g => (a, g).

Definition bind {A B} (m : Rand A) (k : A -> Rand B) : Rand B :=
  fun g => let '(a, g') := m g in k a g'.

Notation "x <- m ;; k" := (bind m (fun x => k))
  (at level 61, m at next level, right associativity).

Definition unit_part (q : Q) : Q := (q - inject_Z (Qfloor q))%Q.

(** [Math.random()] *)
Definition random : Rand Q :=
  fun g => (unit_part (tape g (cursor g)), mkRng (tape g) (S (cursor g))).

(** [Math.floor(Math.random() * n)] *)
Definition random_below (n : Z) : Rand Z :=
  q <- random ;; ret (Qfloor (q * inject_Z n)).

(** [Math.floor(Math.random() * 10).toString()] *)
Definition random_digit : Rand str :=
  d <- random_below 10 ;; ret (toString (Num d)).

(** [while (s.length < target) s += Math.floor(Math.random() * 10).toString()].
    Each round appends at least one character, so [target] rounds are enough. *)
Fixpoint pad_loop (fuel target : nat) (s : str) : Rand str :=
  match fuel with
  | O => ret s
  | S f =>
      if Nat.ltb (length s) target
      then (d <- random_digit ;; pad_loop f target (s ++ d))
      else ret s
  end.

Definition pad_random (target : nat) (s : str) : Rand str :=
  pad_loop target target s.

(** [for (i = 0; i < n; i++) result += Math.floor(Math.random() * 10)] *)
Fixpoint append_digits (n : nat) (s : str) : Rand str :=
  match n with
  | O => ret s
  | S k => d <- random_digit ;; append_digits k (s ++ d)
  end.

(** [array[Math.floor(Math.random() * array.length)]] *)
Definition random_element (l : list str) : Rand str :=
  i <- random_below (Z.of_nat (length l)) ;; ret (nth (Z.to_nat i) l []).

(* ================================================================= *)
(** ** TcknService *)

Module Tckn.

Definition INVALID_PATTERNS : list str :=
  map lit [ "11111111110"; "22222222220"; "33333333330"; "44444444440";
            "55555555550"; "66666666660"; "77777777770"; "88888888880";
            "99999999990" ]%string.

Definition INVALID_PREFIXES : list str :=
  map lit [ "111111111"; "222222222"; "333333333"; "444444444";
            "555555555"; "666666666"; "777777777"; "888888888";
            "999999999" ]%string.

(** [for (i of idxs) t += parseInt(prefix[i], 10)] *)
Definition sum_at (prefix : str) (idxs : list nat) : num :=
  fold_left (fun t i => nadd t (parseInt10_at prefix i)) idxs (Num 0).

Definition calculateCheckDigits (prefix : str) : num * num :=
  let t1 := sum_at prefix [0; 2; 4; 6; 8]%nat in
  let t2 := sum_at prefix [1; 3; 5; 7]%nat in
  let c10 :=
    nmod (nsub (Num 10) (nmod (nadd (nmul t1 (Num 3)) t2) (Num 10))) (Num 10) in
  let c11 :=
    nmod (nsub (Num 10)
            (nmod (nadd (nmul (nadd t2 c10) (Num 3)) t1) (Num 10))) (Num 10) in
  (c10, c11).

Definition validate (tckn : str) : bool :=
  if negb (Nat.eqb (length tckn) 11) then false
  else if negb (digits_exactly 11 tckn) then false
  else if startsWith (lit "0") tckn then false
  else if includes INVALID_PATTERNS tckn then false
  else
    let '(c10, c11) := calculateCheckDigits (substring 0 9 tckn) in
    strict_eq (parseInt10_at tckn 9) c10 && strict_eq (parseInt10_at tckn 10) c11.

(** The entry point on an arbitrary value: a non-string is converted with
    [String(...)] first. *)
Definition validate_value (v : js_value) : result bool :=
  Ok (validate (js_String v)).

Definition validatePrefix (prefix : str) : result unit :=
  if negb (digits_exactly 9 prefix) then
    Throw "Prefix sadece 9 rakamdan oluşmalıdır"
  else if startsWith (lit "0") prefix then
    Throw "İlk rakam 0 olamaz"
  else if includes INVALID_PREFIXES prefix then
    Throw "Geçersiz prefix desenli"
  else Ok tt.

Definition complete (prefix : str) : result str :=
  match validatePrefix prefix with
  | Throw m => Throw m
  | Ok _ =>
      let '(c10, c11) := calculateCheckDigits prefix in
      Ok (prefix ++ toString c10 ++ toString c11)
  end.

(** One round of the [do ... while] body: a first digit 1-9 and eight more
    digits. *)
Definition draw_prefix : Rand str :=
  d <- random_below 9 ;;
  append_digits 8 (toString (nadd (Num d) (Num 1))).

(** [do { prefix = ... } while (INVALID_PREFIXES.includes(prefix))]; [None]
    when the loop is still running after [fuel] rounds. *)
Fixpoint generate_loop (fuel : nat) : Rand (option str) :=
  match fuel with
  | O => ret None
  | S f =>
      prefix <- draw_prefix ;;
      if includes INVALID_PREFIXES prefix then generate_loop f
      else ret (Some prefix)
  end.

Definition generate (fuel : nat) : Rand (option (result str)) :=
  p <- generate_loop fuel ;;
  ret (match p with Some prefix => Some (complete prefix) | None => None end).

(** The random source as round [k] of the loop finds it. *)
Definition before_round (k : nat) (g : Rng) : Rng :=
  Nat.iter k (fun g' => snd (draw_prefix g')) g.

Definition getExpectedLength : ExpectedLength := Exactly 11.

End Tckn.

(* ================================================================= *)
(** ** VknService *)

Module Vkn.

(** One round of the loop body at index [i] (position [i + 1]). *)
Definition step (prefix : str) (sum : num) (i : nat) : num :=
  let d := parseInt10_at prefix i in
  let pos := Z.of_nat i + 1 in
  let p := nmod (nsub (nadd d (Num 10)) (Num pos)) (Num 10) in
  let q :=
    if strict_eq p (Num 9) then Num 9
    else nmod (nmul p (Num (2 ^ (10 - pos)))) (Num 9) in
  nadd sum q.

Definition calculateCheckDigit (prefix : str) : num :=
  let sum := fold_left (step prefix) (seq 0 9) (Num 0) in
  nmod (nsub (Num 10) (nmod sum (Num 10))) (Num 10).

Definition validate (vkn : str) : bool :=
  if negb (Nat.eqb (length vkn) 10) then false
  else if negb (digits_exactly 10 vkn) then false
  else
    let checkDigit := calculateCheckDigit (substring 0 9 vkn) in
    strict_eq (parseInt10_at vkn 9) checkDigit.

Definition validate_value (v : js_value) : result bool :=
  Ok (validate (js_String v)).

Definition validatePrefix (prefix : str) : result unit :=
  if negb (digits_exactly 9 prefix) then
    Throw "Prefix sadece 9 rakamdan oluşmalıdır"
  else Ok tt.

Definition complete (prefix : str) : result str :=
  match validatePrefix prefix with
  | Throw m => Throw m
  | Ok _ => Ok (prefix ++ toString (calculateCheckDigit prefix))
  end.

Definition generate : Rand (result str) :=
  prefix <- append_digits 9 [] ;; ret (complete prefix).

Definition getExpectedLength : ExpectedLength := Exactly 10.

End Vkn.

(* ================================================================= *)
(** ** IbanService *)

Module Iban.

Definition COUNTRY_CODE : str := lit "TR".
Definition ACCOUNT_LENGTH : nat := 16.
Definition TOTAL_LENGTH : nat := 26.

Definition BANK_CODES : list str :=
  map lit [ "00001"; "00010"; "00012"; "00015"; "00032"; "00046"; "00062";
            "00067"; "00111"; "00123"; "00134"; "00135"; "00143"; "00146";
            "00149"; "00203"; "00206" ]%string.

Definition FALLBACK : str := lit "TR320010009999901234567890".

(** [input.replace(/[A-Z]/g, c => (c.charCodeAt(0) - 55).toString())] *)
Definition convertLettersToNumbers (input : str) : str :=
  flat_map (fun c => if is_upper c then toString (Num (code c - 55)) else [c])
           input.

(** [for (i = 0; i < s.length; i += 7)] over the part of the string still to
    be read; [length s] rounds are enough. *)
Fixpoint mod97_loop (fuel : nat) (remainder : num) (rest : str) : num :=
  match fuel with
  | O => remainder
  | S f =>
      match rest with
      | [] => remainder
      | _ :: _ =>
          let chunk := firstn 7 rest in
          let number := parseInt (toString remainder ++ chunk) in
          mod97_loop f (nmod number (Num 97)) (skipn 7 rest)
      end
  end.

Definition calculateMod97 (numericString : str) : num :=
  mod97_loop (length numericString) (Num 0) numericString.

(** The [try] around the bodies of [validateChecksum] and
    [calculateCheckDigits] guards string and arithmetic operations that do
    not throw. *)
Definition validateChecksum (iban : str) : bool :=
  let rearranged := substring_from 4 iban ++ substring 0 4 iban in
  let numericString := convertLettersToNumbers rearranged in
  let remainder := calculateMod97 numericString in
  strict_eq remainder (Num 1).

Definition calculateCheckDigits (ibanWithPlaceholder : str) : str :=
  let ibanWithZeros :=
    substring 0 2 ibanWithPlaceholder ++ lit "00"
      ++ substring_from 4 ibanWithPlaceholder in
  let rearranged := substring_from 4 ibanWithZeros ++ substring 0 4 ibanWithZeros in
  let numericString := convertLettersToNumbers rearranged in
  let remainder := calculateMod97 numericString in
  let checkDigits := nsub (Num 98) remainder in
  padStart 2 "0" (toString checkDigits).

Definition generateRandomAccountNumber : Rand str :=
  append_digits ACCOUNT_LENGTH [].

(** [for (i = 0; i < clean.length; i += 4)] over the part still to be
    written. *)
Fixpoint format_loop (fuel : nat) (first : bool) (rest : str) : str :=
  match fuel with
  | O => []
  | S f =>
      match rest with
      | [] => []
      | _ :: _ =>
          (if first then [] else [" "%char])
            ++ firstn 4 rest ++ format_loop f false (skipn 4 rest)
      end
  end.

Definition formatIban (iban : str) : str :=
  let clean := remove_all is_space iban in
  format_loop (length clean) true clean.

Definition validate (value : str) : bool :=
  let cleanNumber := toUpperCase (remove_all is_space value) in
  if negb (startsWith COUNTRY_CODE cleanNumber) then false
  else if negb (Nat.eqb (length cleanNumber) TOTAL_LENGTH) then false
  else if negb (startsWith (lit "TR") cleanNumber
                && digits_exactly 24 (skipn 2 cleanNumber)) then false
  else if negb (str_eqb (substring 9 10 cleanNumber) (lit "0")) then false
  else validateChecksum cleanNumber.

(** The body runs inside [try]; a TypeError on a non-string is caught and
    answered with [false]. *)
Definition validate_value (v : js_value) : result bool :=
  match as_string v with
  | Ok s => Ok (validate s)
  | Throw _ => Ok false
  end.

(** The IBAN assembled from a bank code and an account number. *)
Definition assemble (bankCode accountNumber : str) : str :=
  let baseIban := COUNTRY_CODE ++ lit "00" ++ bankCode ++ lit "0" ++ accountNumber in
  let checkDigits := calculateCheckDigits baseIban in
  let fullIban := COUNTRY_CODE ++ checkDigits ++ bankCode ++ lit "0" ++ accountNumber in
  formatIban fullIban.

Definition generate : Rand str :=
  bankCode <- random_element BANK_CODES ;;
  accountNumber <- generateRandomAccountNumber ;;
  ret (assemble bankCode accountNumber).

Definition complete (prefix : str) : Rand str :=
  let clean := toUpperCase (remove_all is_space prefix) in
  if negb (startsWith (lit "TR") clean) then
    if Nat.eqb (length clean) 0 then ret FALLBACK
    else ret (lit "TR" ++ padEnd 24 "0" clean)
  else if Nat.ltb (length clean) TOTAL_LENGTH then
    let bankCode := nth 0 BANK_CODES [] in
    accountNumber <- generateRandomAccountNumber ;;
    ret (assemble bankCode accountNumber)
  else ret (formatIban clean).

(** The body runs inside [try]; the [catch] returns the fixed IBAN. *)
Definition complete_value (v : js_value) : Rand (result str) :=
  match as_string v with
  | Ok s => r <- complete s ;; ret (Ok r)
  | Throw _ => ret (Ok FALLBACK)
  end.

Definition getExpectedLength : ExpectedLength := Exactly TOTAL_LENGTH.

(** The same checks as [validate], each failure with its message. *)
Definition validateDetailed (value : str) : ValidationResult :=
  let cleanNumber := toUpperCase (remove_all is_space value) in
  if negb (startsWith COUNTRY_CODE cleanNumber) then
    invalid "IBAN Türkiye ülke kodu ile başlamalıdır (TR)"
  else if negb (Nat.eqb (length cleanNumber) TOTAL_LENGTH) then
    invalid "IBAN 26 karakter olmalıdır"
  else if negb (startsWith (lit "TR") cleanNumber
                && digits_exactly 24 (skipn 2 cleanNumber)) then
    invalid "IBAN format geçersiz (TR + 24 rakam olmalıdır)"
  else if negb (str_eqb (substring 9 10 cleanNumber) (lit "0")) then
    invalid "IBAN formatında 10. pozisyon sıfır olmalıdır"
  else if negb (validateChecksum cleanNumber) then
    invalid "IBAN kontrol rakamları geçersiz"
  else valid.

Definition EXAMPLES : list str :=
  map lit [ "TR320010009999901234567890"; "TR330006100519786457841326";
            "TR640001200911200016327426" ]%string.

(** [for (const bankCode of codes) { ...; suggestions.push(...) }] *)
Fixpoint suggest (codes : list str) (suggestions : list str) : Rand (list str) :=
  match codes with
  | [] => ret suggestions
  | bankCode :: rest =>
      accountNumber <- generateRandomAccountNumber ;;
      suggest rest (suggestions ++ [assemble bankCode accountNumber])
  end.

Definition getCompletionSuggestions (partialNumber : str) : Rand (list str) :=
  let clean := toUpperCase (remove_all is_space partialNumber) in
  if negb (startsWith (lit "TR") clean) then
    if Nat.eqb (length clean) 0 then ret [lit "TR"]
    else ret [lit "TR" ++ clean]
  else if Nat.leb (length clean) 4 then ret EXAMPLES
  else if Nat.ltb (length clean) TOTAL_LENGTH then
    suggest (firstn 3 BANK_CODES) []
  else ret [formatIban clean].

End Iban.

(* ================================================================= *)
(** ** Regular expressions used for prefixes and display formats *)

(** [/^c1c2.../]: the string starts with one character of each class. *)
Fixpoint match_prefix (classes : list (ascii -> bool)) (s : str) : bool :=
  match classes, s with
  | [], _ => true
  | f :: fs, c :: r => f c && match_prefix fs r
  | _ :: _, [] => false
  end.

Definition chr (c : ascii) : ascii -> bool := char_eqb c.

(** [[lo-hi]] *)
Definition range (lo hi : ascii) : ascii -> bool :=
  fun c => (code lo <=? code c) && (code c <=? code hi).

(** [[abc]] *)
Definition one_of (l : str) : ascii -> bool :=
  fun c => existsb (char_eqb c) l.

(** Cut a run of digits into the groups of a replacement such as
    ['$1 $2 $3'], separated by spaces. *)
Fixpoint join_groups (sizes : list nat) (run : str) : str :=
  match sizes with
  | [] => []
  | [n] => firstn n run
  | n :: rest => firstn n run ++ " "%char :: join_groups rest (skipn n run)
  end.

(** [s.replace(/(\d{n1})(\d{n2}).../, '$1 $2 ...')]: the leftmost run of
    [n1 + n2 + ...] digits is regrouped; without such a run the string is
    unchanged. *)
Fixpoint regroup_first (sizes : list nat) (s : str) : str :=
  let total := list_sum sizes in
  if digits_exactly total (firstn total s)
  then join_groups sizes (firstn total s) ++ skipn total s
  else
    match s with
    | [] => []
    | c :: r => c :: regroup_first sizes r
    end.

(** [s.replace(/(\d{4})/g, '$1 ')]: scanning from the left, every four
    digits in a row are followed by a space. *)
Fixpoint space_every4 (s : str) : str :=
  match s with
  | [] => []
  | a :: t =>
      match t with
      | b :: c :: d :: r =>
          if is_digit a && is_digit b && is_digit c && is_digit d
          then a :: b :: c :: d :: " "%char :: space_every4 r
          else a :: space_every4 t
      | _ => a :: space_every4 t
      end
  end.

(* ================================================================= *)
(** ** The Luhn loops, written identically in CreditCardService and
       ImeiService *)

Module Luhn.

(** [for (i = s.length - 1; i >= 0; i--)] over the reversed string. *)
Fixpoint loop (reversed : str) (sum : num) (shouldDouble : bool) : num :=
  match reversed with
  | [] => sum
  | c :: r =>
      let digit := parseInt [c] in
      let digit :=
        if shouldDouble then
          let doubled := nmul digit (Num 2) in
          if ngt doubled (Num 9) then nsub doubled (Num 9) else doubled
        else digit in
      loop r (nadd sum digit) (negb shouldDouble)
  end.

Definition validateLuhn (number : str) : bool :=
  strict_eq (nmod (loop (rev number) (Num 0) false) (Num 10)) (Num 0).

Definition calculateLuhnCheckDigit (payload : str) : str :=
  let sum := loop (rev payload) (Num 0) true in
  toString (nmod (nsub (Num 10) (nmod sum (Num 10))) (Num 10)).

End Luhn.

(* ================================================================= *)
(** ** CreditCardService *)

Module CreditCard.

Inductive pattern : Type :=
| P_4 | P_5_15 | P_2_27 | P_3_47 | P_6011 | P_64_49 | P_65 | P_35_28_89
| P_3_0689.

(** [pattern.test(s)] *)
Definition test (p : pattern) (s : str) : bool :=
  match p with
  | P_4 => match_prefix [chr "4"] s
  | P_5_15 => match_prefix [chr "5"; range "1" "5"] s
  | P_2_27 => match_prefix [chr "2"; range "2" "7"] s
  | P_3_47 => match_prefix [chr "3"; one_of (lit "47")] s
  | P_6011 => match_prefix [chr "6"; chr "0"; chr "1"; chr "1"] s
  | P_64_49 => match_prefix [chr "6"; chr "4"; range "4" "9"] s
  | P_65 => match_prefix [chr "6"; chr "5"] s
  | P_35_28_89 => match_prefix [chr "3"; chr "5"; range "2" "8"; range "8" "9"] s
  | P_3_0689 => match_prefix [chr "3"; one_of (lit "0689")] s
  end.

Record card_info : Type := mkCard {
  patterns : list pattern;
  lengths : list nat;
  name : string
}.

Definition visa := mkCard [P_4] [13; 16; 19]%nat "Visa".
Definition mastercard := mkCard [P_5_15; P_2_27] [16]%nat "Mastercard".
Definition amex := mkCard [P_3_47] [15]%nat "American Express".
Definition discover := mkCard [P_6011; P_64_49; P_65] [16]%nat "Discover".
Definition jcb := mkCard [P_35_28_89] [16]%nat "JCB".
Definition diners := mkCard [P_3_0689] [14]%nat "Diners Club".

(** In the order of [Object.entries]. *)
Definition CARD_TYPES : list card_info :=
  [visa; mastercard; amex; discover; jcb; diners].

Definition validateLuhn := Luhn.validateLuhn.
Definition calculateLuhnCheckDigit := Luhn.calculateLuhnCheckDigit.

Definition detectCardType (cardNumber : str) : option card_info :=
  find (fun info => existsb (fun p => test p cardNumber) (patterns info))
       CARD_TYPES.

(** [[\s\-]] *)
Definition separator (c : ascii) : bool := is_space c || char_eqb c "-".

Definition cleanInput (input : str) : str := remove_all separator input.

Definition formatCardNumber (cardNumber : str) : str :=
  if Nat.eqb (length cardNumber) 15 then regroup_first [4; 6; 5]%nat cardNumber
  else if Nat.eqb (length cardNumber) 14 then regroup_first [4; 6; 4]%nat cardNumber
  else trim (space_every4 cardNumber).

(** [validateDetailed(input).isValid] *)
Definition validate (input : str) : bool :=
  let cleanInput := cleanInput input in
  match cleanInput with
  | [] => false
  | _ :: _ =>
      if negb (all_digits cleanInput) then false
      else
        match detectCardType cleanInput with
        | None => false
        | Some cardType =>
            if negb (existsb (Nat.eqb (length cleanInput)) (lengths cardType))
            then false
            else validateLuhn cleanInput
        end
  end.

(** [cleanInput] calls [input.replace]: a TypeError unless [input] is a
    string. *)
Definition validate_value (v : js_value) : result bool :=
  match as_string v with
  | Ok s => Ok (validate s)
  | Throw m => Throw m
  end.

Definition two_digits (z : Z) : str := padStart 2 "0" (toString (Num z)).

Definition generateNumberForPattern (p : pattern) (length : nat) : Rand str :=
  prefix <-
    match p with
    | P_4 => ret (lit "4")
    | P_5_15 =>
        r <- random_below 5 ;; ret (lit "5" ++ toString (Num (1 + r)))
    | P_2_27 =>
        r <- random_below 6 ;;
        let prefix := lit "2" ++ toString (Num (2 + r)) in
        if str_eqb prefix (lit "22") then
          r2 <- random_below 79 ;; ret (prefix ++ toString (Num (21 + r2)))
        else if str_eqb prefix (lit "27") then
          r2 <- random_below 21 ;; ret (prefix ++ two_digits (0 + r2))
        else
          r2 <- random_below 100 ;; ret (prefix ++ two_digits r2)
    | P_3_47 =>
        q <- random ;;
        ret (lit "3" ++ (if negb (Qle_bool (1 # 2) q) then lit "4" else lit "7"))
    | P_6011 => ret (lit "6011")
    | P_64_49 =>
        r <- random_below 6 ;; ret (lit "64" ++ toString (Num (4 + r)))
    | P_65 => ret (lit "65")
    | P_35_28_89 =>
        r <- random_below 7 ;;
        r2 <- random_below 2 ;;
        ret (lit "35" ++ toString (Num (2 + r)) ++ toString (Num (8 + r2)))
    | P_3_0689 =>
        r <- random_below 4 ;;
        ret (lit "3" ++ nth (Z.to_nat r) (map lit ["0"; "6"; "8"; "9"]%string) [])
    end ;;
  pad_random (length - 1) prefix.

Definition getRandomCardType : Rand card_info :=
  i <- random_below (Z.of_nat (length CARD_TYPES)) ;;
  ret (nth (Z.to_nat i) CARD_TYPES visa).

Definition generate : Rand str :=
  cardInfo <- getRandomCardType ;;
  let pattern := nth 0 (patterns cardInfo) P_4 in
  let length := nth 0 (lengths cardInfo) 0%nat in
  cardNumber <- generateNumberForPattern pattern length ;;
  let payload := substring 0 (length - 1) cardNumber in
  let checkDigit := calculateLuhnCheckDigit payload in
  ret (formatCardNumber (payload ++ checkDigit)).

Definition complete (partialInput : str) : Rand (result str) :=
  let cleanInput := cleanInput partialInput in
  if Nat.ltb (length cleanInput) 4 then
    ret (Throw "En az 4 haneli başlangıç gereklidir")
  else
    match detectCardType cleanInput with
    | None => ret (Throw "Kredi kartı türü tespit edilemedi")
    | Some cardType =>
        let targetLength := nth 0 (lengths cardType) 0%nat in
        if Nat.leb targetLength (length cleanInput) then
          ret (Throw "Kredi kartı numarası zaten tamamlanmış")
        else
          completed <- pad_random (targetLength - 1) cleanInput ;;
          let checkDigit := calculateLuhnCheckDigit completed in
          ret (Ok (formatCardNumber (completed ++ checkDigit)))
    end.

Definition getExpectedLength : ExpectedLength := Between 13 19.

(** [lengths.join(' veya ')] *)
Fixpoint join_lengths (lengths : list nat) : string :=
  match lengths with
  | [] => ""
  | [n] => show (toString (Num (Z.of_nat n)))
  | n :: rest =>
      show (toString (Num (Z.of_nat n))) ++ " veya " ++ join_lengths rest
  end%string.

Definition validateDetailed (input : str) : ValidationResult :=
  let cleanInput := cleanInput input in
  match cleanInput with
  | [] => invalid "Kredi kartı numarası boş olamaz"
  | _ :: _ =>
      if negb (all_digits cleanInput) then
        invalid "Kredi kartı numarası sadece rakam içermelidir"
      else
        match detectCardType cleanInput with
        | None => invalid "Tanınmayan kredi kartı türü"
        | Some cardType =>
            if negb (existsb (Nat.eqb (length cleanInput)) (lengths cardType))
            then invalid (name cardType ++ " kartı "
                            ++ join_lengths (lengths cardType)
                            ++ " haneli olmalıdır")%string
            else if negb (validateLuhn cleanInput) then
              invalid "Kredi kartı numarası geçersiz (Luhn kontrolü başarısız)"
            else valid
        end
  end.

(** The keys of [CARD_TYPES], in the order of its entries. *)
Definition CARD_KEYS : list (str * card_info) :=
  [ (lit "visa", visa); (lit "mastercard", mastercard); (lit "amex", amex);
    (lit "discover", discover); (lit "jcb", jcb); (lit "diners", diners) ].

(** [generateWithOptions(options)]; [cardType] is [options?.cardType].  An
    empty name is falsy and a random network is drawn, as when no name is
    given.  An inherited name finds an object without [patterns], and
    indexing that throws. *)
Definition generateWithOptions (cardType : option str) : Rand (result str) :=
  let key :=
    match cardType with
    | Some s => toLowerCase s
    | None => []
    end in
  cardInfo <-
    match key with
    | [] => c <- getRandomCardType ;; ret (Ok c)
    | _ :: _ =>
        match lookup CARD_KEYS key with
        | Some c => ret (Ok c)
        | None =>
            if includes INHERITED key then ret (Throw TypeError)
            else
              ret (Throw ("Desteklenmeyen kart türü: "
                            ++ show (match cardType with
                                     | Some s => s
                                     | None => []
                                     end))%string)
        end
    end ;;
  match cardInfo with
  | Throw m => ret (Throw m)
  | Ok cardInfo =>
      let pattern := nth 0 (patterns cardInfo) P_4 in
      let length := nth 0 (lengths cardInfo) 0%nat in
      cardNumber <- generateNumberForPattern pattern length ;;
      let payload := substring 0 (length - 1) cardNumber in
      let checkDigit := calculateLuhnCheckDigit payload in
      ret (Ok (formatCardNumber (payload ++ checkDigit)))
  end.

Definition maskCardNumber (cardNumber : str) : str :=
  if Nat.ltb (length cardNumber) 10 then cardNumber
  else
    let first6 := substring 0 6 cardNumber in
    let last4 := substring_from (length cardNumber - 4) cardNumber in
    let maskLength := (length cardNumber - 10)%nat in
    let mask := repeat "*"%char maskLength in
    formatCardNumber (first6 ++ mask ++ last4).

End CreditCard.

(* ================================================================= *)
(** ** ImeiService *)

Module Imei.

Definition COMMON_TACS : list str :=
  map lit [
    "01215200"; "01215300"; "01215400"; "01332100"; "01332200";
    "35238708"; "35238709"; "35238710"; "35999205"; "35999206";
    "86446003"; "86446103"; "86446203"; "35316409"; "35316410";
    "86585403"; "86585404"; "86585405"; "86585503"; "86585504";
    "35161511"; "35161512"; "35161513"; "35161514"; "35161515";
    "35925806"; "35925807"; "35925808"; "35925809"; "35925810";
    "01180000"; "01180100"; "01180200"; "35209900"; "35209901";
    "35403906"; "35403907"; "35403908"; "35403909"; "35403910";
    "86177103"; "86177104"; "86177105"; "86177106"; "86177107";
    "35685302"; "35685303"; "35685304"; "35685305"; "35685306"
  ]%string.

Definition validateLuhn := Luhn.validateLuhn.
Definition calculateLuhnCheckDigit := Luhn.calculateLuhnCheckDigit.

(** [[\s\-\.]] *)
Definition separator (c : ascii) : bool :=
  is_space c || char_eqb c "-" || char_eqb c ".".

Definition cleanInput (input : str) : str := remove_all separator input.

Definition formatImei (imei : str) : str := regroup_first [2; 6; 6; 1]%nat imei.

(** [validateDetailed(input).isValid] *)
Definition validate (input : str) : bool :=
  let cleanInput := cleanInput input in
  match cleanInput with
  | [] => false
  | _ :: _ =>
      if negb (digits_exactly 15 cleanInput) then false
      else validateLuhn cleanInput
  end.

Definition validate_value (v : js_value) : result bool :=
  match as_string v with
  | Ok s => Ok (validate s)
  | Throw m => Throw m
  end.

Definition generate : Rand str :=
  tac <- random_element COMMON_TACS ;;
  r <- random_below 1000000 ;;
  let serialNumber := padStart 6 "0" (toString (Num r)) in
  let payload := tac ++ serialNumber in
  let checkDigit := calculateLuhnCheckDigit payload in
  ret (formatImei (payload ++ checkDigit)).

Definition complete (partialInput : str) : Rand (result str) :=
  let cleanInput := cleanInput partialInput in
  if Nat.ltb (length cleanInput) 8 then
    ret (Throw "En az 8 haneli TAC kodu gereklidir")
  else if Nat.leb 15 (length cleanInput) then
    ret (Throw "IMEI numarası zaten tamamlanmış")
  else
    completed <- pad_random 14 cleanInput ;;
    let checkDigit := calculateLuhnCheckDigit completed in
    ret (Ok (formatImei (completed ++ checkDigit))).

Definition getExpectedLength : ExpectedLength := Exactly 15.

Definition validateDetailed (input : str) : ValidationResult :=
  let cleanInput := cleanInput input in
  match cleanInput with
  | [] => invalid "IMEI numarası boş olamaz"
  | _ :: _ =>
      if negb (digits_exactly 15 cleanInput) then
        invalid "IMEI numarası tam olarak 15 haneli olmalıdır"
      else if negb (validateLuhn cleanInput) then
        invalid "IMEI numarası geçersiz (Luhn kontrolü başarısız)"
      else valid
  end.

End Imei.

(* ================================================================= *)
(** ** IsbnService *)

Module Isbn.

Definition COMMON_PREFIXES_ISBN13 : list str := map lit ["978"; "979"]%string.

Definition COMMON_GROUPS : list str :=
  map lit ["0"; "1"; "2"; "3"; "4"; "5"; "7"; "9"]%string.

(** [[-\s]] *)
Definition separator (c : ascii) : bool := char_eqb c "-" || is_space c.

Definition cleanInput (input : str) : str :=
  toUpperCase (remove_all separator input).

(** [/^[\dX]{10}$/] *)
Definition isbn10_shape (s : str) : bool :=
  Nat.eqb (length s) 10 && forallb (fun c => is_digit c || char_eqb c "X") s.

(** [for (i = 0; i < 9; i++) sum += (10 - i) * parseInt(isbn[i], 10)] *)
Definition weighted_sum10 (isbn : str) : num :=
  fold_left
    (fun sum i => nadd sum (nmul (Num (10 - Z.of_nat i)) (parseInt10_at isbn i)))
    (seq 0 9) (Num 0).

Definition calculateIsbn10CheckDigit (sum : num) : str :=
  let remainder := nmod sum (Num 11) in
  let checkDigit := nmod (nsub (Num 11) remainder) (Num 11) in
  if strict_eq checkDigit (Num 10) then lit "X" else toString checkDigit.

(** [for (i = 0; i < 12; i++) sum += i % 2 === 0 ? digit : digit * 3] *)
Definition weighted_sum13 (isbn : str) : num :=
  fold_left
    (fun sum i =>
       let digit := parseInt10_at isbn i in
       nadd sum (if Nat.eqb (i mod 2) 0 then digit else nmul digit (Num 3)))
    (seq 0 12) (Num 0).

Definition validateIsbn10 (isbn : str) : bool :=
  if negb (isbn10_shape isbn) then false
  else
    let sum := weighted_sum10 isbn in
    let checkDigit := substring 9 10 isbn in
    let calculatedCheck := calculateIsbn10CheckDigit sum in
    str_eqb checkDigit calculatedCheck.

Definition validateIsbn13 (isbn : str) : bool :=
  if negb (digits_exactly 13 isbn) then false
  else if negb (startsWith (lit "978") isbn) && negb (startsWith (lit "979") isbn)
  then false
  else
    let sum := weighted_sum13 isbn in
    let checkDigit := parseInt10_at isbn 12 in
    let calculatedCheck := nmod (nsub (Num 10) (nmod sum (Num 10))) (Num 10) in
    strict_eq checkDigit calculatedCheck.

Definition calculateIsbn13CheckDigit (isbn12 : str) : str :=
  let sum := weighted_sum13 isbn12 in
  toString (nmod (nsub (Num 10) (nmod sum (Num 10))) (Num 10)).

Definition validate (input : str) : bool :=
  let cleaned := cleanInput input in
  if Nat.eqb (length cleaned) 10 then validateIsbn10 cleaned
  else if Nat.eqb (length cleaned) 13 then validateIsbn13 cleaned
  else false.

Definition validate_value (v : js_value) : result bool :=
  match as_string v with
  | Ok s => Ok (validate s)
  | Throw m => Throw m
  end.

Definition formatIsbn10 (isbn : str) : str :=
  if negb (Nat.eqb (length isbn) 10) then isbn
  else substring 0 1 isbn ++ lit "-" ++ substring 1 4 isbn ++ lit "-"
         ++ substring 4 9 isbn ++ lit "-" ++ substring_from 9 isbn.

Definition formatIsbn13 (isbn : str) : str :=
  if negb (Nat.eqb (length isbn) 13) then isbn
  else substring 0 3 isbn ++ lit "-" ++ substring 3 4 isbn ++ lit "-"
         ++ substring 4 7 isbn ++ lit "-" ++ substring 7 12 isbn ++ lit "-"
         ++ substring_from 12 isbn.

(** [generateRandomDigits(min, max?)]: with a (non-zero) [max] the length
    is drawn between [min] and [max], otherwise it is [min]. *)
Definition generateRandomDigits (min : Z) (max : option Z) : Rand str :=
  length <-
    match max with
    | Some mx =>
        if mx =? 0 then ret min
        else (r <- random_below (mx - min + 1) ;; ret (r + min))
    | None => ret min
    end ;;
  append_digits (Z.to_nat length) [].

Definition getRandomElement := random_element.

(** The body of [generateIsbn10]; [retry] stands for the recursive call. *)
Definition generateIsbn10_body (retry : Rand (option str)) : Rand (option str) :=
  group <- getRandomElement COMMON_GROUPS ;;
  publisher <- generateRandomDigits 2 (Some 4) ;;
  title <- generateRandomDigits 3 (Some 5) ;;
  let totalLength := (length group + length publisher + length title)%nat in
  if Nat.ltb 9 totalLength then retry
  else
    let padding := repeat "0"%char (9 - totalLength) in
    let isbn9 := group ++ publisher ++ title ++ padding in
    let sum := weighted_sum10 isbn9 in
    let checkDigit := calculateIsbn10CheckDigit sum in
    ret (Some (formatIsbn10 (isbn9 ++ checkDigit))).

(** [None] when the retries have used up [fuel]. *)
Fixpoint generateIsbn10 (fuel : nat) : Rand (option str) :=
  match fuel with
  | O => ret None
  | S f => generateIsbn10_body (generateIsbn10 f)
  end.

Definition generateIsbn13_body (retry : Rand (option str)) : Rand (option str) :=
  prefix <- getRandomElement COMMON_PREFIXES_ISBN13 ;;
  group <- getRandomElement COMMON_GROUPS ;;
  publisher <- generateRandomDigits 2 (Some 4) ;;
  title <- generateRandomDigits 3 (Some 5) ;;
  let totalLength :=
    (length prefix + length group + length publisher + length title)%nat in
  if Nat.ltb 12 totalLength then retry
  else
    let padding := repeat "0"%char (12 - totalLength) in
    let isbn12 := prefix ++ group ++ publisher ++ title ++ padding in
    let checkDigit := calculateIsbn13CheckDigit isbn12 in
    ret (Some (formatIsbn13 (isbn12 ++ checkDigit))).

Fixpoint generateIsbn13 (fuel : nat) : Rand (option str) :=
  match fuel with
  | O => ret None
  | S f => generateIsbn13_body (generateIsbn13 f)
  end.

Definition generate (fuel : nat) : Rand (option str) :=
  q <- random ;;
  if negb (Qle_bool (7 # 10) q) then generateIsbn13 fuel else generateIsbn10 fuel.

(** The random source as attempt [k] of [generateIsbn10], respectively
    [generateIsbn13], finds it; one attempt is the function run with room
    for a single round. *)
Definition before_attempt10 (k : nat) (g : Rng) : Rng :=
  Nat.iter k (fun g' => snd (generateIsbn10 1 g')) g.

Definition before_attempt13 (k : nat) (g : Rng) : Rng :=
  Nat.iter k (fun g' => snd (generateIsbn13 1 g')) g.

(** The parts one attempt of [generateIsbn10] draws, in the order of the
    source: group, publisher, title. *)
Definition draw_parts10 : Rand (list str) :=
  group <- getRandomElement COMMON_GROUPS ;;
  publisher <- generateRandomDigits 2 (Some 4) ;;
  title <- generateRandomDigits 3 (Some 5) ;;
  ret [group; publisher; title].

(** The parts one attempt of [generateIsbn13] draws: prefix, group,
    publisher, title. *)
Definition draw_parts13 : Rand (list str) :=
  prefix <- getRandomElement COMMON_PREFIXES_ISBN13 ;;
  group <- getRandomElement COMMON_GROUPS ;;
  publisher <- generateRandomDigits 2 (Some 4) ;;
  title <- generateRandomDigits 3 (Some 5) ;;
  ret [prefix; group; publisher; title].

(** [totalLength]: the lengths of the drawn parts added up; an attempt is
    retried when it exceeds the number of data digits. *)
Definition totalLength (parts : list str) : nat :=
  fold_right (fun part n => (length part + n)%nat) 0%nat parts.

Definition completeAsIsbn10 (partial : str) : Rand str :=
  let needed := 9 - Z.of_nat (length partial) in
  if needed <=? 0 then
    let padded := padEnd 9 "0" partial in
    let sum := weighted_sum10 padded in
    let checkDigit := calculateIsbn10CheckDigit sum in
    ret (formatIsbn10 (padded ++ checkDigit))
  else
    completion <- generateRandomDigits needed None ;;
    let isbn9 := partial ++ completion in
    let sum := weighted_sum10 isbn9 in
    let checkDigit := calculateIsbn10CheckDigit sum in
    ret (formatIsbn10 (isbn9 ++ checkDigit)).

Definition completeAsIsbn13 (partial : str) : Rand str :=
  let workingPartial :=
    if negb (startsWith (lit "978") partial) && negb (startsWith (lit "979") partial)
    then lit "978" ++ partial
    else partial in
  let needed := 12 - Z.of_nat (length workingPartial) in
  if needed <=? 0 then
    let isbn12 := substring 0 12 workingPartial in
    let checkDigit := calculateIsbn13CheckDigit isbn12 in
    ret (formatIsbn13 (isbn12 ++ checkDigit))
  else
    completion <- generateRandomDigits needed None ;;
    let isbn12 := workingPartial ++ completion in
    let checkDigit := calculateIsbn13CheckDigit isbn12 in
    ret (formatIsbn13 (isbn12 ++ checkDigit)).

Definition complete (partial : str) : Rand (result str) :=
  let cleaned := cleanInput partial in
  if Nat.leb 3 (length cleaned) && Nat.ltb (length cleaned) 10 then
    r <- completeAsIsbn10 cleaned ;; ret (Ok r)
  else if Nat.leb 3 (length cleaned) && Nat.ltb (length cleaned) 13 then
    r <- completeAsIsbn13 cleaned ;; ret (Ok r)
  else ret (Throw "Girilen kısmi ISBN numarası tamamlanamıyor").

Definition getExpectedLength : ExpectedLength := Between 10 13.

End Isbn.

(* ================================================================= *)
(** ** EanService *)

Module Ean.

Definition COMMON_GS1_PREFIXES : list str :=
  map lit [
    "000"; "001"; "002"; "003"; "004"; "005"; "006"; "007"; "008"; "009";
    "020"; "021"; "022"; "023"; "024"; "025"; "026"; "027"; "028"; "029";
    "030"; "031"; "032"; "033"; "034"; "035"; "036"; "037"; "038"; "039";
    "040"; "041"; "042"; "043"; "044"; "045"; "046"; "047"; "048"; "049";
    "050"; "051"; "052"; "053"; "054"; "055"; "056"; "057"; "058"; "059";
    "060"; "061"; "062"; "063"; "064"; "065"; "066"; "067"; "068"; "069";
    "070"; "071"; "072"; "073"; "074"; "075"; "076"; "077"; "078"; "079";
    "080"; "081"; "082"; "083"; "084"; "085"; "086"; "087"; "088"; "089";
    "090"; "091"; "092"; "093"; "094"; "095"; "096"; "097"; "098"; "099";
    "100"; "101"; "102"; "103"; "104"; "105"; "106"; "107"; "108"; "109";
    "200"; "201"; "202"; "203"; "204"; "205"; "206"; "207"; "208"; "209";
    "300"; "301"; "302"; "303"; "304"; "305"; "306"; "307"; "308"; "309";
    "380"; "383"; "385"; "387"; "400"; "401"; "402"; "403"; "450"; "451";
    "452"; "453"; "454"; "455"; "456"; "457"; "458"; "459"; "460"; "461";
    "462"; "463"; "464"; "465"; "466"; "467"; "468"; "469"; "470"; "471";
    "474"; "475"; "476"; "477"; "478"; "479"; "480"; "481"; "482"; "484";
    "485"; "486"; "487"; "488"; "489"; "490"; "491"; "492"; "493"; "494";
    "495"; "496"; "497"; "498"; "499"; "500"; "501"; "502"; "503"; "504";
    "505"; "506"; "507"; "508"; "509"; "520"; "521"; "528"; "529"; "530";
    "531"; "535"; "539"; "540"; "541"; "542"; "543"; "544"; "545"; "546";
    "547"; "548"; "549"; "560"; "569"; "570"; "571"; "572"; "573"; "574";
    "575"; "576"; "577"; "578"; "579"; "590"; "594"; "599"; "600"; "601";
    "603"; "604"; "608"; "609"; "611"; "613"; "615"; "616"; "618"; "619";
    "620"; "621"; "622"; "624"; "625"; "626"; "627"; "628"; "629"; "640";
    "641"; "642"; "643"; "644"; "645"; "646"; "647"; "648"; "649"; "690";
    "691"; "692"; "693"; "694"; "695"; "696"; "697"; "698"; "699"; "700";
    "701"; "702"; "703"; "704"; "705"; "706"; "707"; "708"; "709"; "729";
    "730"; "731"; "732"; "733"; "734"; "735"; "736"; "737"; "738"; "739";
    "740"; "741"; "742"; "743"; "744"; "745"; "746"; "750"; "754"; "755";
    "759"; "760"; "761"; "762"; "763"; "764"; "765"; "766"; "767"; "768";
    "769"; "770"; "771"; "773"; "775"; "777"; "778"; "779"; "780"; "784";
    "786"; "789"; "790"; "800"; "801"; "802"; "803"; "804"; "805"; "806";
    "807"; "808"; "809"; "840"; "841"; "842"; "843"; "844"; "845"; "846";
    "847"; "848"; "849"; "850"; "858"; "859"; "860"; "865"; "867"; "868";
    "869"; "870"; "871"; "872"; "873"; "874"; "875"; "876"; "877"; "878";
    "879"; "880"; "884"; "885"; "888"; "890"; "893"; "896"; "899"; "900";
    "901"; "902"; "903"; "904"; "905"; "906"; "907"; "908"; "909"; "930";
    "931"; "932"; "933"; "934"; "935"; "936"; "937"; "938"; "939"; "940";
    "941"; "942"; "943"; "944"; "945"; "946"; "947"; "948"; "949"; "950";
    "951"; "955"; "958"; "977"; "978"; "979"; "980"; "981"; "982"; "990";
    "991"; "992"; "993"; "994"; "995"; "996"; "997"; "998"; "999"
  ]%string.

(** [[\s\-]] *)
Definition separator (c : ascii) : bool := is_space c || char_eqb c "-".

Definition cleanInput (input : str) : str := remove_all separator input.

(** [for (i = 0; i < digits.length; i++)
       sum += digits[i] * ((digits.length - i) % 2 === 1 ? 3 : 1)],
    over the digits still to be read: [digits.length - i] is their count. *)
Fixpoint weighted_loop (rest : list num) (sum : num) : num :=
  match rest with
  | [] => sum
  | d :: r =>
      let weight := if Nat.eqb (length rest mod 2) 1 then Num 3 else Num 1 in
      weighted_loop r (nadd sum (nmul d weight))
  end.

Definition validateChecksum (code : str) (length : nat) : bool :=
  let digits := map Number_char code in
  let dataDigits := firstn (length - 1) digits in
  let sum := weighted_loop dataDigits (Num 0) in
  let calculatedCheck := nmod (nsub (Num 10) (nmod sum (Num 10))) (Num 10) in
  match nth_error digits (length - 1) with
  | Some checkDigit => strict_eq checkDigit calculatedCheck
  | None => false
  end.

Definition calculateChecksum (dataDigits : str) : str :=
  let digits := map Number_char dataDigits in
  let sum := weighted_loop digits (Num 0) in
  toString (nmod (nsub (Num 10) (nmod sum (Num 10))) (Num 10)).

Definition validateEan13 (ean : str) : bool :=
  if negb (digits_exactly 13 ean) then false else validateChecksum ean 13.

Definition validateUpcA (upc : str) : bool :=
  if negb (digits_exactly 12 upc) then false else validateChecksum upc 12.

Definition validateEan8 (ean : str) : bool :=
  if negb (digits_exactly 8 ean) then false else validateChecksum ean 8.

Definition validate (input : str) : bool :=
  let cleaned := cleanInput input in
  if Nat.eqb (length cleaned) 13 then validateEan13 cleaned
  else if Nat.eqb (length cleaned) 12 then validateUpcA cleaned
  else if Nat.eqb (length cleaned) 8 then validateEan8 cleaned
  else false.

Definition validate_value (v : js_value) : result bool :=
  match as_string v with
  | Ok s => Ok (validate s)
  | Throw m => Throw m
  end.

Definition formatEan13 (ean : str) : str :=
  if negb (Nat.eqb (length ean) 13) then ean
  else substring 0 1 ean ++ lit " " ++ substring 1 7 ean ++ lit " "
         ++ substring 7 13 ean.

Definition formatUpcA (upc : str) : str :=
  if negb (Nat.eqb (length upc) 12) then upc
  else substring 0 1 upc ++ lit " " ++ substring 1 6 upc ++ lit " "
         ++ substring 6 11 upc ++ lit " " ++ substring_from 11 upc.

Definition formatEan8 (ean : str) : str :=
  if negb (Nat.eqb (length ean) 8) then ean
  else substring 0 4 ean ++ lit " " ++ substring_from 4 ean.

(** Written identically in IsbnService and EanService. *)
Definition generateRandomDigits := Isbn.generateRandomDigits.
Definition getRandomElement := random_element.

Definition generateEan13 : Rand str :=
  prefix <- getRandomElement COMMON_GS1_PREFIXES ;;
  manufacturer <- generateRandomDigits 3 (Some 5) ;;
  product <- generateRandomDigits 2 (Some 4) ;;
  let totalLength := (length prefix + length manufacturer + length product)%nat in
  let dataDigits := prefix ++ manufacturer ++ product in
  dataDigits <-
    (if Nat.ltb totalLength 12 then
       extra <- generateRandomDigits (12 - Z.of_nat totalLength) None ;;
       ret (dataDigits ++ extra)
     else if Nat.ltb 12 totalLength then ret (substring 0 12 dataDigits)
     else ret dataDigits) ;;
  let checkDigit := calculateChecksum dataDigits in
  ret (formatEan13 (dataDigits ++ checkDigit)).

Definition generateUpcA : Rand str :=
  firstDigit <- random_digit ;;
  manufacturer <- generateRandomDigits 5 None ;;
  product <- generateRandomDigits 5 None ;;
  let dataDigits := firstDigit ++ manufacturer ++ product in
  let checkDigit := calculateChecksum dataDigits in
  ret (formatUpcA (dataDigits ++ checkDigit)).

Definition generateEan8 : Rand str :=
  country <- generateRandomDigits 2 (Some 3) ;;
  manufacturer <- generateRandomDigits 2 (Some 3) ;;
  product <- generateRandomDigits 1 (Some 2) ;;
  let dataDigits := country ++ manufacturer ++ product in
  dataDigits <-
    (if Nat.ltb (length dataDigits) 7 then
       extra <- generateRandomDigits (7 - Z.of_nat (length dataDigits)) None ;;
       ret (dataDigits ++ extra)
     else if Nat.ltb 7 (length dataDigits) then ret (substring 0 7 dataDigits)
     else ret dataDigits) ;;
  let checkDigit := calculateChecksum dataDigits in
  ret (formatEan8 (dataDigits ++ checkDigit)).

Definition generate : Rand str :=
  rand <- random ;;
  if negb (Qle_bool (60 # 100) rand) then generateEan13
  else if negb (Qle_bool (85 # 100) rand) then generateUpcA
  else generateEan8.

(** The three completion helpers share one shape: [dataLength] is 12, 11
    or 7. *)
Definition completeAs (dataLength : nat) (format : str -> str) (partial : str)
  : Rand str :=
  let needed := Z.of_nat dataLength - Z.of_nat (length partial) in
  if needed <=? 0 then
    let dataDigits := substring 0 dataLength partial in
    let checkDigit := calculateChecksum dataDigits in
    ret (format (dataDigits ++ checkDigit))
  else
    completion <- generateRandomDigits needed None ;;
    let dataDigits := partial ++ completion in
    let checkDigit := calculateChecksum dataDigits in
    ret (format (dataDigits ++ checkDigit)).

Definition completeAsEan13 : str -> Rand str := completeAs 12 formatEan13.
Definition completeAsUpcA : str -> Rand str := completeAs 11 formatUpcA.
Definition completeAsEan8 : str -> Rand str := completeAs 7 formatEan8.

(** Which helper [complete] hands the partial to. *)
Inductive target : Type := ToEan8 | ToEan13 | ToUpcA.

Definition route (cleaned : str) : option target :=
  if Nat.leb 3 (length cleaned) && Nat.ltb (length cleaned) 7 then Some ToEan8
  else if Nat.leb 7 (length cleaned) && Nat.ltb (length cleaned) 12 then Some ToEan13
  else if Nat.leb 3 (length cleaned) && Nat.ltb (length cleaned) 12 then Some ToUpcA
  else None.

Definition complete (partial : str) : Rand (result str) :=
  let cleaned := cleanInput partial in
  match route cleaned with
  | Some ToEan8 => r <- completeAsEan8 cleaned ;; ret (Ok r)
  | Some ToEan13 => r <- completeAsEan13 cleaned ;; ret (Ok r)
  | Some ToUpcA => r <- completeAsUpcA cleaned ;; ret (Ok r)
  | None => ret (Throw "Girilen kısmi EAN/UPC numarası tamamlanamıyor")
  end.

Definition getExpectedLength : ExpectedLength := Between 8 13.

End Ean.

(* ================================================================= *)
(** ** ServiceFactory: format detection *)

Inductive ServiceType : Type :=
| TCKN | VKN | IBAN | CREDIT_CARD | ISBN | EAN | IMEI.

(** The enum's values. *)
Definition ServiceType_value (t : ServiceType) : str :=
  lit match t with
      | TCKN => "tckn"
      | VKN => "vkn"
      | IBAN => "iban"
      | CREDIT_CARD => "creditcard"
      | ISBN => "isbn"
      | EAN => "ean"
      | IMEI => "imei"
      end.

Definition SERVICE_ALIASES : list (str * ServiceType) :=
  [ (lit "tckn", TCKN); (lit "vkn", VKN); (lit "iban", IBAN);
    (lit "creditcard", CREDIT_CARD); (lit "isbn", ISBN); (lit "ean", EAN);
    (lit "upc", EAN); (lit "imei", IMEI) ].

Module ServiceFactory.

Definition ServiceType_eqb (a b : ServiceType) : bool :=
  match a, b with
  | TCKN, TCKN | VKN, VKN | IBAN, IBAN | CREDIT_CARD, CREDIT_CARD
  | ISBN, ISBN | EAN, EAN | IMEI, IMEI => true
  | _, _ => false
  end.

(** [/^[\dX]+$/] *)
Definition digits_or_X (s : str) : bool :=
  match s with
  | [] => false
  | _ :: _ => forallb (fun c => is_digit c || char_eqb c "X") s
  end.

(** [/^\d+$/] *)
Definition digits_only (s : str) : bool :=
  match s with
  | [] => false
  | _ :: _ => all_digits s
  end.

Definition card_prefix (s : str) : bool :=
  match_prefix [chr "4"] s
  || match_prefix [chr "5"; range "1" "5"] s
  || match_prefix [chr "2"; range "2" "7"] s
  || match_prefix [chr "3"; one_of (lit "47")] s
  || match_prefix [chr "6"; chr "0"; chr "1"; chr "1"] s
  || match_prefix [chr "6"; chr "4"; range "4" "9"] s
  || match_prefix [chr "6"; chr "5"] s
  || match_prefix [chr "3"; chr "5"; range "2" "8"] s
  || match_prefix [chr "3"; one_of (lit "0689")] s.

Definition detectPossibleServiceTypes (input : str) : list ServiceType :=
  let cleanInput := toUpperCase (remove_all is_space input) in
  if (startsWith (lit "TR") cleanInput && digits_exactly 24 (skipn 2 cleanInput))
     || startsWith (lit "TR") cleanInput
  then [IBAN]
  else
    let possibleServices :=
      if digits_or_X cleanInput then
        if Nat.eqb (length cleanInput) 10 then [ISBN]
        else if Nat.eqb (length cleanInput) 13 then
          if startsWith (lit "978") cleanInput || startsWith (lit "979") cleanInput
          then [ISBN] else []
        else []
      else [] in
    if negb (digits_only cleanInput) then possibleServices
    else
      let possibleServices :=
        possibleServices ++
        match length cleanInput with
        | 8%nat => [EAN]
        | 10%nat =>
            if existsb (ServiceType_eqb VKN) possibleServices then [] else [VKN]
        | 11%nat => [TCKN]
        | 12%nat => [EAN]
        | 13%nat => [EAN]
        | 15%nat => [IMEI]
        | _ => []
        end in
      if Nat.leb 13 (length cleanInput) && Nat.leb (length cleanInput) 19
         && card_prefix cleanInput
      then possibleServices ++ [CREDIT_CARD]
      else possibleServices.

Definition detectServiceType (input : str) : option ServiceType :=
  match detectPossibleServiceTypes input with
  | [t] => Some t
  | _ => None
  end.

(** [Object.values(ServiceType)] *)
Definition getAvailableServices : list ServiceType :=
  [TCKN; VKN; IBAN; CREDIT_CARD; ISBN; EAN; IMEI].

(** What [normalizeServiceType] hands back: a service type, or a member
    inherited from [Object.prototype], kept as the text it prints as. *)
Inductive normalized : Type :=
| Known (t : ServiceType)
| Foreign (shown : string).

Definition normalizeServiceType (type : str) : result normalized :=
  match find (fun t => str_eqb type (ServiceType_value t)) getAvailableServices with
  | Some t => Ok (Known t)
  | None =>
      let key := toLowerCase type in
      match lookup SERVICE_ALIASES key with
      | Some alias => Ok (Known alias)
      | None =>
          if str_eqb key (lit "constructor")
          then Ok (Foreign "function Object() { [native code] }")
          else if str_eqb key (lit "__proto__")
          then Ok (Foreign "[object Object]")
          else Throw ("Bilinmeyen servis tipi: " ++ show type)%string
      end
  end.

(** The instance is named by the type whose class is instantiated. *)
Definition createService (type : normalized) : result ServiceType :=
  match type with
  | Known t => Ok t
  | Foreign shown => Throw ("Desteklenmeyen servis tipi: " ++ shown)%string
  end.

(** The map of instances only keeps a class from being instantiated twice;
    the services hold no state, so an instance is identified with its
    type. *)
Definition getService (type : str) : result ServiceType :=
  match normalizeServiceType type with
  | Throw m => Throw m
  | Ok serviceType => createService serviceType
  end.

End ServiceFactory.

(* ================================================================= *)
(** ** The NumberService interface, dispatched on the instance *)

Module Service.

Definition getExpectedLength (t : ServiceType) : ExpectedLength :=
  match t with
  | TCKN => Tckn.getExpectedLength
  | VKN => Vkn.getExpectedLength
  | IBAN => Iban.getExpectedLength
  | CREDIT_CARD => CreditCard.getExpectedLength
  | ISBN => Isbn.getExpectedLength
  | EAN => Ean.getExpectedLength
  | IMEI => Imei.getExpectedLength
  end.

Definition validate (t : ServiceType) (value : str) : bool :=
  match t with
  | TCKN => Tckn.validate value
  | VKN => Vkn.validate value
  | IBAN => Iban.validate value
  | CREDIT_CARD => CreditCard.validate value
  | ISBN => Isbn.validate value
  | EAN => Ean.validate value
  | IMEI => Imei.validate value
  end.

End Service.

(* ================================================================= *)
(** ** Command line: argument parsing and the default action *)

Module Cli.

Inductive Action : Type := Generate | Validate | Complete.

Record CliArgs : Type := mkArgs {
  help : bool;
  version : bool;
  service : option str;
  serviceSetViaFlag : bool;
  action : option Action;
  count : num;
  input : option str
}.

(** An optional string in a condition: absent and empty are both falsy. *)
Definition truthy (o : option str) : bool :=
  match o with
  | Some (_ :: _) => true
  | _ => false
  end.

(** [Object.prototype.hasOwnProperty.call(SERVICE_ALIASES, input.toLowerCase())] *)
Definition isKnownService (input : str) : bool :=
  match lookup SERVICE_ALIASES (toLowerCase input) with
  | Some _ => true
  | None => false
  end.

Definition is_flag (long short arg : str) : bool :=
  str_eqb arg long || str_eqb arg short.

Definition parse_action (value : str) : option Action :=
  if str_eqb value (lit "generate") then Some Generate
  else if str_eqb value (lit "validate") then Some Validate
  else if str_eqb value (lit "complete") then Some Complete
  else None.

(** [/^TR\d+$/i] *)
Definition iban_like (s : str) : bool :=
  match s with
  | t :: r :: rest =>
      (char_eqb t "T" || char_eqb t "t") && (char_eqb r "R" || char_eqb r "r")
      && ServiceFactory.digits_only rest
  | _ => false
  end.

Definition isNaN (n : num) : bool :=
  match n with NaN => true | Num _ => false end.

Definition with_service (value : str) (viaFlag : bool) (r : CliArgs) : CliArgs :=
  mkArgs (help r) (version r) (Some value) viaFlag (action r) (count r) (input r).

Definition with_count (value : num) (r : CliArgs) : CliArgs :=
  mkArgs (help r) (version r) (service r) (serviceSetViaFlag r) (action r) value
         (input r).

Definition with_input (value : str) (r : CliArgs) : CliArgs :=
  mkArgs (help r) (version r) (service r) (serviceSetViaFlag r) (action r)
         (count r) (Some value).

(** The [default] case for an argument that does not start with a dash. *)
Definition positional (arg : str) (r : CliArgs) : CliArgs :=
  if isKnownService arg && negb (truthy (service r)) then
    with_service arg (serviceSetViaFlag r) r
  else if ServiceFactory.digits_only arg then
    let numValue := parseInt10 arg in
    if truthy (service r) && strict_eq (count r) (Num 1) then
      if negb (serviceSetViaFlag r) then with_count numValue r
      else with_input arg r
    else if negb (truthy (input r)) then with_input arg r
    else r
  else if iban_like arg && negb (truthy (input r)) then with_input arg r
  else if negb (truthy (input r)) then with_input arg r
  else r.

(** [while (i < args.length)] over the arguments still to be read; an option
    with a value takes two of them. *)
Fixpoint parse_loop (args : list str) (r : CliArgs) : result CliArgs :=
  match args with
  | [] => Ok r
  | arg :: rest =>
      if is_flag (lit "--help") (lit "-h") arg then
        parse_loop rest
          (mkArgs true (version r) (service r) (serviceSetViaFlag r) (action r)
                  (count r) (input r))
      else if is_flag (lit "--version") (lit "-v") arg then
        parse_loop rest
          (mkArgs (help r) true (service r) (serviceSetViaFlag r) (action r)
                  (count r) (input r))
      else if is_flag (lit "--service") (lit "-s") arg then
        match rest with
        | value :: rest' => parse_loop rest' (with_service value true r)
        | [] => Throw "--service/-s seçeneği için değer gerekli"
        end
      else if is_flag (lit "--action") (lit "-a") arg then
        match rest with
        | value :: rest' =>
            match parse_action value with
            | Some a =>
                parse_loop rest'
                  (mkArgs (help r) (version r) (service r) (serviceSetViaFlag r)
                          (Some a) (count r) (input r))
            | None =>
                Throw "--action/-a seçeneği için geçerli değerler: generate, validate, complete"
            end
        | [] => Throw "--action/-a seçeneği için değer gerekli"
        end
      else if is_flag (lit "--count") (lit "-c") arg then
        match rest with
        | value :: rest' =>
            let count := parseInt10 value in
            if isNaN count || ngt (Num 1) count then
              Throw "--count/-c seçeneği için geçerli bir sayı gerekli"
            else parse_loop rest' (with_count count r)
        | [] => Throw "--count/-c seçeneği için değer gerekli"
        end
      else if negb (startsWith (lit "-") arg) then
        parse_loop rest (positional arg r)
      else Throw ("Bilinmeyen seçenek: " ++ show arg)%string
  end.

Definition parseArgs (args : list str) : result CliArgs :=
  parse_loop args (mkArgs false false None false None (Num 1) None).

(** [[\s\-]] *)
Definition separator (c : ascii) : bool := is_space c || char_eqb c "-".

(** An unknown service makes [getService] throw inside the [try]; the
    [catch] is empty and the function goes on below the [if]. *)
Definition determineDefaultAction (args : CliArgs) : Action :=
  let otherwise :=
    if truthy (input args) && negb (truthy (service args)) then Validate
    else Generate in
  match service args, input args with
  | Some ((_ :: _) as name), Some ((_ :: _) as value) =>
      match ServiceFactory.getService name with
      | Throw _ => otherwise
      | Ok instance =>
          let inputLength := length (remove_all separator value) in
          match Service.getExpectedLength instance with
          | Exactly n =>
              if Nat.eqb inputLength n then Validate
              else if Nat.eqb inputLength 9 && digits_exactly 9 value then Complete
              else otherwise
          | Between min max =>
              if Nat.leb min inputLength && Nat.leb inputLength max then Validate
              else if Nat.leb 4 inputLength && Nat.ltb inputLength min
                      && ServiceFactory.digits_only (remove_all separator value)
              then Complete
              else otherwise
          end
      end
  | _, _ => otherwise
  end.

End Cli.

(* ================================================================= *)
(** ** Sample random sources *)

(** Every draw of [Math.random()] is 0. *)
Definition zero_rng : Rng := mkRng (fun _ => 0%Q) 0.

(** The draws run through 0, 1/7, 2/7, ..., 6/7 and repeat. *)
Definition sevenths_rng : Rng :=
  mkRng (fun i => (Z.of_nat (i mod 7) # 7)%Q) 0.

(** Every draw of [Math.random()] is [q]. *)
Definition constant_rng (q : Q) : Rng := mkRng (fun _ => q) 0.

(** The first draw is 9/10, the later ones run through the sevenths. *)
Definition late_sevenths_rng : Rng :=
  mkRng (fun i => match i with
                  | O => (9 # 10)%Q
                  | S _ => (Z.of_nat (i mod 7) # 7)%Q
                  end) 0.

(* ================================================================= *)
(** ** Specification-side definitions (the claims' own words) *)

(** A string of decimal digits. *)
Definition digits (s : str) : Prop := Forall (fun c => is_digit c = true) s.

(** A digit or a capital letter. *)
Definition alnum (c : ascii) : Prop := is_digit c = true \/ is_upper c = true.

(** Digit at the 1-indexed position [i] of a digit string. *)
Definition digit_at (s : str) (i : nat) : Z := digit_val (nth (i - 1) s "0"%char).

Module TcknSpec.

Definition t1 (s : str) : Z :=
  digit_at s 1 + digit_at s 3 + digit_at s 5 + digit_at s 7 + digit_at s 9.

Definition t2 (s : str) : Z :=
  digit_at s 2 + digit_at s 4 + digit_at s 6 + digit_at s 8.

Definition digit10 (s : str) : Z := (10 - ((t1 s * 3 + t2 s) mod 10)) mod 10.

Definition digit11 (s : str) : Z :=
  (10 - (((t2 s + digit10 s) * 3 + t1 s) mod 10)) mod 10.

End TcknSpec.

Module VknSpec.

Definition q (i d : Z) : Z :=
  let p := (d + 10 - i) mod 10 in
  if p =? 9 then 9 else (p * 2 ^ (10 - i)) mod 9.

Definition sum (s : str) : Z :=
  fold_right (fun i acc => q (Z.of_nat i) (digit_at s i) + acc) 0 (seq 1 9).

Definition check_digit (s : str) : Z := (10 - (sum s mod 10)) mod 10.

End VknSpec.

Module IbanSpec.

(** The number an IBAN stands for once letters are replaced by their codes:
    a digit takes one decimal place, a letter two (A = 10 ... Z = 35). *)
Definition numeric_step (acc : Z) (c : ascii) : Z :=
  if is_upper c then acc * 100 + (code c - 55) else acc * 10 + digit_val c.

Definition numeric (s : str) : Z := fold_left numeric_step s 0.

(** Move the first four characters to the end, read as a number, reduce
    modulo 97. *)
Definition checksum (iban : str) : Z :=
  numeric (skipn 4 iban ++ firstn 4 iban) mod 97.

(** [TR] followed by 24 digits. *)
Definition shape (c : str) : Prop :=
  exists ds, c = lit "TR" ++ ds /\ length ds = 24%nat /\ digits ds.

End IbanSpec.

(* ================================================================= *)
(** * Theorems *)

(** ** Characters and numerals *)

Ltac char_cases c := destruct c as [[] [] [] [] [] [] [] []].

Ltac digit_cases d :=
  let H := fresh in
  assert (H : d = 0 \/ d = 1 \/ d = 2 \/ d = 3 \/ d = 4 \/ d = 5 \/ d = 6
              \/ d = 7 \/ d = 8 \/ d = 9) by lia;
  repeat (destruct H as [H | H]; [subst d | ]); [ .. | subst d].

Lemma is_digit_inv (c : ascii) :
  is_digit c = true ->
  0 <= digit_val c <= 9 /\ c = digit_char (digit_val c).
Proof.
  char_cases c; vm_compute; intros H; try discriminate H;
    (split; [split; discriminate | reflexivity]).
Qed.

Lemma digit_char_is_digit (d : Z) : 0 <= d <= 9 -> is_digit (digit_char d) = true.
Proof. intros H; digit_cases d; reflexivity. Qed.

Lemma digit_val_char (d : Z) : 0 <= d <= 9 -> digit_val (digit_char d) = d.
Proof. intros H; digit_cases d; reflexivity. Qed.

Lemma digit_not_space (c : ascii) : is_digit c = true -> is_space c = false.
Proof. char_cases c; vm_compute; congruence. Qed.

Lemma toString_digit (d : Z) : 0 <= d <= 9 -> toString (Num d) = [digit_char d].
Proof. intros H; digit_cases d; reflexivity. Qed.

Lemma parseInt10_digit (c : ascii) :
  is_digit c = true -> parseInt10 [c] = Num (digit_val c).
Proof. char_cases c; vm_compute; intros H; try discriminate H; reflexivity. Qed.

Lemma parseInt_digit (c : ascii) :
  is_digit c = true -> parseInt [c] = Num (digit_val c).
Proof. char_cases c; vm_compute; intros H; try discriminate H; reflexivity. Qed.

Lemma char_eqb_eq (a b : ascii) : char_eqb a b = true <-> a = b.
Proof. apply Ascii.eqb_eq. Qed.

Lemma str_eqb_eq (a b : str) : str_eqb a b = true <-> a = b.
Proof.
  revert b; induction a as [|x a IH]; intros [|y b]; simpl;
    try (split; [discriminate | congruence]); try tauto.
  rewrite andb_true_iff, char_eqb_eq, IH. split.
  - intros [-> ->]; reflexivity.
  - intros H; inversion H; auto.
Qed.

Lemma includes_In (l : list str) (s : str) : includes l s = true <-> In s l.
Proof.
  unfold includes. rewrite existsb_exists. split.
  - intros [x [Hx He]]. apply str_eqb_eq in He. subst; assumption.
  - intros H. exists s. split; [assumption | apply str_eqb_eq; reflexivity].
Qed.

Lemma digits_exactly_spec (n : nat) (s : str) :
  digits_exactly n s = true <-> length s = n /\ Forall (fun c => is_digit c = true) s.
Proof.
  unfold digits_exactly, all_digits.
  rewrite andb_true_iff, Nat.eqb_eq, forallb_forall, Forall_forall. tauto.
Qed.

(** ** TCKN and VKN check digits *)

Lemma nmod_pos (x y : Z) : 0 <= x -> 0 < y -> nmod (Num x) (Num y) = Num (x mod y).
Proof.
  intros Hx Hy. unfold nmod. destruct (Z.eqb_spec y 0); [lia|].
  rewrite Z.rem_mod_nonneg by lia. reflexivity.
Qed.

(** [(10 - (x % 10)) % 10] on a non-negative integer. *)
Lemma check_mod10 (x : Z) :
  0 <= x ->
  nmod (nsub (Num 10) (nmod (Num x) (Num 10))) (Num 10) = Num ((10 - x mod 10) mod 10).
Proof.
  intros Hx. rewrite nmod_pos by lia. cbn [nsub].
  rewrite nmod_pos; [reflexivity | | lia].
  pose proof (Z.mod_pos_bound x 10). lia.
Qed.

Lemma check_mod10_range (x : Z) : 0 <= (10 - x mod 10) mod 10 <= 9.
Proof. pose proof (Z.mod_pos_bound (10 - x mod 10) 10). lia. Qed.

Lemma length_9_inv (s : str) :
  length s = 9%nat -> exists a b c d e f g h i, s = [a; b; c; d; e; f; g; h; i].
Proof.
  intros H. do 9 (destruct s as [|? s]; [discriminate|]).
  destruct s; [|discriminate]. repeat eexists.
Qed.

Ltac split_Forall :=
  repeat match goal with
         | H : Forall _ (_ :: _) |- _ => inversion H; clear H; subst
         | H : Forall _ [] |- _ => clear H
         end.

Ltac digit_bounds :=
  repeat match goal with
         | H : is_digit ?c = true |- _ =>
             let B := fresh "B" in
             pose proof (proj1 (is_digit_inv c H)) as B; revert H
         end; intros.

Lemma tckn_check_digits_spec (p : str) :
  digits_exactly 9 p = true ->
  Tckn.calculateCheckDigits p = (Num (TcknSpec.digit10 p), Num (TcknSpec.digit11 p)).
Proof.
  intros H. apply digits_exactly_spec in H. destruct H as [HL HD].
  apply length_9_inv in HL. destruct HL as (a&b&c&d&e&f&g&h&i&->).
  split_Forall.
  unfold Tckn.calculateCheckDigits, Tckn.sum_at, parseInt10_at.
  cbn [fold_left nth_error].
  rewrite !parseInt10_digit by assumption.
  unfold TcknSpec.digit11, TcknSpec.digit10, TcknSpec.t1, TcknSpec.t2, digit_at.
  cbn [nth Nat.sub nadd nmul].
  digit_bounds.
  rewrite check_mod10 by lia. cbn [nadd nmul].
  rewrite check_mod10.
  - repeat f_equal; lia.
  - match goal with |- context [(10 - ?x mod 10) mod 10] =>
      pose proof (check_mod10_range x) end. lia.
Qed.

Lemma tckn_digit10_range (s : str) : 0 <= TcknSpec.digit10 s <= 9.
Proof. apply check_mod10_range. Qed.

Lemma tckn_digit11_range (s : str) : 0 <= TcknSpec.digit11 s <= 9.
Proof. apply check_mod10_range. Qed.

Lemma length_11_inv (s : str) :
  length s = 11%nat ->
  exists p x y, s = p ++ [x; y] /\ length p = 9%nat.
Proof.
  intros H. exists (firstn 9 s).
  do 11 (destruct s as [|? s]; [discriminate|]). destruct s; [|discriminate].
  do 2 eexists. split; reflexivity.
Qed.

Lemma tckn_spec_prefix (p t : str) :
  length p = 9%nat ->
  TcknSpec.digit10 (p ++ t) = TcknSpec.digit10 p
  /\ TcknSpec.digit11 (p ++ t) = TcknSpec.digit11 p.
Proof.
  intros H. apply length_9_inv in H. destruct H as (a&b&c&d&e&f&g&h&i&->).
  split; reflexivity.
Qed.

(** What [validate] computes on eleven digits. *)
Lemma tckn_validate_unfold (p : str) (x y : ascii) :
  digits_exactly 9 p = true -> is_digit x = true -> is_digit y = true ->
  Tckn.validate (p ++ [x; y]) =
    negb (startsWith (lit "0") p)
    && negb (includes Tckn.INVALID_PATTERNS (p ++ [x; y]))
    && (digit_val x =? TcknSpec.digit10 p) && (digit_val y =? TcknSpec.digit11 p).
Proof.
  intros Hp Hx Hy.
  pose proof (tckn_check_digits_spec p Hp) as Hc.
  apply digits_exactly_spec in Hp. destruct Hp as [HL HD].
  pose proof HL as HL'.
  apply length_9_inv in HL'. destruct HL' as (a&b&c&d&e&f&g&h&i&->).
  unfold Tckn.validate.
  replace (substring 0 9 ([a; b; c; d; e; f; g; h; i] ++ [x; y]))
    with [a; b; c; d; e; f; g; h; i] by reflexivity.
  rewrite Hc.
  assert (Hd : digits_exactly 11 ([a; b; c; d; e; f; g; h; i] ++ [x; y]) = true).
  { apply digits_exactly_spec. split; [reflexivity|].
    apply Forall_app. split; [assumption | repeat constructor; assumption]. }
  rewrite Hd.
  unfold parseInt10_at.
  cbn [app length Nat.eqb negb nth_error startsWith lit String.list_ascii_of_string].
  rewrite !parseInt10_digit by assumption.
  cbn [strict_eq].
  destruct (char_eqb "0" a); cbn [andb negb]; [reflexivity|].
  destruct (includes _ _); reflexivity.
Qed.

Lemma startsWith_app (p t : str) : startsWith p (p ++ t) = true.
Proof.
  induction p as [|c p IH]; simpl; [reflexivity|].
  rewrite IH, andb_true_r. apply char_eqb_eq. reflexivity.
Qed.

Lemma tckn_pattern_prefix (p : str) (x y : ascii) :
  length p = 9%nat ->
  In (p ++ [x; y]) Tckn.INVALID_PATTERNS -> In p Tckn.INVALID_PREFIXES.
Proof.
  intros HL HI. apply length_9_inv in HL. destruct HL as (a&b&c&d&e&f&g&h&i&->).
  unfold Tckn.INVALID_PATTERNS in HI. unfold Tckn.INVALID_PREFIXES.
  cbn [map In] in *.
  repeat (destruct HI as [HI | HI];
          [ inversion HI; subst; cbn; tauto | ]).
  contradiction.
Qed.

Lemma tckn_complete_inv (p r : str) :
  Tckn.complete p = Ok r ->
  digits_exactly 9 p = true /\ startsWith (lit "0") p = false
  /\ includes Tckn.INVALID_PREFIXES p = false
  /\ r = p ++ [digit_char (TcknSpec.digit10 p); digit_char (TcknSpec.digit11 p)].
Proof.
  unfold Tckn.complete, Tckn.validatePrefix.
  destruct (digits_exactly 9 p) eqn:Hd; cbn [negb]; [|discriminate].
  destruct (startsWith (lit "0") p) eqn:H0; [discriminate|].
  destruct (includes Tckn.INVALID_PREFIXES p) eqn:Hi; [discriminate|].
  rewrite (tckn_check_digits_spec p Hd).
  rewrite !toString_digit by apply check_mod10_range.
  intros H; inversion H. auto.
Qed.

Lemma tckn_complete_valid (p r : str) :
  Tckn.complete p = Ok r ->
  Tckn.validate r = true /\ startsWith p r = true /\ length r = 11%nat.
Proof.
  intros H. apply tckn_complete_inv in H. destruct H as (Hd & H0 & Hi & ->).
  pose proof (tckn_digit10_range p) as R10.
  pose proof (tckn_digit11_range p) as R11.
  split; [| split; [apply startsWith_app|]].
  - rewrite tckn_validate_unfold; auto using digit_char_is_digit.
    rewrite H0, !digit_val_char, !Z.eqb_refl by assumption.
    destruct (includes Tckn.INVALID_PATTERNS _) eqn:Hp; [|reflexivity].
    apply includes_In in Hp. apply tckn_pattern_prefix in Hp.
    + apply includes_In in Hp. congruence.
    + apply digits_exactly_spec in Hd. tauto.
  - apply digits_exactly_spec in Hd. rewrite length_app. cbn. lia.
Qed.

Lemma tckn_validate_iff (s : str) :
  digits_exactly 11 s = true ->
  (Tckn.validate s = true <->
     nth 0 s "0"%char <> "0"%char
     /\ ~ In s Tckn.INVALID_PATTERNS
     /\ digit_at s 10 = TcknSpec.digit10 s
     /\ digit_at s 11 = TcknSpec.digit11 s).
Proof.
  intros H. apply digits_exactly_spec in H. destruct H as [HL HD].
  apply length_11_inv in HL. destruct HL as (p & x & y & -> & HL).
  apply Forall_app in HD. destruct HD as [HDp HDt]. split_Forall.
  assert (Hp : digits_exactly 9 p = true) by (apply digits_exactly_spec; auto).
  rewrite tckn_validate_unfold by assumption.
  destruct (tckn_spec_prefix p [x; y] HL) as [-> ->].
  pose proof HL as HL'.
  apply length_9_inv in HL'. destruct HL' as (a&b&c&d&e&f&g&h&i&->).
  unfold digit_at. cbn [app nth Nat.sub startsWith lit String.list_ascii_of_string].
  rewrite !andb_true_iff, !negb_true_iff, !Z.eqb_eq, andb_true_r.
  rewrite <- !not_true_iff_false, includes_In, char_eqb_eq.
  intuition congruence.
Qed.

(** VKN *)

Lemma vkn_q_nonneg (i d : Z) : 0 <= VknSpec.q i d.
Proof.
  unfold VknSpec.q. destruct (_ =? 9); [lia|].
  apply Z.mod_pos_bound. lia.
Qed.

Lemma vkn_step_spec (prefix : str) (sum : Z) (i : nat) (c : ascii) :
  nth_error prefix i = Some c -> is_digit c = true -> (i < 9)%nat ->
  Vkn.step prefix (Num sum) i
  = Num (sum + VknSpec.q (Z.of_nat (S i)) (digit_val c)).
Proof.
  intros Hn Hc Hi. unfold Vkn.step, parseInt10_at. rewrite Hn.
  rewrite parseInt10_digit by assumption.
  pose proof (proj1 (is_digit_inv c Hc)) as B.
  cbn [nadd nsub]. rewrite nmod_pos by lia. cbn [strict_eq].
  unfold VknSpec.q. replace (Z.of_nat (S i)) with (Z.of_nat i + 1) by lia.
  destruct (_ =? 9); [reflexivity|]. cbn [nmul].
  rewrite nmod_pos; [reflexivity | | lia].
  apply Z.mul_nonneg_nonneg.
  - apply Z.mod_pos_bound; lia.
  - apply Z.pow_nonneg; lia.
Qed.

Lemma vkn_check_digit_spec (p : str) :
  digits_exactly 9 p = true ->
  Vkn.calculateCheckDigit p = Num (VknSpec.check_digit p).
Proof.
  intros H. apply digits_exactly_spec in H. destruct H as [HL HD].
  apply length_9_inv in HL. destruct HL as (a&b&c&d&e&f&g&h&i&->).
  split_Forall.
  unfold Vkn.calculateCheckDigit. cbn [seq fold_left].
  repeat (erewrite vkn_step_spec; [ | reflexivity | assumption | lia ]).
  unfold VknSpec.check_digit, VknSpec.sum, digit_at.
  cbn [seq fold_right nth Nat.sub].
  repeat match goal with
         | |- context [VknSpec.q ?i ?d] =>
             let Q := fresh "Q" in
             pose proof (vkn_q_nonneg i d) as Q;
             generalize dependent (VknSpec.q i d); intros
         end.
  rewrite check_mod10 by lia.
  match goal with
  | |- Num ((10 - ?A mod 10) mod 10) = Num ((10 - ?B mod 10) mod 10) =>
      replace A with B by lia
  end.
  reflexivity.
Qed.

Lemma vkn_check_digit_range (p : str) : 0 <= VknSpec.check_digit p <= 9.
Proof. apply check_mod10_range. Qed.

Lemma length_10_inv (s : str) :
  length s = 10%nat -> exists p x, s = p ++ [x] /\ length p = 9%nat.
Proof.
  intros H. exists (firstn 9 s).
  do 10 (destruct s as [|? s]; [discriminate|]). destruct s; [|discriminate].
  eexists. split; reflexivity.
Qed.

Lemma vkn_spec_prefix (p t : str) :
  length p = 9%nat -> VknSpec.check_digit (p ++ t) = VknSpec.check_digit p.
Proof.
  intros H. apply length_9_inv in H. destruct H as (a&b&c&d&e&f&g&h&i&->).
  reflexivity.
Qed.

Lemma vkn_validate_unfold (p : str) (x : ascii) :
  digits_exactly 9 p = true -> is_digit x = true ->
  Vkn.validate (p ++ [x]) = (digit_val x =? VknSpec.check_digit p).
Proof.
  intros Hp Hx.
  pose proof (vkn_check_digit_spec p Hp) as Hc.
  apply digits_exactly_spec in Hp. destruct Hp as [HL HD].
  pose proof HL as HL'.
  apply length_9_inv in HL'. destruct HL' as (a&b&c&d&e&f&g&h&i&->).
  unfold Vkn.validate.
  replace (substring 0 9 ([a; b; c; d; e; f; g; h; i] ++ [x]))
    with [a; b; c; d; e; f; g; h; i] by reflexivity.
  rewrite Hc.
  assert (Hd : digits_exactly 10 ([a; b; c; d; e; f; g; h; i] ++ [x]) = true).
  { apply digits_exactly_spec. split; [reflexivity|].
    apply Forall_app. split; [assumption | repeat constructor; assumption]. }
  rewrite Hd. unfold parseInt10_at.
  cbn [app length Nat.eqb negb nth_error].
  rewrite parseInt10_digit by assumption. reflexivity.
Qed.

Lemma vkn_complete_inv (p r : str) :
  Vkn.complete p = Ok r ->
  digits_exactly 9 p = true /\ r = p ++ [digit_char (VknSpec.check_digit p)].
Proof.
  unfold Vkn.complete, Vkn.validatePrefix.
  destruct (digits_exactly 9 p) eqn:Hd; cbn [negb]; [|discriminate].
  rewrite (vkn_check_digit_spec p Hd).
  rewrite toString_digit by apply check_mod10_range.
  intros H; inversion H. auto.
Qed.

Lemma vkn_complete_valid (p r : str) :
  Vkn.complete p = Ok r ->
  Vkn.validate r = true /\ startsWith p r = true /\ length r = 10%nat.
Proof.
  intros H. apply vkn_complete_inv in H. destruct H as (Hd & ->).
  pose proof (vkn_check_digit_range p) as R.
  split; [| split; [apply startsWith_app|]].
  - rewrite vkn_validate_unfold; auto using digit_char_is_digit.
    rewrite digit_val_char by assumption. apply Z.eqb_refl.
  - apply digits_exactly_spec in Hd. rewrite length_app. cbn. lia.
Qed.

(** ** The random source *)

Lemma unit_part_range (q : Q) : (0 <= unit_part q)%Q /\ (unit_part q < 1)%Q.
Proof.
  unfold unit_part. pose proof (Qfloor_le q) as H1. pose proof (Qlt_floor q) as H2.
  rewrite inject_Z_plus in H2. change (inject_Z 1) with 1%Q in H2.
  split; lra.
Qed.

Lemma random_below_range (n : Z) (g : Rng) :
  0 < n -> 0 <= fst (random_below n g) < n.
Proof.
  intros Hn. unfold random_below, bind, random, ret. cbn [fst].
  set (q := unit_part _). destruct (unit_part_range (tape g (cursor g))) as [H0 H1].
  fold q in H0, H1.
  assert (Hn' : (inject_Z 0 < inject_Z n)%Q) by (rewrite <- Zlt_Qlt; exact Hn).
  change (inject_Z 0) with 0%Q in Hn'.
  split.
  - change 0 with (Qfloor (inject_Z 0)) at 1. apply Qfloor_resp_le.
    apply Qmult_le_0_compat; [exact H0 | apply Qlt_le_weak; exact Hn'].
  - rewrite Zlt_Qlt. eapply Qle_lt_trans; [apply Qfloor_le|].
    rewrite <- (Qmult_1_l (inject_Z n)) at 2.
    apply Qmult_lt_r; assumption.
Qed.

Lemma random_digit_spec (g : Rng) :
  exists d, 0 <= d <= 9 /\ fst (random_digit g) = [digit_char d].
Proof.
  pose proof (random_below_range 10 g eq_refl) as H.
  unfold random_digit, bind, ret in *.
  destruct (random_below 10 g) as [d g']. cbn [fst] in *.
  exists d. split; [lia|]. apply toString_digit. lia.
Qed.

Lemma digits_app (a b : str) : digits (a ++ b) <-> digits a /\ digits b.
Proof. apply Forall_app. Qed.

Lemma append_digits_spec (n : nat) (s : str) (g : Rng) :
  exists t, fst (append_digits n s g) = s ++ t /\ length t = n /\ digits t.
Proof.
  revert s g. induction n as [|n IH]; intros s g.
  - exists []. cbn. rewrite app_nil_r. repeat split. constructor.
  - cbn [append_digits]. unfold bind.
    destruct (random_digit_spec g) as (d & Hd & He).
    destruct (random_digit g) as [ds g']. cbn [fst] in He. subst ds.
    destruct (IH (s ++ [digit_char d]) g') as (t & Ht & HL & HD).
    exists (digit_char d :: t). rewrite Ht, <- app_assoc. cbn.
    repeat split; [lia|]. constructor; [apply digit_char_is_digit; lia | exact HD].
Qed.

Lemma pad_loop_spec (fuel target : nat) (s : str) (g : Rng) :
  (target - length s <= fuel)%nat ->
  exists t, fst (pad_loop fuel target s g) = s ++ t
            /\ length t = (target - length s)%nat /\ digits t.
Proof.
  revert s g. induction fuel as [|fuel IH]; intros s g Hf.
  - exists []. cbn. rewrite app_nil_r. repeat split; [lia | constructor].
  - cbn [pad_loop]. destruct (Nat.ltb_spec (length s) target) as [Hlt | Hge].
    + unfold bind.
      destruct (random_digit_spec g) as (d & Hd & He).
      destruct (random_digit g) as [ds g']. cbn [fst] in He. subst ds.
      destruct (IH (s ++ [digit_char d]) g') as (t & Ht & HL & HD).
      { rewrite length_app. cbn. lia. }
      exists (digit_char d :: t). rewrite Ht, <- app_assoc. cbn.
      rewrite length_app in HL. cbn in HL.
      repeat split; [lia|]. constructor; [apply digit_char_is_digit; lia | exact HD].
    + exists []. cbn. rewrite app_nil_r. repeat split; [lia | constructor].
Qed.

Lemma pad_random_spec (target : nat) (s : str) (g : Rng) :
  exists t, fst (pad_random target s g) = s ++ t
            /\ length t = (target - length s)%nat /\ digits t.
Proof. apply pad_loop_spec. lia. Qed.

(** ** Decimal numerals *)

Lemma dec_fold_app (s : str) (acc : Z) :
  fold_left (fun a c => a * 10 + digit_val c) s acc
  = acc * 10 ^ Z.of_nat (length s) + dec_value s.
Proof.
  unfold dec_value. revert acc.
  induction s as [|c s IH]; intros acc; cbn [fold_left length].
  - cbn. lia.
  - rewrite IH, (IH (0 * 10 + digit_val c)).
    rewrite Nat2Z.inj_succ, Z.pow_succ_r by lia. ring.
Qed.

Lemma dec_value_app (a b : str) :
  dec_value (a ++ b) = dec_value a * 10 ^ Z.of_nat (length b) + dec_value b.
Proof.
  unfold dec_value at 1. rewrite fold_left_app, dec_fold_app. reflexivity.
Qed.

Lemma dec_value_nonneg (s : str) : digits s -> 0 <= dec_value s.
Proof.
  induction s as [|c s IH] using rev_ind; intros H; [cbn; lia|].
  apply digits_app in H. destruct H as [Hs Hc]. inversion Hc; subst.
  rewrite dec_value_app.
  pose proof (proj1 (is_digit_inv c H1)). specialize (IH Hs).
  change (dec_value [c]) with (0 * 10 + digit_val c).
  change (Z.of_nat (length [c])) with 1. rewrite Z.pow_1_r. lia.
Qed.

Lemma dec_digits_spec (fuel : nat) (z : Z) :
  0 <= z < 10 ^ Z.of_nat (S fuel) ->
  digits (dec_digits (S fuel) z) /\ dec_value (dec_digits (S fuel) z) = z
  /\ dec_digits (S fuel) z <> [].
Proof.
  revert z. induction fuel as [|fuel IH]; intros z Hz.
  - change (10 ^ Z.of_nat 1) with 10 in Hz. cbn [dec_digits].
    destruct (Z.ltb_spec z 10) as [Hlt | Hge]; [|lia].
    split; [|split; [|discriminate]].
    + constructor; [apply digit_char_is_digit; lia | constructor].
    + unfold dec_value. cbn [fold_left]. rewrite digit_val_char by lia. lia.
  - remember (S fuel) as f eqn:Ef. cbn [dec_digits].
    destruct (Z.ltb_spec z 10) as [Hlt | Hge].
    + split; [|split; [|discriminate]].
      * constructor; [apply digit_char_is_digit; lia | constructor].
      * unfold dec_value. cbn [fold_left]. rewrite digit_val_char by lia. lia.
    + rewrite Nat2Z.inj_succ, Z.pow_succ_r in Hz by lia.
      destruct (IH (z / 10)) as (HD & HV & HN).
      { split; [apply Z.div_pos; lia | apply Z.div_lt_upper_bound; lia]. }
      pose proof (Z.mod_pos_bound z 10 ltac:(lia)) as Hm.
      split; [|split].
      * apply digits_app. split; [exact HD|].
        constructor; [apply digit_char_is_digit; lia | constructor].
      * rewrite dec_value_app, HV.
        change (dec_value [digit_char (z mod 10)])
          with (0 * 10 + digit_val (digit_char (z mod 10))).
        change (Z.of_nat (length [digit_char (z mod 10)])) with 1.
        rewrite digit_val_char, Z.pow_1_r by lia.
        pose proof (Z.div_mod z 10 ltac:(lia)). lia.
      * intros E. apply app_eq_nil in E. destruct E; discriminate.
Qed.

Lemma dec_digits_length (fuel k : nat) (z : Z) :
  (1 <= k)%nat -> 0 <= z < 10 ^ Z.of_nat k ->
  (length (dec_digits fuel z) <= k)%nat.
Proof.
  revert z k. induction fuel as [|fuel IH]; intros z k Hk Hz; [cbn; lia|].
  cbn [dec_digits]. destruct (Z.ltb_spec z 10) as [Hlt | Hge]; [cbn; lia|].
  destruct k as [|k]; [lia|]. destruct k as [|k]; [cbn in Hz; lia|].
  rewrite length_app. cbn [length].
  rewrite Nat2Z.inj_succ, Z.pow_succ_r in Hz by lia.
  specialize (IH (z / 10) (S k) ltac:(lia)).
  assert (0 <= z / 10 < 10 ^ Z.of_nat (S k)).
  { split; [apply Z.div_pos; lia | apply Z.div_lt_upper_bound; lia]. }
  specialize (IH H). lia.
Qed.

Lemma dec_of_Z_fuel (z : Z) : 0 <= z -> z < 10 ^ Z.of_nat (S (Z.to_nat (Z.log2 z))).
Proof.
  intros Hz. rewrite Nat2Z.inj_succ, Z2Nat.id by apply Z.log2_nonneg.
  destruct (Z.eq_dec z 0) as [-> | Hnz]; [cbn; lia|].
  pose proof (Z.log2_spec z ltac:(lia)) as [_ Hu].
  eapply Z.lt_le_trans; [exact Hu|].
  apply Z.pow_le_mono_l. lia.
Qed.

Lemma toString_nonneg (z : Z) :
  0 <= z ->
  digits (toString (Num z)) /\ dec_value (toString (Num z)) = z
  /\ toString (Num z) <> [].
Proof.
  intros Hz. unfold toString. destruct (Z.ltb_spec z 0); [lia|].
  apply dec_digits_spec. split; [lia | apply dec_of_Z_fuel; lia].
Qed.

Lemma toString_length (k : nat) (z : Z) :
  (1 <= k)%nat -> 0 <= z < 10 ^ Z.of_nat k ->
  (1 <= length (toString (Num z)) <= k)%nat.
Proof.
  intros Hk Hz. destruct (toString_nonneg z ltac:(lia)) as (_ & _ & HN).
  split.
  - destruct (toString (Num z)); [congruence | cbn; lia].
  - unfold toString. destruct (Z.ltb_spec z 0); [lia|].
    apply dec_digits_length; assumption.
Qed.

Lemma digits_repeat_zero (n : nat) : digits (repeat "0"%char n).
Proof. induction n; cbn; constructor; auto. Qed.

Lemma dec_value_repeat_zero (n : nat) : dec_value (repeat "0"%char n) = 0.
Proof.
  induction n as [|n IH]; [reflexivity|].
  change (repeat "0"%char (S n)) with (["0"%char] ++ repeat "0"%char n).
  rewrite dec_value_app, IH. reflexivity.
Qed.

(** [n.toString().padStart(k, '0')] for [0 <= n < 10^k]. *)
Lemma padStart_toString (k : nat) (z : Z) :
  (1 <= k)%nat -> 0 <= z < 10 ^ Z.of_nat k ->
  let s := padStart k "0" (toString (Num z)) in
  length s = k /\ digits s /\ dec_value s = z.
Proof.
  intros Hk Hz s. subst s. unfold padStart.
  destruct (toString_nonneg z ltac:(lia)) as (HD & HV & _).
  pose proof (toString_length k z Hk Hz) as HL.
  rewrite length_app, repeat_length. split; [lia|]. split.
  - apply digits_app. split; [apply digits_repeat_zero | exact HD].
  - rewrite dec_value_app, dec_value_repeat_zero, HV. lia.
Qed.

(** ** [parseInt] on digit strings *)

Lemma leading_digits_all (s : str) : digits s -> leading is_digit s = s.
Proof.
  induction 1 as [|c s Hc _ IH]; cbn; [reflexivity|]. rewrite Hc, IH. reflexivity.
Qed.

Lemma digit_not_sign (c : ascii) :
  is_digit c = true ->
  char_eqb c "-" = false /\ char_eqb c "+" = false /\ char_eqb c "x" = false
  /\ char_eqb c "X" = false /\ char_eqb c "." = false /\ is_upper c = false
  /\ is_lower c = false.
Proof. char_cases c; vm_compute; intros H; try discriminate H; repeat split. Qed.

Lemma parseInt_digits (s : str) :
  digits s -> s <> [] -> parseInt s = Num (dec_value s).
Proof.
  intros HD HN. destruct s as [|z r]; [congruence|].
  pose proof HD as HD'. inversion HD' as [|? ? Hz Hr]; subst.
  unfold parseInt. cbn [drop_leading_space].
  rewrite (digit_not_space z Hz). unfold split_sign.
  destruct (digit_not_sign z Hz) as (-> & -> & _).
  destruct r as [|x r'].
  - rewrite leading_digits_all by assumption. reflexivity.
  - inversion Hr as [|? ? Hx _]; subst.
    destruct (digit_not_sign x Hx) as (_ & _ & -> & -> & _).
    rewrite andb_false_r, leading_digits_all by assumption. reflexivity.
Qed.

(** ** IBAN: the chunked remainder and the check digits *)

Lemma mod97_loop_step (fuel : nat) (r : num) (s : str) :
  s <> [] ->
  Iban.mod97_loop (S fuel) r s
  = Iban.mod97_loop fuel (nmod (parseInt (toString r ++ firstn 7 s)) (Num 97))
      (skipn 7 s).
Proof. destruct s; [congruence | reflexivity]. Qed.

Lemma mod97_loop_spec (fuel : nat) (s : str) (r : Z) :
  digits s -> 0 <= r < 97 -> (length s <= fuel)%nat ->
  Iban.mod97_loop fuel (Num r) s
  = Num ((r * 10 ^ Z.of_nat (length s) + dec_value s) mod 97).
Proof.
  revert s r. induction fuel as [|fuel IH]; intros s r HD Hr HL.
  - destruct s; [|cbn in HL; lia]. cbn. f_equal.
    rewrite Z.mul_1_r, Z.add_0_r, Z.mod_small; lia.
  - destruct (list_eq_dec ascii_dec s []) as [-> | Hne].
    + cbn. f_equal. rewrite Z.mul_1_r, Z.add_0_r, Z.mod_small; lia.
    + rewrite mod97_loop_step by exact Hne.
      pose proof (firstn_skipn 7 s) as Hsplit.
      set (chunk := firstn 7 s) in *. set (rest := skipn 7 s) in *.
      assert (HDc : digits chunk /\ digits rest).
      { apply digits_app. rewrite Hsplit. exact HD. }
      destruct HDc as [HDc HDr].
      assert (Hcn : chunk <> []).
      { subst chunk. destruct s; [congruence | cbn; discriminate]. }
      destruct (toString_nonneg r ltac:(lia)) as (HDt & HVt & HNt).
      rewrite parseInt_digits;
        [ | apply digits_app; split; assumption
          | intros E; apply app_eq_nil in E; tauto ].
      rewrite dec_value_app, HVt.
      pose proof (dec_value_nonneg chunk HDc) as Hvc.
      pose proof (dec_value_nonneg rest HDr) as Hvr.
      assert (Hp : 0 < 10 ^ Z.of_nat (length chunk)) by (apply Z.pow_pos_nonneg; lia).
      rewrite nmod_pos by nia.
      assert (HLs : length s = (length chunk + length rest)%nat)
        by (rewrite <- Hsplit at 1; apply length_app).
      assert (1 <= length chunk)%nat
        by (destruct chunk; [congruence | cbn; lia]).
      rewrite IH; [ | exact HDr | apply Z.mod_pos_bound; lia | lia ].
      f_equal. rewrite <- Hsplit at 2.
      rewrite HLs, dec_value_app, Nat2Z.inj_add, Z.pow_add_r by lia.
      rewrite Z.add_mod, Z.mul_mod_idemp_l, <- Z.add_mod by lia.
      f_equal. ring.
Qed.

Lemma calculateMod97_spec (s : str) :
  digits s -> Iban.calculateMod97 s = Num (dec_value s mod 97).
Proof.
  intros HD. unfold Iban.calculateMod97.
  rewrite mod97_loop_spec by (auto; lia). reflexivity.
Qed.

Lemma upper_code_digits (c : ascii) :
  is_upper c = true ->
  toString (Num (code c - 55))
  = [digit_char ((code c - 55) / 10); digit_char ((code c - 55) mod 10)]
  /\ 1 <= (code c - 55) / 10 <= 3.
Proof.
  char_cases c; vm_compute; intros H; try discriminate H;
    (split; [reflexivity | split; discriminate]).
Qed.

Lemma digits_alnum (s : str) : digits s -> Forall alnum s.
Proof. apply Forall_impl. intros c H. left. exact H. Qed.

Lemma convert_digits (s : str) : digits s -> Iban.convertLettersToNumbers s = s.
Proof.
  induction 1 as [|c s Hc _ IH]; [reflexivity|].
  cbn. destruct (digit_not_sign c Hc) as (_&_&_&_&_&->&_). cbn. f_equal. exact IH.
Qed.

Lemma convert_app (a b : str) :
  Iban.convertLettersToNumbers (a ++ b)
  = Iban.convertLettersToNumbers a ++ Iban.convertLettersToNumbers b.
Proof. apply flat_map_app. Qed.

Lemma convert_is_digits (s : str) :
  Forall alnum s -> digits (Iban.convertLettersToNumbers s).
Proof.
  induction 1 as [|c s Hc _ IH]; [constructor|].
  cbn [Iban.convertLettersToNumbers flat_map].
  apply digits_app. split; [|exact IH].
  destruct (is_upper c) eqn:Hu.
  - destruct (upper_code_digits c Hu) as [-> Hr].
    pose proof (Z.mod_pos_bound (code c - 55) 10 ltac:(lia)).
    repeat constructor; apply digit_char_is_digit; lia.
  - destruct Hc as [Hc | Hc]; [|congruence]. repeat constructor. exact Hc.
Qed.

Lemma convert_numeric (s : str) (acc : Z) :
  Forall alnum s ->
  fold_left (fun a c => a * 10 + digit_val c) (Iban.convertLettersToNumbers s) acc
  = fold_left IbanSpec.numeric_step s acc.
Proof.
  intros H. revert acc. induction H as [|c s Hc _ IH]; intros acc; [reflexivity|].
  cbn [Iban.convertLettersToNumbers flat_map]. rewrite fold_left_app.
  cbn [fold_left]. unfold Iban.convertLettersToNumbers in IH. rewrite <- IH.
  f_equal. unfold IbanSpec.numeric_step.
  destruct (is_upper c) eqn:Hu.
  - destruct (upper_code_digits c Hu) as [-> Hr].
    pose proof (Z.mod_pos_bound (code c - 55) 10 ltac:(lia)).
    cbn [fold_left]. rewrite !digit_val_char by lia.
    pose proof (Z.div_mod (code c - 55) 10 ltac:(lia)). lia.
  - reflexivity.
Qed.

Lemma iban_numeric_spec (s : str) :
  Forall alnum s ->
  dec_value (Iban.convertLettersToNumbers s) = IbanSpec.numeric s.
Proof. intros H. apply convert_numeric. exact H. Qed.

Lemma alnum_rearranged (iban : str) :
  Forall alnum iban -> Forall alnum (skipn 4 iban ++ firstn 4 iban).
Proof.
  intros H. rewrite <- (firstn_skipn 4 iban) in H.
  apply Forall_app in H. apply Forall_app. tauto.
Qed.

Lemma iban_validateChecksum_spec (iban : str) :
  Forall alnum iban ->
  Iban.validateChecksum iban = (IbanSpec.checksum iban =? 1).
Proof.
  intros H. apply alnum_rearranged in H.
  unfold Iban.validateChecksum, substring_from, substring, IbanSpec.checksum.
  cbn [Nat.sub skipn].
  rewrite calculateMod97_spec by (apply convert_is_digits; exact H).
  rewrite iban_numeric_spec by exact H. reflexivity.
Qed.

(** ** Cleaning and formatting *)

Lemma remove_all_app (cls : ascii -> bool) (a b : str) :
  remove_all cls (a ++ b) = remove_all cls a ++ remove_all cls b.
Proof. apply filter_app. Qed.

Lemma remove_all_none (cls : ascii -> bool) (s : str) :
  Forall (fun c => cls c = false) s -> remove_all cls s = s.
Proof.
  induction 1 as [|c s Hc _ IH]; [reflexivity|].
  cbn. rewrite Hc. cbn. f_equal. exact IH.
Qed.

Lemma remove_all_clean (cls : ascii -> bool) (s : str) :
  Forall (fun c => cls c = false) (remove_all cls s).
Proof.
  apply Forall_forall. intros c H. apply filter_In in H.
  destruct H as [_ H]. apply negb_true_iff in H. exact H.
Qed.

Lemma remove_all_idem (cls : ascii -> bool) (s : str) :
  remove_all cls (remove_all cls s) = remove_all cls s.
Proof. apply remove_all_none, remove_all_clean. Qed.

Lemma alnum_not_space (c : ascii) : alnum c -> is_space c = false.
Proof. char_cases c; vm_compute; intros [H | H]; congruence. Qed.

Lemma alnum_upper_fixed (c : ascii) : alnum c -> toUpperCase_char c = c.
Proof. char_cases c; vm_compute; intros [H | H]; congruence. Qed.

Lemma toUpperCase_alnum (s : str) : Forall alnum s -> toUpperCase s = s.
Proof.
  induction 1 as [|c s Hc _ IH]; [reflexivity|].
  cbn [toUpperCase map]. fold (toUpperCase s).
  rewrite alnum_upper_fixed, IH by assumption. reflexivity.
Qed.

Lemma remove_space_alnum (s : str) : Forall alnum s -> remove_all is_space s = s.
Proof.
  intros H. apply remove_all_none. revert H. apply Forall_impl.
  apply alnum_not_space.
Qed.

Lemma iban_format_loop_clean (fuel : nat) (first : bool) (rest : str) :
  (length rest <= fuel)%nat ->
  remove_all is_space (Iban.format_loop fuel first rest)
  = remove_all is_space rest.
Proof.
  revert first rest. induction fuel as [|fuel IH]; intros first rest HL.
  - destruct rest; [reflexivity | cbn in HL; lia].
  - cbn [Iban.format_loop]. destruct rest as [|c r] eqn:E; [reflexivity|].
    rewrite <- E in *.
    rewrite !remove_all_app, IH by (rewrite length_skipn; lia).
    rewrite <- remove_all_app, firstn_skipn.
    destruct first; reflexivity.
Qed.

Lemma iban_format_clean (iban : str) :
  remove_all is_space (Iban.formatIban iban) = remove_all is_space iban.
Proof.
  unfold Iban.formatIban. rewrite iban_format_loop_clean by lia.
  apply remove_all_idem.
Qed.

(** ** IBAN validation *)

Lemma startsWith_iff (p s : str) :
  startsWith p s = true <-> exists t, s = p ++ t.
Proof.
  revert s. induction p as [|x p IH]; intros s; cbn.
  - split; [exists s; reflexivity | reflexivity].
  - destruct s as [|y s]; [split; [discriminate | intros [t H]; discriminate]|].
    rewrite andb_true_iff, char_eqb_eq, IH. split.
    + intros [-> [t ->]]. exists t. reflexivity.
    + intros [t H]. inversion H. split; [reflexivity | exists t; reflexivity].
Qed.

Lemma iban_shape_iff (c : str) :
  IbanSpec.shape c <->
  startsWith (lit "TR") c = true /\ digits_exactly 24 (skipn 2 c) = true.
Proof.
  unfold IbanSpec.shape. rewrite startsWith_iff. split.
  - intros (ds & -> & HL & HD). split; [exists ds; reflexivity|].
    apply digits_exactly_spec. cbn. auto.
  - intros [[t ->] H]. apply digits_exactly_spec in H. cbn in H.
    exists t. tauto.
Qed.

Lemma iban_shape_alnum (c : str) : IbanSpec.shape c -> Forall alnum c.
Proof.
  intros (ds & -> & _ & HD). cbn.
  constructor; [right; reflexivity|]. constructor; [right; reflexivity|].
  apply digits_alnum. exact HD.
Qed.

Lemma iban_shape_length (c : str) : IbanSpec.shape c -> length c = 26%nat.
Proof. intros (ds & -> & HL & _). cbn. rewrite HL. reflexivity. Qed.

Lemma substring_char (i : nat) (s : str) (x : ascii) :
  str_eqb (substring i (S i) s) [x] = true <-> nth_error s i = Some x.
Proof.
  unfold substring. replace (S i - i)%nat with 1%nat by lia.
  rewrite str_eqb_eq. revert s. induction i as [|i IH]; intros s.
  - destruct s as [|c s]; cbn; [split; discriminate|].
    split; intros H; inversion H; reflexivity.
  - destruct s as [|c s]; cbn; [split; discriminate | apply IH].
Qed.

Lemma iban_validate_spec (value : str) :
  Iban.validate value = true <->
  let c := toUpperCase (remove_all is_space value) in
  IbanSpec.shape c /\ nth_error c 9 = Some "0"%char /\ IbanSpec.checksum c = 1.
Proof.
  unfold Iban.validate. cbv zeta.
  set (c := toUpperCase (remove_all is_space value)).
  rewrite iban_shape_iff. unfold Iban.COUNTRY_CODE, Iban.TOTAL_LENGTH.
  destruct (startsWith (lit "TR") c) eqn:HS; cbn [negb andb]; [|intuition discriminate].
  destruct (digits_exactly 24 (skipn 2 c)) eqn:HD.
  - assert (Hsh : IbanSpec.shape c) by (apply iban_shape_iff; auto).
    rewrite (iban_shape_length c Hsh). cbn [Nat.eqb negb].
    change (lit "0") with ["0"%char].
    rewrite <- (substring_char 9 c "0").
    destruct (str_eqb (substring 9 10 c) ["0"%char]); cbn [negb];
      [|intuition discriminate].
    rewrite iban_validateChecksum_spec by (apply iban_shape_alnum; exact Hsh).
    rewrite Z.eqb_eq. tauto.
  - destruct (Nat.eqb (length c) 26); cbn [negb]; intuition discriminate.
Qed.

(** ** IBAN generation *)

Lemma length_2_inv (s : str) : length s = 2%nat -> exists a b, s = [a; b].
Proof.
  intros H. do 2 (destruct s as [|? s]; [discriminate|]).
  destruct s; [|discriminate]. repeat eexists.
Qed.

Lemma length_5_inv (s : str) :
  length s = 5%nat -> exists a b c d e, s = [a; b; c; d; e].
Proof.
  intros H. do 5 (destruct s as [|? s]; [discriminate|]).
  destruct s; [|discriminate]. repeat eexists.
Qed.

Lemma iban_check_digits_spec (body : str) :
  digits body ->
  let cd := Iban.calculateCheckDigits (lit "TR" ++ lit "00" ++ body) in
  length cd = 2%nat /\ digits cd
  /\ dec_value cd = 98 - (dec_value body * 10 ^ 6 + 292700) mod 97.
Proof.
  intros HD. cbv zeta. unfold Iban.calculateCheckDigits, substring, substring_from.
  cbn [lit String.list_ascii_of_string app Nat.sub skipn firstn].
  rewrite convert_app, convert_digits by exact HD.
  change (Iban.convertLettersToNumbers ["T"; "R"; "0"; "0"]%char)
    with (lit "292700").
  rewrite calculateMod97_spec.
  2:{ apply digits_app. split; [exact HD | repeat constructor]. }
  rewrite dec_value_app.
  change (dec_value (lit "292700")) with 292700.
  change (Z.of_nat (length (lit "292700"))) with 6.
  cbn [nsub].
  pose proof (Z.mod_pos_bound (dec_value body * 10 ^ 6 + 292700) 97 ltac:(lia)).
  apply (padStart_toString 2); [lia|]. change (10 ^ Z.of_nat 2) with 100. lia.
Qed.

Lemma mod97_check (y : Z) : (y + (98 - y mod 97)) mod 97 = 1.
Proof.
  pose proof (Z.div_mod y 97 ltac:(lia)) as H.
  replace (y + (98 - y mod 97)) with (1 + (1 + y / 97) * 97) by lia.
  rewrite Z.mod_add by lia. reflexivity.
Qed.

Lemma iban_full_valid (bank acct : str) :
  length bank = 5%nat -> digits bank -> length acct = 16%nat -> digits acct ->
  let cd := Iban.calculateCheckDigits
              (lit "TR" ++ lit "00" ++ bank ++ lit "0" ++ acct) in
  let full := lit "TR" ++ cd ++ bank ++ lit "0" ++ acct in
  IbanSpec.shape full /\ nth_error full 9 = Some "0"%char
  /\ IbanSpec.checksum full = 1.
Proof.
  intros HLb HDb HLa HDa. cbv zeta.
  assert (HDbody : digits (bank ++ lit "0" ++ acct)).
  { apply digits_app. split; [exact HDb|]. constructor; [reflexivity | exact HDa]. }
  destruct (iban_check_digits_spec _ HDbody) as (HLc & HDc & HVc).
  set (cd := Iban.calculateCheckDigits _) in *.
  split; [|split].
  - exists (cd ++ bank ++ lit "0" ++ acct). split; [reflexivity|]. split.
    + rewrite !length_app, HLc, HLb, HLa. reflexivity.
    + apply digits_app. split; assumption.
  - apply length_2_inv in HLc. destruct HLc as (c1 & c2 & ->).
    apply length_5_inv in HLb. destruct HLb as (b1 & b2 & b3 & b4 & b5 & ->).
    reflexivity.
  - unfold IbanSpec.checksum.
    pose proof HLc as HLc'.
    apply length_2_inv in HLc'. destruct HLc' as (c1 & c2 & Ec).
    rewrite Ec in *.
    set (body := bank ++ lit "0" ++ acct) in *.
    change (lit "TR" ++ [c1; c2] ++ body) with ("T" :: "R" :: c1 :: c2 :: body)%char.
    cbn [skipn firstn].
    rewrite <- iban_numeric_spec.
    2:{ apply Forall_app. split; [apply digits_alnum; exact HDbody|].
        inversion HDc as [|? ? H1 H2]; subst. inversion H2; subst.
        constructor; [right; reflexivity|]. constructor; [right; reflexivity|].
        constructor; [left; assumption|]. constructor; [left; assumption|].
        constructor. }
    rewrite convert_app, convert_digits by exact HDbody.
    change ["T"; "R"; c1; c2]%char with (["T"; "R"]%char ++ [c1; c2]).
    rewrite convert_app, (convert_digits [c1; c2]) by exact HDc.
    change (Iban.convertLettersToNumbers ["T"; "R"]%char) with (lit "2927").
    rewrite !dec_value_app, HVc.
    change (dec_value (lit "2927")) with 2927.
    change (Z.of_nat (length [c1; c2])) with 2.
    change (Z.of_nat (length (lit "2927" ++ [c1; c2]))) with 6.
    set (X := dec_value body).
    replace (X * 10 ^ 6 + (2927 * 10 ^ 2 + (98 - (X * 10 ^ 6 + 292700) mod 97)))
      with ((X * 10 ^ 6 + 292700) + (98 - (X * 10 ^ 6 + 292700) mod 97)) by lia.
    apply mod97_check.
Qed.

Lemma iban_assemble_valid (bank acct : str) :
  length bank = 5%nat -> digits bank -> length acct = 16%nat -> digits acct ->
  Iban.validate (Iban.assemble bank acct) = true.
Proof.
  intros HLb HDb HLa HDa.
  destruct (iban_full_valid bank acct HLb HDb HLa HDa) as (Hs & Hn & Hc).
  apply iban_validate_spec. cbv zeta. unfold Iban.assemble, Iban.COUNTRY_CODE.
  set (full := lit "TR" ++ _ ++ bank ++ lit "0" ++ acct) in *.
  rewrite iban_format_clean.
  rewrite remove_space_alnum, toUpperCase_alnum by (apply iban_shape_alnum; exact Hs).
  auto.
Qed.

Lemma iban_bank_codes : Forall (fun b => length b = 5%nat /\ digits b) Iban.BANK_CODES.
Proof. repeat constructor. Qed.

Lemma random_element_In (l : list str) (g : Rng) :
  l <> [] -> In (fst (random_element l g)) l.
Proof.
  intros Hl. unfold random_element, bind, ret.
  assert (Hn : 0 < Z.of_nat (length l)) by (destruct l; [congruence | cbn; lia]).
  pose proof (random_below_range _ g Hn) as Hr.
  destruct (random_below _ g) as [i g']. cbn [fst] in *.
  apply nth_In. lia.
Qed.

Lemma iban_generate_valid (g : Rng) : Iban.validate (fst (Iban.generate g)) = true.
Proof.
  unfold Iban.generate, bind, ret.
  pose proof (random_element_In Iban.BANK_CODES g ltac:(discriminate)) as Hb.
  destruct (random_element Iban.BANK_CODES g) as [bank g1]. cbn [fst] in Hb.
  pose proof (append_digits_spec Iban.ACCOUNT_LENGTH [] g1) as (t & Ht & HL & HD).
  unfold Iban.generateRandomAccountNumber.
  destruct (append_digits _ [] g1) as [acct g2]. cbn [fst app] in *. subst acct.
  pose proof iban_bank_codes as HB. rewrite Forall_forall in HB.
  destruct (HB bank Hb) as [HLb HDb].
  apply iban_assemble_valid; assumption.
Qed.

Lemma iban_complete_cases (prefix : str) (g : Rng) :
  let clean := toUpperCase (remove_all is_space prefix) in
  let r := fst (Iban.complete prefix g) in
  (clean = [] -> r = Iban.FALLBACK)
  /\ (startsWith (lit "TR") clean = false -> clean <> [] ->
      r = lit "TR" ++ padEnd 24 "0" clean)
  /\ (startsWith (lit "TR") clean = true -> (length clean < 26)%nat ->
      Iban.validate r = true)
  /\ (startsWith (lit "TR") clean = true -> (26 <= length clean)%nat ->
      r = Iban.formatIban clean).
Proof.
  cbv zeta. unfold Iban.complete, Iban.TOTAL_LENGTH.
  set (clean := toUpperCase (remove_all is_space prefix)).
  destruct (startsWith (lit "TR") clean) eqn:HS; cbn [negb].
  - destruct (Nat.ltb_spec (length clean) 26) as [Hlt | Hge].
    + split; [intros E; rewrite E in HS; discriminate HS|].
      split; [discriminate|]. split; [|lia].
      intros _ _. unfold bind, ret, Iban.generateRandomAccountNumber.
      pose proof (append_digits_spec Iban.ACCOUNT_LENGTH [] g) as (t & Ht & HL & HD).
      destruct (append_digits _ [] g) as [acct g2]. cbn [fst app] in *. subst acct.
      apply iban_assemble_valid; try assumption; repeat constructor.
    + split; [intros E; rewrite E in HS; discriminate HS|].
      split; [discriminate|]. split; [lia | reflexivity].
  - destruct clean as [|c cl] eqn:E; cbn [length Nat.eqb].
    + split; [reflexivity|]. split; [congruence|]. split; discriminate.
    + split; [discriminate|]. split; [reflexivity|]. split; discriminate.
Qed.

(** ** The Luhn check digit *)

Lemma luhn_loop_digits (l : str) (b : bool) :
  digits l ->
  exists z, 0 <= z /\ forall a, Luhn.loop l (Num a) b = Num (a + z).
Proof.
  intros H. revert b. induction H as [|c l Hc _ IH]; intros b.
  - exists 0. split; [lia|]. intros a. cbn. f_equal. lia.
  - destruct (IH (negb b)) as (z & Hz & Hl).
    pose proof (proj1 (is_digit_inv c Hc)) as B.
    cbn [Luhn.loop]. rewrite parseInt_digit by exact Hc.
    destruct b; cbn [negb nmul ngt].
    + destruct (Z.ltb_spec 9 (digit_val c * 2)).
      * exists (digit_val c * 2 - 9 + z). split; [lia|]. intros a.
        cbn [nsub nadd]. rewrite Hl. f_equal. lia.
      * exists (digit_val c * 2 + z). split; [lia|]. intros a.
        cbn [nadd]. rewrite Hl. f_equal. lia.
    + exists (digit_val c + z). split; [lia|]. intros a.
      cbn [nadd]. rewrite Hl. f_equal. lia.
Qed.

Lemma digits_rev (s : str) : digits s -> digits (rev s).
Proof. apply Forall_rev. Qed.

Lemma luhn_check_digit_valid (payload : str) :
  digits payload ->
  exists d, 0 <= d <= 9
            /\ Luhn.calculateLuhnCheckDigit payload = [digit_char d]
            /\ Luhn.validateLuhn (payload ++ [digit_char d]) = true.
Proof.
  intros HD. destruct (luhn_loop_digits (rev payload) true (digits_rev _ HD))
    as (z & Hz & Hl).
  unfold Luhn.calculateLuhnCheckDigit, Luhn.validateLuhn.
  rewrite Hl, check_mod10 by lia. rewrite Z.add_0_l.
  pose proof (check_mod10_range z) as R.
  set (d := (10 - z mod 10) mod 10) in *.
  exists d. split; [exact R|]. split; [apply toString_digit; exact R|].
  rewrite rev_app_distr. cbn [rev app Luhn.loop negb].
  rewrite parseInt_digit by (apply digit_char_is_digit; exact R).
  rewrite digit_val_char by exact R. cbn [nadd]. rewrite Hl.
  rewrite nmod_pos by lia. cbn [strict_eq]. apply Z.eqb_eq.
  subst d. clear. Z.to_euclidean_division_equations. lia.
Qed.

(** ** Display formats only add separators *)

Section Separators.

Variable sep : ascii -> bool.
Hypothesis sep_space : forall c, is_space c = true -> sep c = true.

Lemma sep_blank : sep " "%char = true.
Proof. apply sep_space. reflexivity. Qed.

Lemma firstn_add (n m : nat) (s : str) :
  firstn (n + m) s = firstn n s ++ firstn m (skipn n s).
Proof.
  revert s. induction n as [|n IH]; intros s; [reflexivity|].
  destruct s as [|c s]; cbn; [rewrite firstn_nil; reflexivity|].
  f_equal. apply IH.
Qed.

Lemma join_groups_clean (sizes : list nat) (run : str) :
  remove_all sep (join_groups sizes run)
  = remove_all sep (firstn (list_sum sizes) run).
Proof.
  revert run. induction sizes as [|n rest IH]; intros run; [reflexivity|].
  destruct rest as [|m rest'].
  - cbn. rewrite Nat.add_0_r. reflexivity.
  - change (join_groups (n :: m :: rest') run)
      with (firstn n run ++ " "%char :: join_groups (m :: rest') (skipn n run)).
    change (list_sum (n :: m :: rest')) with (n + list_sum (m :: rest'))%nat.
    rewrite firstn_add, !remove_all_app. f_equal.
    cbn [remove_all filter]. rewrite sep_blank. cbn [negb]. apply IH.
Qed.

Lemma regroup_first_clean (sizes : list nat) (s : str) :
  remove_all sep (regroup_first sizes s) = remove_all sep s.
Proof.
  induction s as [|c s IH].
  - cbn [regroup_first]. destruct (digits_exactly _ _); [|reflexivity].
    rewrite remove_all_app, join_groups_clean, firstn_firstn, Nat.min_id,
      <- remove_all_app, firstn_skipn.
    reflexivity.
  - cbn [regroup_first]. destruct (digits_exactly _ _).
    + rewrite remove_all_app, join_groups_clean, firstn_firstn, Nat.min_id,
      <- remove_all_app, firstn_skipn.
      reflexivity.
    + cbn [remove_all filter]. unfold remove_all in IH. rewrite IH. reflexivity.
Qed.

Lemma space_every4_clean_le (n : nat) (s : str) :
  (length s <= n)%nat -> remove_all sep (space_every4 s) = remove_all sep s.
Proof.
  revert s. induction n as [|n IH]; intros s HL.
  - destruct s; [reflexivity | cbn in HL; lia].
  - destruct s as [|a t]; [reflexivity|].
    assert (Hstep : remove_all sep (a :: space_every4 t) = remove_all sep (a :: t)).
    { cbn [remove_all filter]. unfold remove_all in IH. rewrite IH by (cbn in HL; lia).
      reflexivity. }
    destruct t as [|b [|c [|d r]]]; try exact Hstep.
    cbn [space_every4].
    destruct (is_digit a && is_digit b && is_digit c && is_digit d); [|exact Hstep].
    change (a :: b :: c :: d :: " "%char :: space_every4 r)
      with ([a; b; c; d] ++ " "%char :: space_every4 r).
    change (a :: b :: c :: d :: r) with ([a; b; c; d] ++ r).
    rewrite !remove_all_app. f_equal.
    cbn [remove_all filter]. rewrite sep_blank. cbn [negb].
    unfold remove_all in IH. apply IH. cbn in HL. lia.
Qed.

Lemma space_every4_clean (s : str) :
  remove_all sep (space_every4 s) = remove_all sep s.
Proof. apply (space_every4_clean_le (length s)). lia. Qed.

Lemma drop_leading_space_clean (s : str) :
  remove_all sep (drop_leading_space s) = remove_all sep s.
Proof.
  induction s as [|c s IH]; [reflexivity|].
  cbn [drop_leading_space]. destruct (is_space c) eqn:Hc; [|reflexivity].
  rewrite IH. cbn [remove_all filter]. rewrite (sep_space c Hc). reflexivity.
Qed.

Lemma remove_all_rev (s : str) : remove_all sep (rev s) = rev (remove_all sep s).
Proof.
  induction s as [|c s IH]; [reflexivity|].
  cbn [rev]. rewrite remove_all_app, IH. cbn [remove_all filter].
  destruct (sep c); cbn [negb]; [apply app_nil_r | reflexivity].
Qed.

Lemma trim_clean (s : str) : remove_all sep (trim s) = remove_all sep s.
Proof.
  unfold trim.
  rewrite remove_all_rev, drop_leading_space_clean, remove_all_rev, rev_involutive.
  apply drop_leading_space_clean.
Qed.

End Separators.

Lemma digit_not_separator (c : ascii) :
  is_digit c = true ->
  CreditCard.separator c = false /\ Imei.separator c = false
  /\ Isbn.separator c = false /\ Ean.separator c = false
  /\ toUpperCase_char c = c.
Proof. char_cases c; vm_compute; intros H; try discriminate H; repeat split. Qed.

(** ** Credit cards *)

Lemma cc_space_separator (c : ascii) :
  is_space c = true -> CreditCard.separator c = true.
Proof. unfold CreditCard.separator. intros ->. reflexivity. Qed.

Lemma cc_clean_digits (s : str) : digits s -> CreditCard.cleanInput s = s.
Proof.
  intros H. apply remove_all_none. revert H. apply Forall_impl.
  intros c Hc. apply (digit_not_separator c Hc).
Qed.

Lemma cc_format_clean (x : str) :
  CreditCard.cleanInput (CreditCard.formatCardNumber x) = CreditCard.cleanInput x.
Proof.
  unfold CreditCard.cleanInput, CreditCard.formatCardNumber.
  destruct (Nat.eqb (length x) 15);
    [apply regroup_first_clean, cc_space_separator|].
  destruct (Nat.eqb (length x) 14);
    [apply regroup_first_clean, cc_space_separator|].
  rewrite trim_clean by apply cc_space_separator.
  apply space_every4_clean, cc_space_separator.
Qed.

Lemma cc_test_app (p : CreditCard.pattern) (x t : str) :
  (4 <= length x)%nat -> CreditCard.test p (x ++ t) = CreditCard.test p x.
Proof.
  intros H. do 4 (destruct x as [|? x]; [cbn in H; lia|]).
  destruct p; reflexivity.
Qed.

Lemma cc_detect_app (x t : str) :
  (4 <= length x)%nat ->
  CreditCard.detectCardType (x ++ t) = CreditCard.detectCardType x.
Proof.
  intros H. unfold CreditCard.detectCardType, CreditCard.CARD_TYPES.
  cbn [find existsb CreditCard.patterns CreditCard.visa CreditCard.mastercard
       CreditCard.amex CreditCard.discover CreditCard.jcb CreditCard.diners].
  rewrite !cc_test_app by exact H. reflexivity.
Qed.

Lemma cc_detect_target (x : str) (ct : CreditCard.card_info) :
  CreditCard.detectCardType x = Some ct ->
  existsb (Nat.eqb (nth 0 (CreditCard.lengths ct) 0%nat)) (CreditCard.lengths ct)
  = true.
Proof.
  intros H. apply find_some in H. destruct H as [H _].
  cbn in H. repeat (destruct H as [<- | H]; [reflexivity|]). contradiction.
Qed.

Lemma all_digits_iff (s : str) : all_digits s = true <-> digits s.
Proof. unfold all_digits, digits. rewrite forallb_forall, Forall_forall. tauto. Qed.

Lemma cc_validate_formatted (y : str) (ct : CreditCard.card_info) :
  digits y -> y <> [] ->
  CreditCard.detectCardType y = Some ct ->
  length y = nth 0 (CreditCard.lengths ct) 0%nat ->
  CreditCard.validateLuhn y = true ->
  CreditCard.validate (CreditCard.formatCardNumber y) = true.
Proof.
  intros HD HN Hct HL HV. unfold CreditCard.validate. cbv zeta.
  rewrite cc_format_clean, cc_clean_digits by exact HD.
  destruct y as [|c y']; [congruence|].
  rewrite (proj2 (all_digits_iff _) HD). cbn [negb].
  rewrite Hct, HL, (cc_detect_target _ _ Hct). exact HV.
Qed.

Lemma cc_complete_inv (partialInput : str) (g : Rng) (r : str) :
  fst (CreditCard.complete partialInput g) = Ok r ->
  let clean := CreditCard.cleanInput partialInput in
  exists ct t checkDigit,
    (4 <= length clean)%nat
    /\ CreditCard.detectCardType clean = Some ct
    /\ (length clean < nth 0 (CreditCard.lengths ct) 0)%nat
    /\ length t = (nth 0 (CreditCard.lengths ct) 0 - 1 - length clean)%nat
    /\ digits t
    /\ checkDigit = CreditCard.calculateLuhnCheckDigit (clean ++ t)
    /\ r = CreditCard.formatCardNumber ((clean ++ t) ++ checkDigit).
Proof.
  cbv zeta. unfold CreditCard.complete.
  set (clean := CreditCard.cleanInput partialInput).
  destruct (Nat.ltb_spec (length clean) 4) as [|H4]; [discriminate|].
  destruct (CreditCard.detectCardType clean) as [ct|] eqn:Hct; [|discriminate].
  destruct (Nat.leb_spec (nth 0 (CreditCard.lengths ct) 0%nat) (length clean))
    as [|Hlt]; [discriminate|].
  unfold bind, ret.
  destruct (pad_random_spec (nth 0 (CreditCard.lengths ct) 0 - 1)%nat clean g)
    as (t & Ht & HLt & HDt).
  destruct (pad_random _ clean g) as [completed g']. cbn [fst] in *. subst completed.
  intros H. inversion H; subst r.
  exists ct, t, (CreditCard.calculateLuhnCheckDigit (clean ++ t)).
  repeat split; auto.
Qed.

Lemma cc_complete_valid (partialInput : str) (g : Rng) (r : str) :
  digits (CreditCard.cleanInput partialInput) ->
  fst (CreditCard.complete partialInput g) = Ok r ->
  CreditCard.validate r = true
  /\ startsWith (CreditCard.cleanInput partialInput) (CreditCard.cleanInput r) = true
  /\ exists ct,
       CreditCard.detectCardType (CreditCard.cleanInput partialInput) = Some ct
       /\ length (CreditCard.cleanInput r) = nth 0 (CreditCard.lengths ct) 0%nat.
Proof.
  intros HD H. apply cc_complete_inv in H. cbv zeta in H.
  set (clean := CreditCard.cleanInput partialInput) in *.
  destruct H as (ct & t & cd & H4 & Hct & Hlt & HLt & HDt & -> & ->).
  assert (HDp : digits (clean ++ t)) by (apply digits_app; auto).
  destruct (luhn_check_digit_valid _ HDp) as (d & Hd & Hc & HV).
  unfold CreditCard.calculateLuhnCheckDigit. rewrite Hc.
  assert (HDy : digits ((clean ++ t) ++ [digit_char d])).
  { apply digits_app. split; [exact HDp|].
    constructor; [apply digit_char_is_digit; exact Hd | constructor]. }
  assert (HLy : length ((clean ++ t) ++ [digit_char d])
                = nth 0 (CreditCard.lengths ct) 0%nat).
  { rewrite !length_app. cbn [length]. lia. }
  assert (Hdet : CreditCard.detectCardType ((clean ++ t) ++ [digit_char d]) = Some ct).
  { rewrite <- app_assoc, cc_detect_app by exact H4. exact Hct. }
  split; [|split].
  - apply (cc_validate_formatted _ ct); auto.
    intros E. apply app_eq_nil in E. destruct E; discriminate.
  - rewrite cc_format_clean, cc_clean_digits by exact HDy.
    rewrite <- app_assoc. apply startsWith_app.
  - exists ct. split; [exact Hct|].
    rewrite cc_format_clean, cc_clean_digits by exact HDy. exact HLy.
Qed.

(** The next draw of [random_below n], with its range. *)
Ltac draw :=
  match goal with
  | |- context [random_below ?n ?g] =>
      let R := fresh "R" in
      let z := fresh "z" in
      let g' := fresh "g" in
      pose proof (random_below_range n g eq_refl) as R;
      destruct (random_below n g) as [z g']; cbn [fst] in R
  end.

Ltac small_cases z :=
  let H := fresh in
  assert (H : z = 0 \/ z = 1 \/ z = 2 \/ z = 3 \/ z = 4 \/ z = 5 \/ z = 6
              \/ z = 7 \/ z = 8 \/ z = 9) by lia;
  repeat (destruct H as [H | H]; [subst z | ]); [ .. | subst z]; try lia.

Ltac eval_toString :=
  repeat match goal with
         | |- context [toString (Num ?z)] =>
             let v := eval vm_compute in (toString (Num z)) in
             change (toString (Num z)) with v
         end.

Lemma cc_generate_number (ct : CreditCard.card_info) (g : Rng) :
  In ct CreditCard.CARD_TYPES ->
  let y := fst (CreditCard.generateNumberForPattern
                  (nth 0 (CreditCard.patterns ct) CreditCard.P_4)
                  (nth 0 (CreditCard.lengths ct) 0%nat) g) in
  digits y /\ length y = (nth 0 (CreditCard.lengths ct) 0 - 1)%nat
  /\ forall t, CreditCard.detectCardType (y ++ t) = Some ct.
Proof.
  intros Hin. cbv zeta. cbn in Hin.
  repeat (destruct Hin as [<- | Hin]); [ .. | contradiction];
    cbn [CreditCard.patterns CreditCard.lengths CreditCard.visa
         CreditCard.mastercard CreditCard.amex CreditCard.discover
         CreditCard.jcb CreditCard.diners nth];
    unfold CreditCard.generateNumberForPattern, bind, ret, random;
    repeat draw;
    repeat match goal with
           | R : 0 <= ?z < _ |- _ => small_cases z
           end;
    try match goal with
        | |- context [Qle_bool ?a ?b] => destruct (Qle_bool a b)
        end;
    cbn [negb nth Z.to_nat Pos.to_nat Pos.iter_op Nat.add map];
    eval_toString;
    match goal with
    | |- context [pad_random ?n ?s ?g] =>
        destruct (pad_random_spec n s g) as (t & Ht & HLt & HDt);
        destruct (pad_random n s g) as [y g'']; cbn [fst] in *; subst y
    end;
    (split; [apply digits_app; split; [repeat constructor | exact HDt]
            | split; [rewrite length_app, HLt; reflexivity
                     | intros t'; rewrite <- app_assoc; reflexivity]]).
Qed.
Lemma substring_all (n : nat) (s : str) : length s = n -> substring 0 n s = s.
Proof.
  intros <-. unfold substring. rewrite Nat.sub_0_r. cbn [skipn]. apply firstn_all.
Qed.

Lemma cc_lengths_pos (ct : CreditCard.card_info) :
  In ct CreditCard.CARD_TYPES -> (1 <= nth 0 (CreditCard.lengths ct) 0)%nat.
Proof.
  intros Hin. cbn in Hin.
  repeat (destruct Hin as [<- | Hin]; [cbn; lia|]). contradiction.
Qed.

Lemma cc_generate_valid (g : Rng) :
  CreditCard.validate (fst (CreditCard.generate g)) = true.
Proof.
  unfold CreditCard.generate, CreditCard.getRandomCardType, bind, ret.
  pose proof (random_below_range (Z.of_nat (length CreditCard.CARD_TYPES)) g eq_refl)
    as R.
  destruct (random_below _ g) as [i g1]. cbn [fst] in R.
  set (ct := nth (Z.to_nat i) CreditCard.CARD_TYPES CreditCard.visa).
  assert (Hin : In ct CreditCard.CARD_TYPES).
  { apply nth_In. cbn [length CreditCard.CARD_TYPES] in *. lia. }
  destruct (cc_generate_number ct g1 Hin) as (HD & HL & Hdet).
  destruct (CreditCard.generateNumberForPattern _ _ g1) as [y g2].
  cbn [fst] in *.
  rewrite (substring_all _ y HL).
  destruct (luhn_check_digit_valid y HD) as (d & Hd & Hc & HV).
  unfold CreditCard.calculateLuhnCheckDigit. rewrite Hc.
  pose proof (cc_lengths_pos ct Hin) as Hpos.
  apply (cc_validate_formatted _ ct).
  - apply digits_app. split; [exact HD|].
    constructor; [apply digit_char_is_digit; exact Hd | constructor].
  - intros E. apply app_eq_nil in E. destruct E; discriminate.
  - apply Hdet.
  - rewrite length_app, HL. cbn [length]. lia.
  - exact HV.
Qed.

(** ** IMEI *)

Lemma imei_space_separator (c : ascii) :
  is_space c = true -> Imei.separator c = true.
Proof. unfold Imei.separator. intros ->. reflexivity. Qed.

Lemma imei_clean_digits (s : str) : digits s -> Imei.cleanInput s = s.
Proof.
  intros H. apply remove_all_none. revert H. apply Forall_impl.
  intros c Hc. apply (digit_not_separator c Hc).
Qed.

Lemma imei_format_clean (x : str) :
  Imei.cleanInput (Imei.formatImei x) = Imei.cleanInput x.
Proof. apply regroup_first_clean, imei_space_separator. Qed.

Lemma imei_validate_formatted (payload : str) :
  digits payload -> length payload = 14%nat ->
  exists d, 0 <= d <= 9
    /\ Imei.calculateLuhnCheckDigit payload = [digit_char d]
    /\ Imei.validate (Imei.formatImei (payload ++ [digit_char d])) = true.
Proof.
  intros HD HL. destruct (luhn_check_digit_valid payload HD) as (d & Hd & Hc & HV).
  exists d. split; [exact Hd|]. split; [exact Hc|].
  assert (HDy : digits (payload ++ [digit_char d])).
  { apply digits_app. split; [exact HD|].
    constructor; [apply digit_char_is_digit; exact Hd | constructor]. }
  unfold Imei.validate. cbv zeta.
  rewrite imei_format_clean, imei_clean_digits by exact HDy.
  assert (H15 : digits_exactly 15 (payload ++ [digit_char d]) = true).
  { apply digits_exactly_spec. split; [|exact HDy].
    rewrite length_app, HL. reflexivity. }
  destruct (payload ++ [digit_char d]) as [|c y'] eqn:E.
  { apply app_eq_nil in E. destruct E; discriminate. }
  rewrite H15. exact HV.
Qed.

Lemma imei_common_tacs :
  Forall (fun t => length t = 8%nat /\ digits t) Imei.COMMON_TACS.
Proof. repeat constructor. Qed.

Lemma imei_generate_valid (g : Rng) : Imei.validate (fst (Imei.generate g)) = true.
Proof.
  unfold Imei.generate, bind, ret.
  pose proof (random_element_In Imei.COMMON_TACS g ltac:(discriminate)) as Ht.
  destruct (random_element Imei.COMMON_TACS g) as [tac g1]. cbn [fst] in Ht.
  pose proof imei_common_tacs as HT. rewrite Forall_forall in HT.
  destruct (HT tac Ht) as [HLt HDt].
  draw.
  destruct (padStart_toString 6 z ltac:(lia) ltac:(change (10 ^ Z.of_nat 6) with 1000000; lia))
    as (HLs & HDs & _).
  set (serial := padStart 6 "0" (toString (Num z))) in *.
  destruct (imei_validate_formatted (tac ++ serial)) as (d & Hd & Hc & HV).
  { apply digits_app. split; assumption. }
  { rewrite length_app, HLt, HLs. reflexivity. }
  cbn [fst]. rewrite Hc. exact HV.
Qed.

Lemma imei_complete_valid (partialInput : str) (g : Rng) (r : str) :
  digits (Imei.cleanInput partialInput) ->
  fst (Imei.complete partialInput g) = Ok r ->
  Imei.validate r = true
  /\ startsWith (Imei.cleanInput partialInput) (Imei.cleanInput r) = true
  /\ length (Imei.cleanInput r) = 15%nat.
Proof.
  intros HD. unfold Imei.complete.
  set (clean := Imei.cleanInput partialInput) in *.
  destruct (Nat.ltb_spec (length clean) 8) as [|H8]; [discriminate|].
  destruct (Nat.leb_spec 15 (length clean)) as [|H15]; [discriminate|].
  unfold bind, ret.
  destruct (pad_random_spec 14 clean g) as (t & Ht & HLt & HDt).
  destruct (pad_random 14 clean g) as [completed g']. cbn [fst] in *. subst completed.
  destruct (imei_validate_formatted (clean ++ t)) as (d & Hd & Hc & HV).
  { apply digits_app. split; assumption. }
  { rewrite length_app. lia. }
  rewrite Hc. intros H. inversion H; subst r. clear H.
  assert (HDy : digits ((clean ++ t) ++ [digit_char d])).
  { apply digits_app. split; [apply digits_app; split; assumption|].
    constructor; [apply digit_char_is_digit; exact Hd | constructor]. }
  split; [exact HV|].
  rewrite imei_format_clean, imei_clean_digits by exact HDy. split.
  - rewrite <- app_assoc. apply startsWith_app.
  - rewrite !length_app. cbn [length]. lia.
Qed.

(** ** EAN / UPC *)

Lemma Number_char_digit (c : ascii) :
  is_digit c = true -> Number_char c = Num (digit_val c).
Proof. unfold Number_char. intros ->. reflexivity. Qed.

Lemma ean_weighted_loop_digits (d : str) :
  digits d ->
  exists z, 0 <= z
    /\ forall a, Ean.weighted_loop (map Number_char d) (Num a) = Num (a + z).
Proof.
  induction 1 as [|c d Hc _ IH].
  - exists 0. split; [lia|]. intros a. cbn. f_equal. lia.
  - destruct IH as (z & Hz & Hl).
    pose proof (proj1 (is_digit_inv c Hc)) as B.
    cbn [map Ean.weighted_loop]. rewrite (Number_char_digit c Hc).
    destruct (Nat.eqb _ 1).
    + exists (digit_val c * 3 + z). split; [lia|]. intros a.
      cbn [nmul nadd]. rewrite Hl. f_equal. lia.
    + exists (digit_val c * 1 + z). split; [lia|]. intros a.
      cbn [nmul nadd]. rewrite Hl. f_equal. lia.
Qed.

Lemma ean_checksum_valid (d : str) :
  digits d ->
  exists k, 0 <= k <= 9
    /\ Ean.calculateChecksum d = [digit_char k]
    /\ Ean.validateChecksum (d ++ [digit_char k]) (length d + 1) = true.
Proof.
  intros HD. destruct (ean_weighted_loop_digits d HD) as (z & Hz & Hl).
  unfold Ean.calculateChecksum, Ean.validateChecksum.
  pose proof (check_mod10_range z) as R.
  exists ((10 - z mod 10) mod 10). split; [exact R|].
  rewrite Hl, check_mod10, Z.add_0_l by lia.
  split; [apply toString_digit; exact R|].
  rewrite Nat.add_sub, map_app.
  rewrite nth_error_app2 by (rewrite length_map; lia).
  rewrite length_map, Nat.sub_diag. cbn [map nth_error].
  rewrite firstn_app, length_map, Nat.sub_diag, firstn_O, app_nil_r.
  rewrite <- (length_map Number_char d), firstn_all, Hl.
  rewrite check_mod10, Z.add_0_l by lia.
  rewrite Number_char_digit by (apply digit_char_is_digit; exact R).
  rewrite digit_val_char by exact R.
  cbn [strict_eq]. apply Z.eqb_refl.
Qed.

Lemma ean_clean_digits (s : str) : digits s -> Ean.cleanInput s = s.
Proof.
  intros H. apply remove_all_none. revert H. apply Forall_impl.
  intros c Hc. apply (digit_not_separator c Hc).
Qed.

Tactic Notation "explicit_length" ident(x) integer(n) :=
  do n (destruct x as [|? x]; [discriminate|]); destruct x; [|discriminate].

Lemma ean_formatEan13_clean (x : str) :
  Ean.cleanInput (Ean.formatEan13 x) = Ean.cleanInput x.
Proof.
  unfold Ean.formatEan13. destruct (Nat.eqb_spec (length x) 13) as [H|]; [|reflexivity].
  explicit_length x 13. reflexivity.
Qed.

Lemma ean_formatUpcA_clean (x : str) :
  Ean.cleanInput (Ean.formatUpcA x) = Ean.cleanInput x.
Proof.
  unfold Ean.formatUpcA. destruct (Nat.eqb_spec (length x) 12) as [H|]; [|reflexivity].
  explicit_length x 12. reflexivity.
Qed.

Lemma ean_formatEan8_clean (x : str) :
  Ean.cleanInput (Ean.formatEan8 x) = Ean.cleanInput x.
Proof.
  unfold Ean.formatEan8. destruct (Nat.eqb_spec (length x) 8) as [H|]; [|reflexivity].
  explicit_length x 8. reflexivity.
Qed.

(** A data part of 7, 11 or 12 digits followed by its check digit is
    accepted, whatever display format is applied. *)
Lemma ean_validate_formatted (d : str) (format : str -> str) :
  digits d ->
  length d = 7%nat \/ length d = 11%nat \/ length d = 12%nat ->
  (forall x, Ean.cleanInput (format x) = Ean.cleanInput x) ->
  exists k, 0 <= k <= 9
    /\ Ean.calculateChecksum d = [digit_char k]
    /\ Ean.validate (format (d ++ [digit_char k])) = true
    /\ Ean.cleanInput (format (d ++ [digit_char k])) = d ++ [digit_char k].
Proof.
  intros HD HL Hf. destruct (ean_checksum_valid d HD) as (k & Hk & Hc & HV).
  exists k. split; [exact Hk|]. split; [exact Hc|].
  assert (HDy : digits (d ++ [digit_char k])).
  { apply digits_app. split; [exact HD|].
    constructor; [apply digit_char_is_digit; exact Hk | constructor]. }
  assert (Hclean : Ean.cleanInput (format (d ++ [digit_char k])) = d ++ [digit_char k]).
  { rewrite Hf. apply ean_clean_digits. exact HDy. }
  split; [|exact Hclean].
  unfold Ean.validate. cbv zeta. rewrite Hclean.
  unfold Ean.validateEan13, Ean.validateUpcA, Ean.validateEan8.
  assert (Hd : forall n, length (d ++ [digit_char k]) = n ->
                         digits_exactly n (d ++ [digit_char k]) = true).
  { intros n Hn. apply digits_exactly_spec. auto. }
  rewrite length_app in *. cbn [length] in *.
  destruct HL as [HL | [HL | HL]]; rewrite HL in *; cbn [Nat.add Nat.eqb];
    rewrite Hd by reflexivity; exact HV.
Qed.

Lemma generateRandomDigits_fixed (n : Z) (g : Rng) :
  exists t, fst (Isbn.generateRandomDigits n None g) = t
            /\ length t = Z.to_nat n /\ digits t.
Proof.
  unfold Isbn.generateRandomDigits, bind, ret.
  destruct (append_digits_spec (Z.to_nat n) [] g) as (t & Ht & HL & HD).
  exists t. cbn [app] in Ht. auto.
Qed.

Lemma generateRandomDigits_range (lo hi : Z) (g : Rng) :
  0 <= lo -> lo <= hi -> hi <> 0 ->
  exists t, fst (Isbn.generateRandomDigits lo (Some hi) g) = t
            /\ (Z.to_nat lo <= length t <= Z.to_nat hi)%nat /\ digits t.
Proof.
  intros H0 Hle Hnz. unfold Isbn.generateRandomDigits, bind, ret.
  destruct (Z.eqb_spec hi 0) as [|_]; [contradiction|].
  pose proof (random_below_range (hi - lo + 1) g ltac:(lia)) as R.
  destruct (random_below (hi - lo + 1) g) as [r g1]. cbn [fst] in R.
  destruct (append_digits_spec (Z.to_nat (r + lo)) [] g1) as (t & Ht & HL & HD).
  exists t. cbn [app] in Ht. split; [exact Ht|]. split; [lia | exact HD].
Qed.

Lemma ean_completeAs_pad (dataLength : nat) (format : str -> str)
      (partial : str) (g : Rng) :
  digits partial -> (length partial < dataLength)%nat ->
  dataLength = 7%nat \/ dataLength = 11%nat \/ dataLength = 12%nat ->
  (forall x, Ean.cleanInput (format x) = Ean.cleanInput x) ->
  exists t k,
    digits t /\ length t = (dataLength - length partial)%nat /\ 0 <= k <= 9
    /\ Ean.calculateChecksum (partial ++ t) = [digit_char k]
    /\ fst (Ean.completeAs dataLength format partial g)
       = format ((partial ++ t) ++ [digit_char k])
    /\ Ean.cleanInput (fst (Ean.completeAs dataLength format partial g))
       = (partial ++ t) ++ [digit_char k]
    /\ Ean.validate (fst (Ean.completeAs dataLength format partial g)) = true.
Proof.
  intros HD HL Hn Hf. unfold Ean.completeAs, Ean.generateRandomDigits.
  destruct (Z.leb_spec (Z.of_nat dataLength - Z.of_nat (length partial)) 0); [lia|].
  unfold bind, ret.
  destruct (generateRandomDigits_fixed
              (Z.of_nat dataLength - Z.of_nat (length partial)) g)
    as (t & Ht & HLt & HDt).
  destruct (Isbn.generateRandomDigits _ None g) as [completion g'].
  cbn [fst] in *. subst completion.
  assert (HDd : digits (partial ++ t)) by (apply digits_app; auto).
  assert (HLd : length (partial ++ t) = dataLength) by (rewrite length_app; lia).
  destruct (ean_validate_formatted (partial ++ t) format HDd ltac:(lia) Hf)
    as (k & Hk & Hc & HV & Hcl).
  exists t, k. rewrite Hc. repeat split; auto; try lia.
Qed.

Lemma ean_route_spec (cleaned : str) :
  Ean.route cleaned =
    if Nat.leb 3 (length cleaned) && Nat.ltb (length cleaned) 7 then Some Ean.ToEan8
    else if Nat.leb 7 (length cleaned) && Nat.ltb (length cleaned) 12
         then Some Ean.ToEan13
         else None.
Proof.
  unfold Ean.route.
  destruct (Nat.leb_spec 3 (length cleaned)); destruct (Nat.ltb_spec (length cleaned) 7);
    destruct (Nat.leb_spec 7 (length cleaned));
    destruct (Nat.ltb_spec (length cleaned) 12); cbn [andb]; try reflexivity; lia.
Qed.

Lemma ean_complete_valid (partial : str) (g : Rng) (r : str) :
  digits (Ean.cleanInput partial) ->
  fst (Ean.complete partial g) = Ok r ->
  Ean.validate r = true
  /\ startsWith (Ean.cleanInput partial) (Ean.cleanInput r) = true
  /\ length (Ean.cleanInput r)
     = (if Nat.ltb (length (Ean.cleanInput partial)) 7 then 8 else 13)%nat.
Proof.
  intros HD. unfold Ean.complete. rewrite ean_route_spec.
  set (cleaned := Ean.cleanInput partial) in *.
  destruct (Nat.ltb_spec (length cleaned) 7) as [H7|H7].
  - destruct (Nat.leb_spec 3 (length cleaned)) as [H3|H3]; cbn [andb].
    + unfold bind, ret, Ean.completeAsEan8.
      destruct (ean_completeAs_pad 7 Ean.formatEan8 cleaned g HD H7 ltac:(auto)
                  ean_formatEan8_clean)
        as (t & k & HDt & HLt & Hk & Hc & He & Hcl & HV).
      destruct (Ean.completeAs 7 Ean.formatEan8 cleaned g) as [x g'].
      cbn [fst] in *. intros H. inversion H; subst r. clear H.
      split; [exact HV|]. rewrite Hcl, <- app_assoc.
      split; [apply startsWith_app|]. rewrite !length_app. cbn [length]. lia.
    + destruct (Nat.leb_spec 7 (length cleaned)); [lia|]. cbn [andb]. discriminate.
  - rewrite andb_false_r.
    destruct (Nat.leb_spec 7 (length cleaned)) as [_|]; [|lia].
    destruct (Nat.ltb_spec (length cleaned) 12) as [H12|]; cbn [andb];
      [|discriminate].
    unfold bind, ret, Ean.completeAsEan13.
    destruct (ean_completeAs_pad 12 Ean.formatEan13 cleaned g HD H12 ltac:(auto)
                ean_formatEan13_clean)
      as (t & k & HDt & HLt & Hk & Hc & He & Hcl & HV).
    destruct (Ean.completeAs 12 Ean.formatEan13 cleaned g) as [x g'].
    cbn [fst] in *. intros H. inversion H; subst r. clear H.
    split; [exact HV|]. rewrite Hcl, <- app_assoc.
    split; [apply startsWith_app|]. rewrite !length_app. cbn [length]. lia.
Qed.

Lemma ean_gs1_prefixes :
  Forall (fun p => length p = 3%nat /\ digits p) Ean.COMMON_GS1_PREFIXES.
Proof. repeat constructor. Qed.

Lemma digits_firstn (n : nat) (s : str) : digits s -> digits (firstn n s).
Proof.
  intros H. revert n. induction H as [|c s Hc _ IH]; intros [|n]; cbn;
    try constructor; auto. apply IH.
Qed.

Lemma ean13_accepts (d : str) :
  digits d -> length d = 12%nat ->
  Ean.validate (Ean.formatEan13 (d ++ Ean.calculateChecksum d)) = true.
Proof.
  intros HD HL.
  destruct (ean_validate_formatted d Ean.formatEan13 HD ltac:(auto)
              ean_formatEan13_clean) as (k & Hk & Hc & HV & _).
  rewrite Hc. exact HV.
Qed.

Lemma upca_accepts (d : str) :
  digits d -> length d = 11%nat ->
  Ean.validate (Ean.formatUpcA (d ++ Ean.calculateChecksum d)) = true.
Proof.
  intros HD HL.
  destruct (ean_validate_formatted d Ean.formatUpcA HD ltac:(auto)
              ean_formatUpcA_clean) as (k & Hk & Hc & HV & _).
  rewrite Hc. exact HV.
Qed.

Lemma ean8_accepts (d : str) :
  digits d -> length d = 7%nat ->
  Ean.validate (Ean.formatEan8 (d ++ Ean.calculateChecksum d)) = true.
Proof.
  intros HD HL.
  destruct (ean_validate_formatted d Ean.formatEan8 HD ltac:(auto)
              ean_formatEan8_clean) as (k & Hk & Hc & HV & _).
  rewrite Hc. exact HV.
Qed.

(** The next call of [generateRandomDigits], with what it returns. *)
Ltac draw_digits :=
  match goal with
  | |- context [Isbn.generateRandomDigits ?lo (Some ?hi) ?g] =>
      let t := fresh "t" in
      let E := fresh "E" in
      let HL := fresh "HL" in
      let HD := fresh "HD" in
      let t' := fresh "t" in
      let g' := fresh "g" in
      destruct (generateRandomDigits_range lo hi g ltac:(lia) ltac:(lia) ltac:(lia))
        as (t & E & HL & HD);
      destruct (Isbn.generateRandomDigits lo (Some hi) g) as [t' g'];
      cbn [fst] in E; subst t'
  | |- context [Isbn.generateRandomDigits ?n None ?g] =>
      let t := fresh "t" in
      let E := fresh "E" in
      let HL := fresh "HL" in
      let HD := fresh "HD" in
      let t' := fresh "t" in
      let g' := fresh "g" in
      destruct (generateRandomDigits_fixed n g) as (t & E & HL & HD);
      destruct (Isbn.generateRandomDigits n None g) as [t' g'];
      cbn [fst] in E; subst t'
  end.

Ltac digits_tac :=
  repeat (apply digits_app; split); auto using digits_firstn.

Lemma ean_generateEan13_valid (g : Rng) :
  Ean.validate (fst (Ean.generateEan13 g)) = true.
Proof.
  unfold Ean.generateEan13, Ean.getRandomElement, Ean.generateRandomDigits, bind, ret.
  pose proof (random_element_In Ean.COMMON_GS1_PREFIXES g ltac:(discriminate)) as Hp.
  destruct (random_element Ean.COMMON_GS1_PREFIXES g) as [prefix g1]. cbn [fst] in Hp.
  pose proof ean_gs1_prefixes as HP. rewrite Forall_forall in HP.
  destruct (HP prefix Hp) as [HLp HDp]. clear HP Hp.
  do 2 draw_digits.
  destruct (Nat.ltb_spec (length prefix + length t + length t0) 12) as [Hlt|Hge].
  - draw_digits. cbn [fst]. apply ean13_accepts; [digits_tac|].
    rewrite !length_app. lia.
  - destruct (Nat.ltb_spec 12 (length prefix + length t + length t0)) as [Hgt|Hle];
      cbn [fst]; apply ean13_accepts; unfold substring; cbn [Nat.sub skipn];
      try digits_tac.
    + apply digits_firstn. digits_tac.
    + rewrite length_firstn, !length_app. lia.
    + rewrite !length_app. lia.
Qed.

Lemma ean_generateUpcA_valid (g : Rng) :
  Ean.validate (fst (Ean.generateUpcA g)) = true.
Proof.
  unfold Ean.generateUpcA, Ean.generateRandomDigits, bind, ret.
  destruct (random_digit_spec g) as (d & Hd & He).
  destruct (random_digit g) as [ds g1]. cbn [fst] in He. subst ds.
  do 2 draw_digits. cbn [fst].
  apply upca_accepts.
  - apply digits_app. split; [|digits_tac].
    constructor; [apply digit_char_is_digit; exact Hd | constructor].
  - rewrite !length_app. cbn [length]. lia.
Qed.

Lemma ean_generateEan8_valid (g : Rng) :
  Ean.validate (fst (Ean.generateEan8 g)) = true.
Proof.
  unfold Ean.generateEan8, Ean.generateRandomDigits, bind, ret.
  do 3 draw_digits.
  destruct (Nat.ltb_spec (length (t ++ t0 ++ t1)) 7) as [Hlt|Hge].
  - draw_digits. cbn [fst]. apply ean8_accepts; [digits_tac|].
    rewrite !length_app in *. lia.
  - destruct (Nat.ltb_spec 7 (length (t ++ t0 ++ t1))) as [Hgt|Hle];
      cbn [fst]; apply ean8_accepts; unfold substring; cbn [Nat.sub skipn];
      try digits_tac.
    + apply digits_firstn. digits_tac.
    + rewrite length_firstn. lia.
    + lia.
Qed.

Lemma ean_generate_valid (g : Rng) : Ean.validate (fst (Ean.generate g)) = true.
Proof.
  unfold Ean.generate, bind, random.
  destruct (Qle_bool _ _); cbn [negb];
    [|apply ean_generateEan13_valid].
  destruct (Qle_bool _ _); cbn [negb];
    [apply ean_generateEan8_valid | apply ean_generateUpcA_valid].
Qed.

(** ** ISBN *)

Lemma isbn_clean_digits (s : str) : digits s -> Isbn.cleanInput s = s.
Proof.
  intros H. unfold Isbn.cleanInput. rewrite remove_all_none.
  - apply toUpperCase_alnum, digits_alnum, H.
  - revert H. apply Forall_impl. intros c Hc. apply (digit_not_separator c Hc).
Qed.

Lemma isbn_clean_app (a b : str) :
  Isbn.cleanInput (a ++ b) = Isbn.cleanInput a ++ Isbn.cleanInput b.
Proof.
  unfold Isbn.cleanInput, toUpperCase. rewrite remove_all_app, map_app. reflexivity.
Qed.

Lemma length_12_inv (s : str) :
  length s = 12%nat ->
  exists a b c d e f g h i j k l, s = [a; b; c; d; e; f; g; h; i; j; k; l].
Proof.
  intros H. do 12 (destruct s as [|? s]; [discriminate|]).
  destruct s; [|discriminate]. repeat eexists.
Qed.

Lemma isbn_sum10_digits (p t : str) :
  digits p -> length p = 9%nat ->
  exists z, 0 <= z /\ Isbn.weighted_sum10 p = Num z
            /\ Isbn.weighted_sum10 (p ++ t) = Num z.
Proof.
  intros HD HL. apply length_9_inv in HL. destruct HL as (a&b&c&d&e&f&g&h&i&->).
  unfold digits in HD. split_Forall. unfold Isbn.weighted_sum10, parseInt10_at.
  cbn [seq fold_left nth_error app].
  rewrite !parseInt10_digit by assumption.
  digit_bounds. cbn [nmul nadd]. eexists. split; [|split; reflexivity].
  cbn [Z.of_nat]. lia.
Qed.

Lemma isbn_sum13_digits (p t : str) :
  digits p -> length p = 12%nat ->
  exists z, 0 <= z /\ Isbn.weighted_sum13 p = Num z
            /\ Isbn.weighted_sum13 (p ++ t) = Num z.
Proof.
  intros HD HL. apply length_12_inv in HL.
  destruct HL as (a&b&c&d&e&f&g&h&i&j&k&l&->).
  unfold digits in HD. split_Forall. unfold Isbn.weighted_sum13, parseInt10_at.
  cbn [seq fold_left nth_error app Nat.modulo Nat.divmod fst snd Nat.eqb Nat.sub].
  rewrite !parseInt10_digit by assumption.
  digit_bounds. cbn [nmul nadd]. eexists. split; [|split; reflexivity]. lia.
Qed.

(** The ISBN-10 check character: a digit or [X]. *)
Lemma isbn10_check_char (z : Z) :
  0 <= z ->
  exists c, Isbn.calculateIsbn10CheckDigit (Num z) = [c]
            /\ (is_digit c || char_eqb c "X") = true
            /\ Isbn.cleanInput [c] = [c].
Proof.
  intros Hz. unfold Isbn.calculateIsbn10CheckDigit.
  rewrite nmod_pos by lia. cbn [nsub].
  pose proof (Z.mod_pos_bound z 11 ltac:(lia)) as B.
  rewrite nmod_pos by lia. cbn [strict_eq].
  pose proof (Z.mod_pos_bound (11 - z mod 11) 11 ltac:(lia)) as B'.
  destruct (Z.eqb_spec ((11 - z mod 11) mod 11) 10) as [E|NE].
  - exists "X"%char. repeat split.
  - rewrite toString_digit by lia. eexists. split; [reflexivity|].
    rewrite digit_char_is_digit by lia. split; [reflexivity|].
    apply isbn_clean_digits. constructor; [apply digit_char_is_digit; lia | constructor].
Qed.

Lemma str_eqb_refl (s : str) : str_eqb s s = true.
Proof. apply str_eqb_eq. reflexivity. Qed.

Lemma isbn_formatIsbn10_clean (x : str) :
  Isbn.cleanInput (Isbn.formatIsbn10 x) = Isbn.cleanInput x.
Proof.
  unfold Isbn.formatIsbn10. destruct (Nat.eqb_spec (length x) 10) as [H|]; [|reflexivity].
  explicit_length x 10. reflexivity.
Qed.

Lemma isbn_formatIsbn13_clean (x : str) :
  Isbn.cleanInput (Isbn.formatIsbn13 x) = Isbn.cleanInput x.
Proof.
  unfold Isbn.formatIsbn13. destruct (Nat.eqb_spec (length x) 13) as [H|]; [|reflexivity].
  explicit_length x 13. reflexivity.
Qed.

Lemma isbn10_accepts (p : str) :
  digits p -> length p = 9%nat ->
  let r := Isbn.formatIsbn10
             (p ++ Isbn.calculateIsbn10CheckDigit (Isbn.weighted_sum10 p)) in
  Isbn.validate r = true
  /\ exists c, Isbn.cleanInput r = p ++ [c].
Proof.
  intros HD HL. cbv zeta.
  destruct (isbn_sum10_digits p [] HD HL) as (z & Hz & Hs & _).
  rewrite Hs. destruct (isbn10_check_char z Hz) as (c & Hcalc & Hc & Hcl).
  rewrite Hcalc.
  assert (Ecl : Isbn.cleanInput (Isbn.formatIsbn10 (p ++ [c])) = p ++ [c]).
  { rewrite isbn_formatIsbn10_clean, isbn_clean_app, isbn_clean_digits, Hcl by exact HD.
    reflexivity. }
  split; [|exists c; exact Ecl].
  unfold Isbn.validate. cbv zeta. rewrite Ecl.
  rewrite length_app, HL. cbn [length Nat.add Nat.eqb].
  unfold Isbn.validateIsbn10.
  destruct (isbn_sum10_digits p [c] HD HL) as (z' & _ & Hs1 & Hs2).
  rewrite Hs2. rewrite Hs in Hs1. inversion Hs1; subst z'.
  assert (Hshape : Isbn.isbn10_shape (p ++ [c]) = true).
  { unfold Isbn.isbn10_shape. rewrite length_app, HL. cbn [length Nat.add Nat.eqb andb].
    rewrite forallb_app. cbn [forallb]. rewrite Hc. cbn [andb]. rewrite andb_true_r.
    apply forallb_forall. intros x Hx. unfold digits in HD. rewrite Forall_forall in HD.
    rewrite (HD x Hx). reflexivity. }
  rewrite Hshape. cbn [negb].
  replace (substring 9 10 (p ++ [c])) with [c].
  - rewrite Hcalc. apply str_eqb_refl.
  - apply length_9_inv in HL. destruct HL as (a&b&c0&d&e&f&g&h&i&->). reflexivity.
Qed.

Lemma startsWith_app_l (q p t : str) :
  startsWith q p = true -> startsWith q (p ++ t) = true.
Proof.
  rewrite !startsWith_iff. intros [u ->]. exists (u ++ t). symmetry; apply app_assoc.
Qed.

Lemma isbn13_accepts (p : str) :
  digits p -> length p = 12%nat ->
  startsWith (lit "978") p = true \/ startsWith (lit "979") p = true ->
  let r := Isbn.formatIsbn13 (p ++ Isbn.calculateIsbn13CheckDigit p) in
  Isbn.validate r = true
  /\ exists c, Isbn.cleanInput r = p ++ [c].
Proof.
  intros HD HL HP. cbv zeta.
  destruct (isbn_sum13_digits p [] HD HL) as (z & Hz & Hs & _).
  unfold Isbn.calculateIsbn13CheckDigit. rewrite Hs, check_mod10 by exact Hz.
  pose proof (check_mod10_range z) as R. set (k := (10 - z mod 10) mod 10) in *.
  rewrite toString_digit by exact R.
  assert (HDy : digits (p ++ [digit_char k])).
  { apply digits_app. split; [exact HD|].
    constructor; [apply digit_char_is_digit; exact R | constructor]. }
  assert (Ecl : Isbn.cleanInput (Isbn.formatIsbn13 (p ++ [digit_char k]))
                = p ++ [digit_char k]).
  { rewrite isbn_formatIsbn13_clean. apply isbn_clean_digits. exact HDy. }
  split; [|eexists; exact Ecl].
  unfold Isbn.validate. cbv zeta. rewrite Ecl.
  rewrite length_app, HL. cbn [length Nat.add Nat.eqb].
  unfold Isbn.validateIsbn13.
  replace (digits_exactly 13 (p ++ [digit_char k])) with true.
  2:{ symmetry. apply digits_exactly_spec. split; [|exact HDy].
      rewrite length_app, HL. reflexivity. }
  cbn [negb].
  replace (negb (startsWith (lit "978") (p ++ [digit_char k]))
           && negb (startsWith (lit "979") (p ++ [digit_char k]))) with false.
  2:{ symmetry. destruct HP as [HP | HP];
        rewrite (startsWith_app_l _ _ _ HP); cbn [negb andb];
        [reflexivity | apply andb_false_r]. }
  destruct (isbn_sum13_digits p [digit_char k] HD HL) as (z' & _ & Hs1 & Hs2).
  rewrite Hs2, check_mod10 by (rewrite Hs in Hs1; inversion Hs1; lia).
  rewrite Hs in Hs1. inversion Hs1; subst z'. fold k.
  replace (parseInt10_at (p ++ [digit_char k]) 12) with (Num k).
  - cbn [strict_eq]. apply Z.eqb_refl.
  - apply length_12_inv in HL.
    destruct HL as (a&b&c&d&e&f&g&h&i&j&l&m&->).
    unfold parseInt10_at. cbn [app nth_error].
    rewrite parseInt10_digit, digit_val_char
      by (try apply digit_char_is_digit; exact R).
    reflexivity.
Qed.

Lemma isbn_completeAsIsbn10_valid (cleaned : str) (g : Rng) :
  digits cleaned -> (length cleaned <= 9)%nat ->
  let r := fst (Isbn.completeAsIsbn10 cleaned g) in
  Isbn.validate r = true /\ startsWith cleaned (Isbn.cleanInput r) = true.
Proof.
  intros HD HL. cbv zeta. unfold Isbn.completeAsIsbn10.
  destruct (Z.leb_spec (9 - Z.of_nat (length cleaned)) 0) as [Hle | Hgt].
  - unfold ret. cbn [fst]. unfold padEnd.
    replace (9 - length cleaned)%nat with 0%nat by lia.
    cbn [repeat]. rewrite app_nil_r.
    destruct (isbn10_accepts cleaned HD ltac:(lia)) as (HV & c & Hc).
    split; [exact HV|]. rewrite Hc. apply startsWith_app.
  - unfold bind, ret. draw_digits. cbn [fst].
    destruct (isbn10_accepts (cleaned ++ t)) as (HV & c & Hc).
    { digits_tac. } { rewrite length_app. lia. }
    split; [exact HV|]. rewrite Hc, <- app_assoc. apply startsWith_app.
Qed.

Lemma isbn_completeAsIsbn13_valid (cleaned : str) (g : Rng) :
  digits cleaned -> (10 <= length cleaned <= 12)%nat ->
  let r := fst (Isbn.completeAsIsbn13 cleaned g) in
  Isbn.validate r = true
  /\ (startsWith (lit "978") cleaned = true \/ startsWith (lit "979") cleaned = true ->
      startsWith cleaned (Isbn.cleanInput r) = true)
  /\ (startsWith (lit "978") cleaned = false ->
      startsWith (lit "979") cleaned = false ->
      startsWith (lit "978" ++ firstn 9 cleaned) (Isbn.cleanInput r) = true).
Proof.
  intros HD HL. cbv zeta. unfold Isbn.completeAsIsbn13.
  destruct (startsWith (lit "978") cleaned) eqn:H8; cbn [negb andb].
  - destruct (Z.leb_spec (12 - Z.of_nat (length cleaned)) 0) as [Hle | Hgt].
    + unfold ret. cbn [fst]. rewrite substring_all by lia.
      destruct (isbn13_accepts cleaned HD ltac:(lia) ltac:(auto)) as (HV & c & Hc).
      split; [exact HV|]. split; [|discriminate].
      intros _. rewrite Hc. apply startsWith_app.
    + unfold bind, ret. draw_digits. cbn [fst].
      destruct (isbn13_accepts (cleaned ++ t)) as (HV & c & Hc).
      { digits_tac. } { rewrite length_app. lia. }
      { left. apply startsWith_app_l. exact H8. }
      split; [exact HV|]. split; [|discriminate].
      intros _. rewrite Hc, <- app_assoc. apply startsWith_app.
  - destruct (startsWith (lit "979") cleaned) eqn:H9; cbn [negb].
    + destruct (Z.leb_spec (12 - Z.of_nat (length cleaned)) 0) as [Hle | Hgt].
      * unfold ret. cbn [fst]. rewrite substring_all by lia.
        destruct (isbn13_accepts cleaned HD ltac:(lia) ltac:(auto)) as (HV & c & Hc).
        split; [exact HV|]. split; [|discriminate].
        intros _. rewrite Hc. apply startsWith_app.
      * unfold bind, ret. draw_digits. cbn [fst].
        destruct (isbn13_accepts (cleaned ++ t)) as (HV & c & Hc).
        { digits_tac. } { rewrite length_app. lia. }
        { right. apply startsWith_app_l. exact H9. }
        split; [exact HV|]. split; [|discriminate].
        intros _. rewrite Hc, <- app_assoc. apply startsWith_app.
    + destruct (Z.leb_spec (12 - Z.of_nat (length (lit "978" ++ cleaned))) 0)
        as [Hle | Hgt];
        [|rewrite length_app in Hgt; change (length (lit "978")) with 3%nat in Hgt; lia].
      unfold ret. cbn [fst]. unfold substring. cbn [Nat.sub skipn].
      change (firstn 12 (lit "978" ++ cleaned)) with (lit "978" ++ firstn 9 cleaned).
      destruct (isbn13_accepts (lit "978" ++ firstn 9 cleaned)) as (HV & c & Hc).
      { apply digits_app. split; [repeat constructor | apply digits_firstn, HD]. }
      { rewrite length_app, length_firstn. cbn [length lit String.list_ascii_of_string].
        lia. }
      { left. apply startsWith_app. }
      split; [exact HV|]. split; [intros [?|?]; discriminate|].
      intros _ _. rewrite Hc. apply startsWith_app.
Qed.

Lemma isbn_complete_valid (partial : str) (g : Rng) (r : str) :
  digits (Isbn.cleanInput partial) ->
  fst (Isbn.complete partial g) = Ok r ->
  let cleaned := Isbn.cleanInput partial in
  Isbn.validate r = true
  /\ ((length cleaned < 10)%nat \/ startsWith (lit "978") cleaned = true
      \/ startsWith (lit "979") cleaned = true ->
      startsWith cleaned (Isbn.cleanInput r) = true)
  /\ ((10 <= length cleaned)%nat -> startsWith (lit "978") cleaned = false ->
      startsWith (lit "979") cleaned = false ->
      startsWith (lit "978" ++ firstn 9 cleaned) (Isbn.cleanInput r) = true).
Proof.
  intros HD. cbv zeta. unfold Isbn.complete.
  set (cleaned := Isbn.cleanInput partial) in *.
  destruct (Nat.leb_spec 3 (length cleaned)) as [H3|H3]; cbn [andb];
    [|discriminate].
  destruct (Nat.ltb_spec (length cleaned) 10) as [H10|H10].
  - unfold bind, ret.
    destruct (isbn_completeAsIsbn10_valid cleaned g HD ltac:(lia)) as [HV HS].
    destruct (Isbn.completeAsIsbn10 cleaned g) as [x g']. cbn [fst] in *.
    intros H. inversion H; subst r. split; [exact HV|]. split; [auto | lia].
  - destruct (Nat.ltb_spec (length cleaned) 13) as [H13|H13]; [|discriminate].
    unfold bind, ret.
    destruct (isbn_completeAsIsbn13_valid cleaned g HD ltac:(lia)) as (HV & HS & HN).
    destruct (Isbn.completeAsIsbn13 cleaned g) as [x g']. cbn [fst] in *.
    intros H. inversion H; subst r. split; [exact HV|]. split.
    + intros [?|Hp]; [lia | apply HS; exact Hp].
    + intros _. exact HN.
Qed.

(** ** Generation with retries *)

Lemma isbn_common_groups :
  Forall (fun p => length p = 1%nat /\ digits p) Isbn.COMMON_GROUPS.
Proof. repeat constructor. Qed.

Lemma isbn_common_prefixes :
  Forall (fun p => length p = 3%nat /\ digits p
                   /\ (startsWith (lit "978") p = true
                       \/ startsWith (lit "979") p = true))
         Isbn.COMMON_PREFIXES_ISBN13.
Proof.
  constructor; [repeat split; [repeat constructor | left; reflexivity]|].
  constructor; [repeat split; [repeat constructor | right; reflexivity]|].
  constructor.
Qed.

Lemma Some_eq_inv {A : Type} (a b : A) : Some a = Some b -> a = b.
Proof. congruence. Qed.

Lemma isbn10_valid (p : str) :
  digits p -> length p = 9%nat ->
  Isbn.validate
    (Isbn.formatIsbn10 (p ++ Isbn.calculateIsbn10CheckDigit (Isbn.weighted_sum10 p)))
  = true.
Proof. intros HD HL. apply (isbn10_accepts p HD HL). Qed.

Lemma isbn13_valid (p : str) :
  digits p -> length p = 12%nat ->
  startsWith (lit "978") p = true \/ startsWith (lit "979") p = true ->
  Isbn.validate (Isbn.formatIsbn13 (p ++ Isbn.calculateIsbn13CheckDigit p)) = true.
Proof. intros HD HL HP. apply (isbn13_accepts p HD HL HP). Qed.

(** The next call of [getRandomElement] on a table, with a fact about its
    entries. *)
Ltac draw_element table_facts :=
  match goal with
  | |- context [random_element ?l ?g] =>
      let Hin := fresh "Hin" in
      let F := fresh "F" in
      let e := fresh "e" in
      let g' := fresh "g" in
      pose proof (random_element_In l g ltac:(discriminate)) as Hin;
      destruct (random_element l g) as [e g']; cbn [fst] in Hin;
      pose proof table_facts as F; rewrite Forall_forall in F;
      specialize (F e Hin); clear Hin
  end.

Lemma isbn_generateIsbn10_valid (fuel : nat) (g : Rng) (s : str) :
  fst (Isbn.generateIsbn10 fuel g) = Some s -> Isbn.validate s = true.
Proof.
  revert g. induction fuel as [|fuel IH]; intros g; [discriminate|].
  cbn [Isbn.generateIsbn10].
  unfold Isbn.generateIsbn10_body, Isbn.getRandomElement, bind, ret.
  draw_element isbn_common_groups. destruct F as [HLe HDe].
  do 2 draw_digits.
  destruct (Nat.ltb_spec 9 (length e + length t + length t0)) as [Hgt | Hle].
  - apply IH.
  - unfold fst. intros H. apply Some_eq_inv in H. subst s.
    apply isbn10_valid.
    + digits_tac. apply digits_repeat_zero.
    + rewrite !length_app, repeat_length. lia.
Qed.

Lemma isbn_generateIsbn13_valid (fuel : nat) (g : Rng) (s : str) :
  fst (Isbn.generateIsbn13 fuel g) = Some s -> Isbn.validate s = true.
Proof.
  revert g. induction fuel as [|fuel IH]; intros g; [discriminate|].
  cbn [Isbn.generateIsbn13].
  unfold Isbn.generateIsbn13_body, Isbn.getRandomElement, bind, ret.
  draw_element isbn_common_prefixes. destruct F as (HLp & HDp & HPp).
  draw_element isbn_common_groups. destruct F as [HLe HDe].
  do 2 draw_digits.
  destruct (Nat.ltb_spec 12 (length e + length e0 + length t + length t0))
    as [Hgt | Hle].
  - apply IH.
  - unfold fst. intros H. apply Some_eq_inv in H. subst s.
    apply isbn13_valid.
    + digits_tac. apply digits_repeat_zero.
    + rewrite !length_app, repeat_length. lia.
    + destruct HPp as [HPp | HPp]; [left | right];
        apply startsWith_app_l; exact HPp.
Qed.

Lemma isbn_generate_valid (fuel : nat) (g : Rng) (s : str) :
  fst (Isbn.generate fuel g) = Some s -> Isbn.validate s = true.
Proof.
  unfold Isbn.generate, bind, random.
  destruct (Qle_bool _ _); cbn [negb];
    [apply isbn_generateIsbn10_valid | apply isbn_generateIsbn13_valid].
Qed.

Lemma isbn_generateIsbn10_more_fuel (fuel k : nat) (g : Rng) (s : str) :
  fst (Isbn.generateIsbn10 fuel g) = Some s ->
  fst (Isbn.generateIsbn10 (fuel + k) g) = Some s.
Proof.
  revert g. induction fuel as [|fuel IH]; intros g; [discriminate|].
  cbn [Isbn.generateIsbn10 Nat.add]. unfold Isbn.generateIsbn10_body, bind, ret.
  destruct (Isbn.getRandomElement Isbn.COMMON_GROUPS g) as [e g1].
  destruct (Isbn.generateRandomDigits 2 (Some 4) g1) as [p g2].
  destruct (Isbn.generateRandomDigits 3 (Some 5) g2) as [t g3].
  destruct (Nat.ltb 9 _); [apply IH | auto].
Qed.

Lemma isbn_generateIsbn13_more_fuel (fuel k : nat) (g : Rng) (s : str) :
  fst (Isbn.generateIsbn13 fuel g) = Some s ->
  fst (Isbn.generateIsbn13 (fuel + k) g) = Some s.
Proof.
  revert g. induction fuel as [|fuel IH]; intros g; [discriminate|].
  cbn [Isbn.generateIsbn13 Nat.add]. unfold Isbn.generateIsbn13_body, bind, ret.
  destruct (Isbn.getRandomElement Isbn.COMMON_PREFIXES_ISBN13 g) as [x g0].
  destruct (Isbn.getRandomElement Isbn.COMMON_GROUPS g0) as [e g1].
  destruct (Isbn.generateRandomDigits 2 (Some 4) g1) as [p g2].
  destruct (Isbn.generateRandomDigits 3 (Some 5) g2) as [t g3].
  destruct (Nat.ltb 12 _); [apply IH | auto].
Qed.

Lemma isbn_generate_more_fuel (fuel k : nat) (g : Rng) (s : str) :
  fst (Isbn.generate fuel g) = Some s ->
  fst (Isbn.generate (fuel + k) g) = Some s.
Proof.
  unfold Isbn.generate, bind, random.
  destruct (Qle_bool _ _); cbn [negb];
    [apply isbn_generateIsbn10_more_fuel | apply isbn_generateIsbn13_more_fuel].
Qed.

Lemma tckn_draw_prefix_spec (g : Rng) :
  let p := fst (Tckn.draw_prefix g) in
  digits_exactly 9 p = true /\ startsWith (lit "0") p = false.
Proof.
  cbv zeta. unfold Tckn.draw_prefix, bind, ret. draw. cbn [nadd].
  rewrite toString_digit by lia.
  destruct (append_digits_spec 8 [digit_char (z + 1)] g0) as (t & Ht & HL & HD).
  destruct (append_digits 8 _ g0) as [p g1]. cbn [fst] in *. subst p.
  split.
  - apply digits_exactly_spec. split; [cbn; lia|].
    constructor; [apply digit_char_is_digit; lia | exact HD].
  - cbn. small_cases z; reflexivity.
Qed.

Lemma tckn_generate_loop_spec (fuel : nat) (g : Rng) (p : str) :
  fst (Tckn.generate_loop fuel g) = Some p ->
  digits_exactly 9 p = true /\ startsWith (lit "0") p = false
  /\ includes Tckn.INVALID_PREFIXES p = false.
Proof.
  revert g. induction fuel as [|fuel IH]; intros g; [discriminate|].
  cbn [Tckn.generate_loop]. unfold bind, ret.
  pose proof (tckn_draw_prefix_spec g) as HP. cbv zeta in HP.
  destruct (Tckn.draw_prefix g) as [q g1]. cbn [fst] in HP.
  destruct (includes Tckn.INVALID_PREFIXES q) eqn:Hi; [apply IH|].
  cbn [fst]. intros H. inversion H; subst q. tauto.
Qed.

Lemma tckn_complete_accepts (p : str) :
  digits_exactly 9 p = true -> startsWith (lit "0") p = false ->
  includes Tckn.INVALID_PREFIXES p = false ->
  exists r, Tckn.complete p = Ok r.
Proof.
  intros Hd H0 Hi. unfold Tckn.complete, Tckn.validatePrefix.
  rewrite Hd, H0, Hi. cbn [negb].
  destruct (Tckn.calculateCheckDigits p). eexists. reflexivity.
Qed.

Lemma tckn_generate_valid (fuel : nat) (g : Rng) (res : result str) :
  fst (Tckn.generate fuel g) = Some res ->
  exists s, res = Ok s /\ Tckn.validate s = true.
Proof.
  unfold Tckn.generate, bind, ret.
  pose proof (tckn_generate_loop_spec fuel g) as HS.
  destruct (Tckn.generate_loop fuel g) as [[p|] g1]; cbn [fst] in *; [|discriminate].
  destruct (HS p eq_refl) as (Hd & H0 & Hi).
  destruct (tckn_complete_accepts p Hd H0 Hi) as [r Hr].
  intros H. inversion H; subst res. exists r. split; [exact Hr|].
  apply (tckn_complete_valid p r Hr).
Qed.

Lemma tckn_generate_loop_more_fuel (fuel k : nat) (g : Rng) (p : str) :
  fst (Tckn.generate_loop fuel g) = Some p ->
  fst (Tckn.generate_loop (fuel + k) g) = Some p.
Proof.
  revert g. induction fuel as [|fuel IH]; intros g; [discriminate|].
  cbn [Tckn.generate_loop Nat.add]. unfold bind, ret.
  destruct (Tckn.draw_prefix g) as [q g1].
  destruct (includes Tckn.INVALID_PREFIXES q); [apply IH | auto].
Qed.

Lemma tckn_generate_more_fuel (fuel k : nat) (g : Rng) (res : result str) :
  fst (Tckn.generate fuel g) = Some res ->
  fst (Tckn.generate (fuel + k) g) = Some res.
Proof.
  unfold Tckn.generate, bind, ret.
  pose proof (tckn_generate_loop_more_fuel fuel k g) as HM.
  destruct (Tckn.generate_loop fuel g) as [[p|] g1]; cbn [fst] in *; [|discriminate].
  rewrite (surjective_pairing (Tckn.generate_loop (fuel + k) g)).
  rewrite (HM p eq_refl). auto.
Qed.

Lemma vkn_generate_valid (g : Rng) :
  exists s, fst (Vkn.generate g) = Ok s /\ Vkn.validate s = true.
Proof.
  unfold Vkn.generate, bind, ret.
  destruct (append_digits_spec 9 [] g) as (t & Ht & HL & HD).
  destruct (append_digits 9 [] g) as [p g1]. cbn [fst app] in *. subst p.
  assert (Hd : digits_exactly 9 t = true) by (apply digits_exactly_spec; auto).
  destruct (Vkn.complete t) as [r|m] eqn:Hc.
  - exists r. split; [reflexivity|]. apply (vkn_complete_valid t r Hc).
  - unfold Vkn.complete, Vkn.validatePrefix in Hc. rewrite Hd in Hc. discriminate.
Qed.

(** ** A bounded run stops at the first accepted round *)

Lemma tckn_generate_loop_unroll (fuel : nat) (g : Rng) :
  Tckn.generate_loop (S fuel) g
  = if includes Tckn.INVALID_PREFIXES (fst (Tckn.draw_prefix g))
    then Tckn.generate_loop fuel (snd (Tckn.draw_prefix g))
    else (Some (fst (Tckn.draw_prefix g)), snd (Tckn.draw_prefix g)).
Proof.
  cbn [Tckn.generate_loop]. unfold bind, ret.
  destruct (Tckn.draw_prefix g) as [p g1]. cbn [fst snd].
  destruct (includes Tckn.INVALID_PREFIXES p); reflexivity.
Qed.

Lemma tckn_generate_loop_progress (fuel k : nat) (g : Rng) :
  (k < fuel)%nat ->
  includes Tckn.INVALID_PREFIXES (fst (Tckn.draw_prefix (Tckn.before_round k g)))
  = false ->
  exists p, fst (Tckn.generate_loop fuel g) = Some p.
Proof.
  revert k g. induction fuel as [|fuel IH]; intros k g Hk Hacc; [lia|].
  rewrite tckn_generate_loop_unroll.
  destruct (includes Tckn.INVALID_PREFIXES (fst (Tckn.draw_prefix g))) eqn:Hi;
    [|eexists; reflexivity].
  destruct k as [|k];
    [change (Tckn.before_round 0 g) with g in Hacc; congruence|].
  apply (IH k); [lia|].
  unfold Tckn.before_round in *. rewrite Nat.iter_succ_r in Hacc. exact Hacc.
Qed.

Lemma tckn_generate_progress (fuel k : nat) (g : Rng) :
  (k < fuel)%nat ->
  includes Tckn.INVALID_PREFIXES (fst (Tckn.draw_prefix (Tckn.before_round k g)))
  = false ->
  exists s, fst (Tckn.generate fuel g) = Some (Ok s) /\ Tckn.validate s = true.
Proof.
  intros Hk Hacc.
  destruct (tckn_generate_loop_progress fuel k g Hk Hacc) as [p Hp].
  assert (H : exists res, fst (Tckn.generate fuel g) = Some res).
  { unfold Tckn.generate, bind, ret.
    destruct (Tckn.generate_loop fuel g) as [[q|] g1]; cbn [fst] in *;
      [eexists; reflexivity | discriminate]. }
  destruct H as [res Hres].
  destruct (tckn_generate_valid fuel g res Hres) as (s & -> & HV).
  exists s. auto.
Qed.

Lemma isbn_generateIsbn10_unroll (fuel : nat) (g : Rng) :
  Isbn.generateIsbn10 (S fuel) g
  = match fst (Isbn.generateIsbn10 1 g) with
    | Some s => (Some s, snd (Isbn.generateIsbn10 1 g))
    | None => Isbn.generateIsbn10 fuel (snd (Isbn.generateIsbn10 1 g))
    end.
Proof.
  cbn [Isbn.generateIsbn10]. unfold Isbn.generateIsbn10_body, bind, ret.
  destruct (Isbn.getRandomElement Isbn.COMMON_GROUPS g) as [e g1].
  destruct (Isbn.generateRandomDigits 2 (Some 4) g1) as [p g2].
  destruct (Isbn.generateRandomDigits 3 (Some 5) g2) as [t g3].
  destruct (Nat.ltb 9 _); reflexivity.
Qed.

Lemma isbn_generateIsbn13_unroll (fuel : nat) (g : Rng) :
  Isbn.generateIsbn13 (S fuel) g
  = match fst (Isbn.generateIsbn13 1 g) with
    | Some s => (Some s, snd (Isbn.generateIsbn13 1 g))
    | None => Isbn.generateIsbn13 fuel (snd (Isbn.generateIsbn13 1 g))
    end.
Proof.
  cbn [Isbn.generateIsbn13]. unfold Isbn.generateIsbn13_body, bind, ret.
  destruct (Isbn.getRandomElement Isbn.COMMON_PREFIXES_ISBN13 g) as [x g0].
  destruct (Isbn.getRandomElement Isbn.COMMON_GROUPS g0) as [e g1].
  destruct (Isbn.generateRandomDigits 2 (Some 4) g1) as [p g2].
  destruct (Isbn.generateRandomDigits 3 (Some 5) g2) as [t g3].
  destruct (Nat.ltb 12 _); reflexivity.
Qed.

Lemma isbn_generateIsbn10_progress (fuel k : nat) (g : Rng) :
  (k < fuel)%nat ->
  fst (Isbn.generateIsbn10 1 (Isbn.before_attempt10 k g)) <> None ->
  exists s, fst (Isbn.generateIsbn10 fuel g) = Some s.
Proof.
  revert k g. induction fuel as [|fuel IH]; intros k g Hk Hacc; [lia|].
  rewrite isbn_generateIsbn10_unroll.
  destruct (fst (Isbn.generateIsbn10 1 g)) as [s|] eqn:H1;
    [eexists; reflexivity|].
  destruct k as [|k];
    [change (Isbn.before_attempt10 0 g) with g in Hacc; congruence|].
  apply (IH k); [lia|].
  unfold Isbn.before_attempt10 in *. rewrite Nat.iter_succ_r in Hacc. exact Hacc.
Qed.

Lemma isbn_generateIsbn13_progress (fuel k : nat) (g : Rng) :
  (k < fuel)%nat ->
  fst (Isbn.generateIsbn13 1 (Isbn.before_attempt13 k g)) <> None ->
  exists s, fst (Isbn.generateIsbn13 fuel g) = Some s.
Proof.
  revert k g. induction fuel as [|fuel IH]; intros k g Hk Hacc; [lia|].
  rewrite isbn_generateIsbn13_unroll.
  destruct (fst (Isbn.generateIsbn13 1 g)) as [s|] eqn:H1;
    [eexists; reflexivity|].
  destruct k as [|k];
    [change (Isbn.before_attempt13 0 g) with g in Hacc; congruence|].
  apply (IH k); [lia|].
  unfold Isbn.before_attempt13 in *. rewrite Nat.iter_succ_r in Hacc. exact Hacc.
Qed.

(** ** Retry loops: when they return *)

Lemma tckn_generate_loop_none (fuel : nat) (g : Rng) :
  (forall k, (k < fuel)%nat ->
     includes Tckn.INVALID_PREFIXES
              (fst (Tckn.draw_prefix (Tckn.before_round k g))) = true) ->
  fst (Tckn.generate_loop fuel g) = None.
Proof.
  revert g. induction fuel as [|fuel IH]; intros g Hrej; [reflexivity|].
  rewrite tckn_generate_loop_unroll.
  rewrite (Hrej 0%nat ltac:(lia) : includes _ (fst (Tckn.draw_prefix g)) = true).
  apply IH. intros k Hk. specialize (Hrej (S k) ltac:(lia)).
  unfold Tckn.before_round in *. rewrite Nat.iter_succ_r in Hrej. exact Hrej.
Qed.

Lemma tckn_generate_none (fuel : nat) (g : Rng) :
  (forall k, (k < fuel)%nat ->
     includes Tckn.INVALID_PREFIXES
              (fst (Tckn.draw_prefix (Tckn.before_round k g))) = true) ->
  fst (Tckn.generate fuel g) = None.
Proof.
  intros Hrej. pose proof (tckn_generate_loop_none fuel g Hrej) as HN.
  unfold Tckn.generate, bind, ret.
  destruct (Tckn.generate_loop fuel g) as [[p|] g1]; cbn [fst] in *;
    [discriminate | reflexivity].
Qed.

Lemma tckn_generate_returns (k : nat) (g : Rng) :
  includes Tckn.INVALID_PREFIXES
           (fst (Tckn.draw_prefix (Tckn.before_round k g))) = false ->
  exists s, Tckn.validate s = true
            /\ forall fuel, (k < fuel)%nat ->
                            fst (Tckn.generate fuel g) = Some (Ok s).
Proof.
  intros Hacc.
  destruct (tckn_generate_progress (S k) k g ltac:(lia) Hacc) as (s & Hs & HV).
  exists s. split; [exact HV|]. intros fuel Hk.
  replace fuel with (S k + (fuel - S k))%nat by lia.
  apply tckn_generate_more_fuel. exact Hs.
Qed.

Lemma isbn_attempt10 (g : Rng) :
  fst (Isbn.generateIsbn10 1 g) = None
  <-> (9 < Isbn.totalLength (fst (Isbn.draw_parts10 g)))%nat.
Proof.
  cbn [Isbn.generateIsbn10].
  unfold Isbn.generateIsbn10_body, Isbn.draw_parts10, bind, ret.
  destruct (Isbn.getRandomElement Isbn.COMMON_GROUPS g) as [e g1].
  destruct (Isbn.generateRandomDigits 2 (Some 4) g1) as [p g2].
  destruct (Isbn.generateRandomDigits 3 (Some 5) g2) as [t g3].
  cbn [fst Isbn.totalLength fold_right].
  destruct (Nat.ltb_spec 9 (length e + length p + length t)); cbn [fst];
    split; intros H0; first [reflexivity | discriminate | lia].
Qed.

Lemma isbn_attempt13 (g : Rng) :
  fst (Isbn.generateIsbn13 1 g) = None
  <-> (12 < Isbn.totalLength (fst (Isbn.draw_parts13 g)))%nat.
Proof.
  cbn [Isbn.generateIsbn13].
  unfold Isbn.generateIsbn13_body, Isbn.draw_parts13, bind, ret.
  destruct (Isbn.getRandomElement Isbn.COMMON_PREFIXES_ISBN13 g) as [x g0].
  destruct (Isbn.getRandomElement Isbn.COMMON_GROUPS g0) as [e g1].
  destruct (Isbn.generateRandomDigits 2 (Some 4) g1) as [p g2].
  destruct (Isbn.generateRandomDigits 3 (Some 5) g2) as [t g3].
  cbn [fst Isbn.totalLength fold_right].
  destruct (Nat.ltb_spec 12 (length x + length e + length p + length t));
    cbn [fst]; split; intros H0; first [reflexivity | discriminate | lia].
Qed.

Lemma isbn_generateIsbn10_none (fuel : nat) (g : Rng) :
  (forall k, (k < fuel)%nat ->
     (9 < Isbn.totalLength
            (fst (Isbn.draw_parts10 (Isbn.before_attempt10 k g))))%nat) ->
  fst (Isbn.generateIsbn10 fuel g) = None.
Proof.
  revert g. induction fuel as [|fuel IH]; intros g Hrej; [reflexivity|].
  rewrite isbn_generateIsbn10_unroll.
  rewrite (proj2 (isbn_attempt10 g) (Hrej 0%nat ltac:(lia))).
  apply IH. intros k Hk. specialize (Hrej (S k) ltac:(lia)).
  unfold Isbn.before_attempt10 in *. rewrite Nat.iter_succ_r in Hrej. exact Hrej.
Qed.

Lemma isbn_generateIsbn13_none (fuel : nat) (g : Rng) :
  (forall k, (k < fuel)%nat ->
     (12 < Isbn.totalLength
             (fst (Isbn.draw_parts13 (Isbn.before_attempt13 k g))))%nat) ->
  fst (Isbn.generateIsbn13 fuel g) = None.
Proof.
  revert g. induction fuel as [|fuel IH]; intros g Hrej; [reflexivity|].
  rewrite isbn_generateIsbn13_unroll.
  rewrite (proj2 (isbn_attempt13 g) (Hrej 0%nat ltac:(lia))).
  apply IH. intros k Hk. specialize (Hrej (S k) ltac:(lia)).
  unfold Isbn.before_attempt13 in *. rewrite Nat.iter_succ_r in Hrej. exact Hrej.
Qed.

Lemma isbn_generate_branch (fuel : nat) (g : Rng) :
  ((fst (random g) < 7 # 10)%Q
   /\ Isbn.generate fuel g = Isbn.generateIsbn13 fuel (snd (random g)))
  \/ ((7 # 10 <= fst (random g))%Q
      /\ Isbn.generate fuel g = Isbn.generateIsbn10 fuel (snd (random g))).
Proof.
  unfold Isbn.generate, bind. destruct (random g) as [q g1]. cbn [fst snd].
  destruct (Qle_bool (7 # 10) q) eqn:Hq; cbn [negb].
  - right. split; [apply Qle_bool_iff; exact Hq | reflexivity].
  - left. split; [|reflexivity]. apply Qnot_le_lt. intros H.
    apply Qle_bool_iff in H. congruence.
Qed.

Lemma isbn_generate_returns (g : Rng) (s : str) (k : nat) :
  fst (Isbn.generate (S k) g) = Some s ->
  Isbn.validate s = true
  /\ forall fuel, (k < fuel)%nat -> fst (Isbn.generate fuel g) = Some s.
Proof.
  intros Hs. split; [exact (isbn_generate_valid (S k) g s Hs)|].
  intros fuel Hk. replace fuel with (S k + (fuel - S k))%nat by lia.
  apply isbn_generate_more_fuel. exact Hs.
Qed.

Lemma isbn_generate_returns10 (g : Rng) (k : nat) :
  (7 # 10 <= fst (random g))%Q ->
  (Isbn.totalLength
     (fst (Isbn.draw_parts10 (Isbn.before_attempt10 k (snd (random g))))) <= 9)%nat ->
  exists s, Isbn.validate s = true
            /\ forall fuel, (k < fuel)%nat -> fst (Isbn.generate fuel g) = Some s.
Proof.
  intros Hq Hacc.
  destruct (isbn_generateIsbn10_progress (S k) k (snd (random g)) ltac:(lia))
    as [s Hs].
  { intros HN. apply isbn_attempt10 in HN. lia. }
  exists s. apply isbn_generate_returns.
  destruct (isbn_generate_branch (S k) g) as [[Hlt _] | [_ ->]]; [lra | exact Hs].
Qed.

Lemma isbn_generate_returns13 (g : Rng) (k : nat) :
  (fst (random g) < 7 # 10)%Q ->
  (Isbn.totalLength
     (fst (Isbn.draw_parts13 (Isbn.before_attempt13 k (snd (random g))))) <= 12)%nat ->
  exists s, Isbn.validate s = true
            /\ forall fuel, (k < fuel)%nat -> fst (Isbn.generate fuel g) = Some s.
Proof.
  intros Hq Hacc.
  destruct (isbn_generateIsbn13_progress (S k) k (snd (random g)) ltac:(lia))
    as [s Hs].
  { intros HN. apply isbn_attempt13 in HN. lia. }
  exists s. apply isbn_generate_returns.
  destruct (isbn_generate_branch (S k) g) as [[_ ->] | [Hle _]]; [exact Hs | lra].
Qed.

Lemma isbn_generate_none (fuel : nat) (g : Rng) :
  ((7 # 10 <= fst (random g))%Q ->
   forall k, (k < fuel)%nat ->
     (9 < Isbn.totalLength
            (fst (Isbn.draw_parts10
                    (Isbn.before_attempt10 k (snd (random g))))))%nat) ->
  ((fst (random g) < 7 # 10)%Q ->
   forall k, (k < fuel)%nat ->
     (12 < Isbn.totalLength
             (fst (Isbn.draw_parts13
                     (Isbn.before_attempt13 k (snd (random g))))))%nat) ->
  fst (Isbn.generate fuel g) = None.
Proof.
  intros H10 H13.
  destruct (isbn_generate_branch fuel g) as [[Hq ->] | [Hq ->]].
  - apply isbn_generateIsbn13_none. exact (H13 Hq).
  - apply isbn_generateIsbn10_none. exact (H10 Hq).
Qed.

(** ** Random sources on which every draw is rejected *)

Lemma tckn_rounds_constant_half (k : nat) :
  Tckn.before_round k (constant_rng (1 # 2)) = mkRng (fun _ => 1 # 2)%Q (9 * k).
Proof.
  induction k as [|k IH]; [reflexivity|].
  unfold Tckn.before_round in *. rewrite Nat.iter_succ, IH.
  replace (9 * S k)%nat with (9 + 9 * k)%nat by lia. reflexivity.
Qed.

Lemma isbn_attempts_constant_nine_tenths (k c : nat) :
  Isbn.before_attempt10 k (mkRng (fun _ => 9 # 10)%Q c)
  = mkRng (fun _ => 9 # 10)%Q (12 * k + c).
Proof.
  induction k as [|k IH]; [reflexivity|].
  unfold Isbn.before_attempt10 in *. rewrite Nat.iter_succ, IH.
  replace (12 * S k + c)%nat with (12 + (12 * k + c))%nat by lia. reflexivity.
Qed.

(** ** Remaining facts used by the claims *)

Lemma cc_format_strip (x : str) :
  remove_all is_space (CreditCard.formatCardNumber x) = remove_all is_space x.
Proof.
  unfold CreditCard.formatCardNumber.
  destruct (Nat.eqb (length x) 15); [apply regroup_first_clean; auto|].
  destruct (Nat.eqb (length x) 14); [apply regroup_first_clean; auto|].
  rewrite trim_clean by auto. apply space_every4_clean. auto.
Qed.

Lemma strip_digits (s : str) : digits s -> remove_all is_space s = s.
Proof. intros H. apply remove_space_alnum, digits_alnum, H. Qed.

Lemma cc_visa_detected (c : str) :
  startsWith (lit "4") c = true -> CreditCard.detectCardType c = Some CreditCard.visa.
Proof.
  intros H. apply startsWith_iff in H. destruct H as [t ->]. reflexivity.
Qed.

Lemma cc_complete_visa (partialInput : str) (g : Rng) :
  let c := CreditCard.cleanInput partialInput in
  digits c -> startsWith (lit "4") c = true ->
  ((4 <= length c <= 12)%nat ->
   exists r, fst (CreditCard.complete partialInput g) = Ok r
             /\ digits (remove_all is_space r)
             /\ length (remove_all is_space r) = 13%nat
             /\ startsWith c (remove_all is_space r) = true
             /\ CreditCard.validate r = true)
  /\ (length c = 13%nat ->
      fst (CreditCard.complete partialInput g)
      = Throw "Kredi kartı numarası zaten tamamlanmış").
Proof.
  cbv zeta. intros HD H4. pose proof (cc_visa_detected _ H4) as Hv. split.
  - intros HL.
    destruct (fst (CreditCard.complete partialInput g)) as [r|m] eqn:Hc.
    + exists r. split; [reflexivity|].
      destruct (cc_complete_valid partialInput g r HD Hc) as (HV & _ & _).
      apply cc_complete_inv in Hc. cbv zeta in Hc.
      destruct Hc as (ct & t & cd & _ & Hct & Hlt & HLt & HDt & -> & ->).
      rewrite Hv in Hct. apply Some_eq_inv in Hct. subst ct.
      destruct (luhn_check_digit_valid (CreditCard.cleanInput partialInput ++ t))
        as (d & Hd & Hcd & _); [digits_tac|].
      unfold CreditCard.calculateLuhnCheckDigit in *. rewrite Hcd in *.
      assert (HDy : digits ((CreditCard.cleanInput partialInput ++ t) ++ [digit_char d])).
      { digits_tac. constructor; [apply digit_char_is_digit; exact Hd | constructor]. }
      rewrite cc_format_strip, strip_digits by exact HDy.
      split; [exact HDy|]. split; [|split; [|exact HV]].
      * rewrite !length_app. cbn [length CreditCard.lengths CreditCard.visa nth] in *.
        lia.
      * rewrite <- app_assoc. apply startsWith_app.
    + exfalso. revert Hc. unfold CreditCard.complete. rewrite Hv.
      destruct (Nat.ltb_spec (length (CreditCard.cleanInput partialInput)) 4);
        [lia|].
      cbn [CreditCard.lengths CreditCard.visa nth].
      destruct (Nat.leb_spec 13 (length (CreditCard.cleanInput partialInput)));
        [lia|].
      unfold bind, ret. destruct (pad_random _ _ g). discriminate.
  - intros HL. unfold CreditCard.complete. rewrite Hv, HL. reflexivity.
Qed.

Lemma detect_iban_first (input : str) :
  startsWith (lit "TR") (toUpperCase (remove_all is_space input)) = true ->
  ServiceFactory.detectPossibleServiceTypes input = [IBAN].
Proof.
  intros H. unfold ServiceFactory.detectPossibleServiceTypes. cbv zeta.
  rewrite H, orb_true_r. reflexivity.
Qed.

Lemma ean_complete_ok (partial : str) (g : Rng) :
  Ean.route (Ean.cleanInput partial) <> None ->
  exists r, fst (Ean.complete partial g) = Ok r.
Proof.
  unfold Ean.complete, bind, ret. intros H.
  destruct (Ean.route (Ean.cleanInput partial)) as [[| |]|]; [ | | |congruence].
  - destruct (Ean.completeAsEan8 _ g). eexists. reflexivity.
  - destruct (Ean.completeAsEan13 _ g). eexists. reflexivity.
  - destruct (Ean.completeAsUpcA _ g). eexists. reflexivity.
Qed.

Lemma ean_complete_throws (partial : str) (g : Rng) :
  Ean.route (Ean.cleanInput partial) = None ->
  fst (Ean.complete partial g)
  = Throw "Girilen kısmi EAN/UPC numarası tamamlanamıyor".
Proof. unfold Ean.complete. intros ->. reflexivity. Qed.

(* ================================================================= *)
(** * The claims *)

(** C1, as amended.  A prefix accepted by [complete] comes back extended
    and valid in these cases: for TCKN and VKN always; for credit card,
    IMEI and EAN when the cleaned prefix is all digits; for ISBN when the
    cleaned prefix is all digits, where the result is valid and starts with
    the cleaned prefix if that has fewer than 10 digits or starts with 978
    or 979 (otherwise 978 is put in front of its first nine digits).  For
    IBAN a cleaned prefix that starts with TR and is shorter than 26
    characters yields a valid IBAN. *)
Theorem C1_complete_extends_and_validates :
  (forall p r, Tckn.complete p = Ok r ->
     startsWith p r = true /\ Tckn.validate r = true)
  /\ (forall p r, Vkn.complete p = Ok r ->
        startsWith p r = true /\ Vkn.validate r = true)
  /\ (forall p g r,
        digits (CreditCard.cleanInput p) ->
        fst (CreditCard.complete p g) = Ok r ->
        startsWith (CreditCard.cleanInput p) (CreditCard.cleanInput r) = true
        /\ CreditCard.validate r = true)
  /\ (forall p g r,
        digits (Imei.cleanInput p) ->
        fst (Imei.complete p g) = Ok r ->
        startsWith (Imei.cleanInput p) (Imei.cleanInput r) = true
        /\ Imei.validate r = true)
  /\ (forall p g r,
        digits (Ean.cleanInput p) ->
        fst (Ean.complete p g) = Ok r ->
        startsWith (Ean.cleanInput p) (Ean.cleanInput r) = true
        /\ Ean.validate r = true)
  /\ (forall p g r,
        digits (Isbn.cleanInput p) ->
        fst (Isbn.complete p g) = Ok r ->
        Isbn.validate r = true
        /\ ((length (Isbn.cleanInput p) < 10)%nat
            \/ startsWith (lit "978") (Isbn.cleanInput p) = true
            \/ startsWith (lit "979") (Isbn.cleanInput p) = true ->
            startsWith (Isbn.cleanInput p) (Isbn.cleanInput r) = true)
        /\ ((10 <= length (Isbn.cleanInput p))%nat ->
            startsWith (lit "978") (Isbn.cleanInput p) = false ->
            startsWith (lit "979") (Isbn.cleanInput p) = false ->
            startsWith (lit "978" ++ firstn 9 (Isbn.cleanInput p))
                       (Isbn.cleanInput r) = true))
  /\ (forall p g,
        startsWith (lit "TR") (toUpperCase (remove_all is_space p)) = true ->
        (length (toUpperCase (remove_all is_space p)) < 26)%nat ->
        Iban.validate (fst (Iban.complete p g)) = true).
Proof.
  split; [|split; [|split; [|split; [|split; [|split]]]]].
  - intros p r H. destruct (tckn_complete_valid p r H) as (HV & HS & _). auto.
  - intros p r H. destruct (vkn_complete_valid p r H) as (HV & HS & _). auto.
  - intros p g r HD H. destruct (cc_complete_valid p g r HD H) as (HV & HS & _). auto.
  - intros p g r HD H. destruct (imei_complete_valid p g r HD H) as (HV & HS & _). auto.
  - intros p g r HD H. destruct (ean_complete_valid p g r HD H) as (HV & HS & _). auto.
  - intros p g r HD H. exact (isbn_complete_valid p g r HD H).
  - intros p g HS HL. destruct (iban_complete_cases p g) as (_ & _ & H & _). auto.
Qed.

Lemma C1_complete_extends_and_validates_witness :
  (startsWith (lit "123456789") (lit "12345678950") = true
   /\ Tckn.validate (lit "12345678950") = true)
  /\ (startsWith (lit "123456789") (lit "1234567890") = true
      /\ Vkn.validate (lit "1234567890") = true)
  /\ (startsWith (lit "4111") (CreditCard.cleanInput (lit "4111 0124 5780 1")) = true
      /\ CreditCard.validate (lit "4111 0124 5780 1") = true)
  /\ (startsWith (lit "35238708") (Imei.cleanInput (lit "35 238708 012457 6")) = true
      /\ Imei.validate (lit "35 238708 012457 6") = true)
  /\ (startsWith (lit "12345678901") (Ean.cleanInput (lit "1 234567 890104")) = true
      /\ Ean.validate (lit "1 234567 890104") = true)
  /\ Isbn.validate (lit "978-1-234-56789-7") = true
  /\ Iban.validate (fst (Iban.complete (lit "TR12") zero_rng)) = true.
Proof.
  destruct C1_complete_extends_and_validates
    as (T & V & C & I & E & B & A).
  split; [apply (T (lit "123456789")); reflexivity|].
  split; [apply (V (lit "123456789")); reflexivity|].
  split; [apply (C (lit "4111") sevenths_rng); [repeat constructor | reflexivity]|].
  split; [apply (I (lit "35238708") sevenths_rng); [repeat constructor | reflexivity]|].
  split; [apply (E (lit "12345678901") sevenths_rng); [repeat constructor | reflexivity]|].
  split; [apply (B (lit "1234567890") zero_rng); [repeat constructor | reflexivity]|].
  apply (A (lit "TR12") zero_rng); [reflexivity | vm_compute; lia].
Defined.

(** C1, as stated, fails: the IBAN service accepts the prefix 123 and
    returns TR123 padded with zeros, which neither starts with 123 nor
    validates; the ISBN service accepts 1234567890 and returns an ISBN-13
    that starts with 978; the EAN service accepts the prefix abc, which is
    not numeric, and returns a string that does not validate. *)
Lemma C1_counterexample :
  fst (Iban.complete_value (JsString (lit "123")) zero_rng)
  = Ok (lit "TR123000000000000000000000")
  /\ startsWith (toUpperCase (remove_all is_space (lit "123")))
                (remove_all is_space (lit "TR123000000000000000000000")) = false
  /\ Iban.validate (lit "TR123000000000000000000000") = false
  /\ fst (Isbn.complete (lit "1234567890") zero_rng) = Ok (lit "978-1-234-56789-7")
  /\ startsWith (Isbn.cleanInput (lit "1234567890"))
                (Isbn.cleanInput (lit "978-1-234-56789-7")) = false
  /\ fst (Ean.complete (lit "abc") zero_rng) = Ok (lit "abc0000NaN")
  /\ Ean.validate (lit "abc0000NaN") = false.
Proof. repeat split; vm_compute; reflexivity. Qed.

(** C2, as amended.  For VKN, IBAN, credit card, IMEI and EAN the string
    [generate] returns is accepted by [validate] on every random source.
    TCKN generation redraws its prefix while the draw is one of the
    denylisted prefixes, and ISBN generation retries while the drawn parts
    are longer than the 9 (ISBN-10) or 12 (ISBN-13) data digits.  Both are
    run with a bound on the rounds: every string they return is accepted by
    [validate]; when some round draws an accepted prefix, respectively
    parts that fit, the same valid string is returned under every bound
    above that round; and when every round within the bound is rejected,
    nothing is returned. *)
Theorem C2_generate_validates (g : Rng) :
  (exists s, fst (Vkn.generate g) = Ok s /\ Vkn.validate s = true)
  /\ Iban.validate (fst (Iban.generate g)) = true
  /\ CreditCard.validate (fst (CreditCard.generate g)) = true
  /\ Imei.validate (fst (Imei.generate g)) = true
  /\ Ean.validate (fst (Ean.generate g)) = true
  /\ (forall fuel res,
        fst (Tckn.generate fuel g) = Some res ->
        exists s, res = Ok s /\ Tckn.validate s = true)
  /\ (forall k,
        includes Tckn.INVALID_PREFIXES
                 (fst (Tckn.draw_prefix (Tckn.before_round k g))) = false ->
        exists s, Tckn.validate s = true
                  /\ forall fuel, (k < fuel)%nat ->
                                  fst (Tckn.generate fuel g) = Some (Ok s))
  /\ (forall fuel,
        (forall k, (k < fuel)%nat ->
           includes Tckn.INVALID_PREFIXES
                    (fst (Tckn.draw_prefix (Tckn.before_round k g))) = true) ->
        fst (Tckn.generate fuel g) = None)
  /\ (forall fuel s,
        fst (Isbn.generate fuel g) = Some s -> Isbn.validate s = true)
  /\ (forall k,
        (7 # 10 <= fst (random g))%Q ->
        (Isbn.totalLength
           (fst (Isbn.draw_parts10 (Isbn.before_attempt10 k (snd (random g)))))
         <= 9)%nat ->
        exists s, Isbn.validate s = true
                  /\ forall fuel, (k < fuel)%nat ->
                                  fst (Isbn.generate fuel g) = Some s)
  /\ (forall k,
        (fst (random g) < 7 # 10)%Q ->
        (Isbn.totalLength
           (fst (Isbn.draw_parts13 (Isbn.before_attempt13 k (snd (random g)))))
         <= 12)%nat ->
        exists s, Isbn.validate s = true
                  /\ forall fuel, (k < fuel)%nat ->
                                  fst (Isbn.generate fuel g) = Some s)
  /\ (forall fuel,
        ((7 # 10 <= fst (random g))%Q ->
         forall k, (k < fuel)%nat ->
           (9 < Isbn.totalLength
                  (fst (Isbn.draw_parts10
                          (Isbn.before_attempt10 k (snd (random g))))))%nat) ->
        ((fst (random g) < 7 # 10)%Q ->
         forall k, (k < fuel)%nat ->
           (12 < Isbn.totalLength
                   (fst (Isbn.draw_parts13
                           (Isbn.before_attempt13 k (snd (random g))))))%nat) ->
        fst (Isbn.generate fuel g) = None).
Proof.
  refine (conj _ (conj _ (conj _ (conj _ (conj _ (conj _ (conj _ (conj _
            (conj _ (conj _ (conj _ _))))))))))).
  - apply vkn_generate_valid.
  - apply iban_generate_valid.
  - apply cc_generate_valid.
  - apply imei_generate_valid.
  - apply ean_generate_valid.
  - intros fuel res. apply tckn_generate_valid.
  - intros k. apply tckn_generate_returns.
  - intros fuel. apply tckn_generate_none.
  - intros fuel s. apply isbn_generate_valid.
  - intros k. apply isbn_generate_returns10.
  - intros k. apply isbn_generate_returns13.
  - intros fuel. apply isbn_generate_none.
Qed.

Lemma C2_generate_validates_witness :
  (exists s, Ok (lit "11245780176") = Ok s /\ Tckn.validate s = true)
  /\ (exists s, Tckn.validate s = true
                /\ forall fuel, (0 < fuel)%nat ->
                     fst (Tckn.generate fuel sevenths_rng) = Some (Ok s))
  /\ fst (Tckn.generate 3 (constant_rng (1 # 2))) = None
  /\ Isbn.validate (lit "978-2-578-12400-5") = true
  /\ (exists s, Isbn.validate s = true
                /\ forall fuel, (0 < fuel)%nat ->
                     fst (Isbn.generate fuel late_sevenths_rng) = Some s)
  /\ (exists s, Isbn.validate s = true
                /\ forall fuel, (0 < fuel)%nat ->
                     fst (Isbn.generate fuel sevenths_rng) = Some s)
  /\ fst (Isbn.generate 3 (constant_rng (9 # 10))) = None.
Proof.
  split.
  { destruct (C2_generate_validates sevenths_rng)
      as (_ & _ & _ & _ & _ & T & _).
    apply (T 1%nat (Ok (lit "11245780176"))). reflexivity. }
  split.
  { destruct (C2_generate_validates sevenths_rng)
      as (_ & _ & _ & _ & _ & _ & T & _).
    apply (T 0%nat). reflexivity. }
  split.
  { destruct (C2_generate_validates (constant_rng (1 # 2)))
      as (_ & _ & _ & _ & _ & _ & _ & T & _).
    apply (T 3%nat). intros k Hk.
    destruct k as [|[|[|k]]]; [reflexivity | reflexivity | reflexivity | lia]. }
  split.
  { destruct (C2_generate_validates sevenths_rng)
      as (_ & _ & _ & _ & _ & _ & _ & _ & B & _).
    apply (B 1%nat). reflexivity. }
  split.
  { destruct (C2_generate_validates late_sevenths_rng)
      as (_ & _ & _ & _ & _ & _ & _ & _ & _ & B & _).
    apply (B 0%nat); [vm_compute; discriminate | vm_compute; lia]. }
  split.
  { destruct (C2_generate_validates sevenths_rng)
      as (_ & _ & _ & _ & _ & _ & _ & _ & _ & _ & B & _).
    apply (B 0%nat); [vm_compute; reflexivity | vm_compute; lia]. }
  destruct (C2_generate_validates (constant_rng (9 # 10)))
    as (_ & _ & _ & _ & _ & _ & _ & _ & _ & _ & _ & B).
  apply (B 3%nat).
  - intros _ k Hk.
    destruct k as [|[|[|k]]]; [vm_compute; lia | vm_compute; lia | vm_compute; lia | lia].
  - intros Hq. vm_compute in Hq. discriminate Hq.
Defined.

(** C2, as stated, fails: there are outcomes of the random source on which
    [generate] produces no string at all.  When [Math.random()] is always
    1/2, every round of the TCKN loop draws 555555555, a denylisted prefix,
    so the loop is still running after any number of rounds; when it is
    always 9/10, the ISBN service takes the ISBN-10 path and every attempt
    draws group 9, publisher 9999 and title 99999, ten digits where nine
    fit, so it retries without end. *)
Lemma C2_counterexample :
  (forall k, fst (Tckn.draw_prefix (Tckn.before_round k (constant_rng (1 # 2))))
             = lit "555555555")
  /\ In (lit "555555555") Tckn.INVALID_PREFIXES
  /\ (forall fuel, fst (Tckn.generate fuel (constant_rng (1 # 2))) = None)
  /\ (forall k,
        fst (Isbn.draw_parts10
               (Isbn.before_attempt10 k (snd (random (constant_rng (9 # 10))))))
        = [lit "9"; lit "9999"; lit "99999"])
  /\ (forall fuel, fst (Isbn.generate fuel (constant_rng (9 # 10))) = None).
Proof.
  assert (T : forall k,
             fst (Tckn.draw_prefix (Tckn.before_round k (constant_rng (1 # 2))))
             = lit "555555555")
    by (intros k; rewrite tckn_rounds_constant_half; reflexivity).
  assert (B : forall k,
             fst (Isbn.draw_parts10
                    (Isbn.before_attempt10 k
                       (snd (random (constant_rng (9 # 10))))))
             = [lit "9"; lit "9999"; lit "99999"]).
  { intros k.
    change (snd (random (constant_rng (9 # 10))))
      with (mkRng (fun _ => 9 # 10)%Q 1).
    rewrite isbn_attempts_constant_nine_tenths. reflexivity. }
  split; [exact T|].
  split; [cbn; tauto|].
  split.
  - intros fuel. apply tckn_generate_none. intros k _. rewrite T. reflexivity.
  - split; [exact B|]. intros fuel. apply isbn_generate_none.
    + intros _ k _. rewrite B. vm_compute. lia.
    + intros Hq. vm_compute in Hq. discriminate Hq.
Qed.



(** C4.  [IbanService.validate] accepts exactly the inputs whose cleaned,
    upper-cased form is TR followed by 24 digits, has 0 at position 10 and
    has remainder 1 modulo 97 once the first four characters are moved to
    the end and letters are replaced by their codes; the chunked remainder
    of the code is that remainder.  TR320010009999901234567890 is
    accepted. *)
Theorem C4_iban_validate_mod97 :
  (forall value,
     Iban.validate value = true <->
     IbanSpec.shape (toUpperCase (remove_all is_space value))
     /\ nth_error (toUpperCase (remove_all is_space value)) 9 = Some "0"%char
     /\ IbanSpec.checksum (toUpperCase (remove_all is_space value)) = 1)
  /\ (forall numericString,
        digits numericString ->
        Iban.calculateMod97 numericString = Num (dec_value numericString mod 97))
  /\ Iban.validate (lit "TR320010009999901234567890") = true
  /\ IbanSpec.checksum (lit "TR320010009999901234567890") = 1.
Proof.
  split; [exact iban_validate_spec|].
  split; [exact calculateMod97_spec|].
  split; reflexivity.
Qed.

Lemma C4_iban_validate_mod97_witness :
  Iban.calculateMod97 (lit "001000999990123456789029270032")
  = Num (dec_value (lit "001000999990123456789029270032") mod 97)
  /\ (IbanSpec.shape (lit "TR320010009999901234567890")
      /\ nth_error (lit "TR320010009999901234567890") 9 = Some "0"%char
      /\ IbanSpec.checksum (lit "TR320010009999901234567890") = 1).
Proof.
  destruct C4_iban_validate_mod97 as (V & M & _).
  split; [apply M; repeat constructor|].
  apply (V (lit "TR32 0010 0099 9990 1234 5678 90")). reflexivity.
Defined.

(** C5, as amended.  [TcknService.validate] accepts an 11-digit string
    exactly when its first digit is not 0, it is not one of the nine
    denylisted patterns, and its 10th and 11th digits are the check digits
    computed from the first nine by the stated formulas.  Completing
    123456789 appends 5 and 0. *)
Theorem C5_tckn_validate_check_digits :
  (forall s,
     digits_exactly 11 s = true ->
     (Tckn.validate s = true <->
        nth 0 s "0"%char <> "0"%char
        /\ ~ In s Tckn.INVALID_PATTERNS
        /\ digit_at s 10 = TcknSpec.digit10 s
        /\ digit_at s 11 = TcknSpec.digit11 s))
  /\ (forall p,
        digits_exactly 9 p = true ->
        Tckn.calculateCheckDigits p
        = (Num (TcknSpec.digit10 p), Num (TcknSpec.digit11 p)))
  /\ length Tckn.INVALID_PATTERNS = 9%nat
  /\ Tckn.complete (lit "123456789") = Ok (lit "12345678950").
Proof.
  split; [exact tckn_validate_iff|].
  split; [exact tckn_check_digits_spec|].
  split; reflexivity.
Qed.

Lemma C5_tckn_validate_check_digits_witness :
  (Tckn.validate (lit "12345678950") = true <->
     nth 0 (lit "12345678950") "0"%char <> "0"%char
     /\ ~ In (lit "12345678950") Tckn.INVALID_PATTERNS
     /\ digit_at (lit "12345678950") 10 = TcknSpec.digit10 (lit "12345678950")
     /\ digit_at (lit "12345678950") 11 = TcknSpec.digit11 (lit "12345678950"))
  /\ Tckn.calculateCheckDigits (lit "123456789") = (Num 5, Num 0).
Proof.
  destruct C5_tckn_validate_check_digits as (V & K & _).
  split; [apply (V (lit "12345678950")); reflexivity|].
  apply (K (lit "123456789")). reflexivity.
Defined.

(** C5, as stated, fails on the size of the denylist: [INVALID_PATTERNS]
    has nine entries, not ten; the all-zero pattern is not among them (it is
    rejected by the rule on the first digit). *)
Lemma C5_counterexample :
  length Tckn.INVALID_PATTERNS <> 10%nat
  /\ ~ In (lit "00000000000") Tckn.INVALID_PATTERNS
  /\ Tckn.validate (lit "00000000000") = false.
Proof.
  split; [discriminate|]. split; [|reflexivity].
  cbn. intros H. repeat (destruct H as [H | H]; [discriminate H|]). exact H.
Qed.

(** C6, as amended.  [EanService.complete] routes by cleaned length: a
    partial of 3 to 6 characters goes to the EAN-8 completion and one of 7
    to 10 characters to the EAN-13 completion, while a partial of fewer
    than 3 characters is rejected with an error.  An all-digit partial of 3
    to 10 characters is completed to a valid code of 8, respectively 13,
    digits that extends it.  Each of the three helpers (EAN-8 at 7 data
    digits, UPC-A at 11, EAN-13 at 12), given an all-digit partial shorter
    than its data length, pads it with random digits to that length and
    appends the 3/1 check digit.  Nothing is said about what [complete]
    does with partials of 11 or more characters. *)
Theorem C6_ean_complete_routing :
  (forall partial g,
     let cleaned := Ean.cleanInput partial in
     let n := length cleaned in
     ((3 <= n < 7)%nat ->
        Ean.route cleaned = Some Ean.ToEan8
        /\ exists r, fst (Ean.complete partial g) = Ok r)
     /\ ((7 <= n < 11)%nat ->
           Ean.route cleaned = Some Ean.ToEan13
           /\ exists r, fst (Ean.complete partial g) = Ok r)
     /\ ((n < 3)%nat ->
           Ean.route cleaned = None
           /\ exists m, fst (Ean.complete partial g) = Throw m))
  /\ (forall partial g r,
        digits (Ean.cleanInput partial) ->
        (length (Ean.cleanInput partial) < 11)%nat ->
        fst (Ean.complete partial g) = Ok r ->
        Ean.validate r = true
        /\ startsWith (Ean.cleanInput partial) (Ean.cleanInput r) = true
        /\ length (Ean.cleanInput r)
           = (if Nat.ltb (length (Ean.cleanInput partial)) 7 then 8 else 13)%nat)
  /\ (forall dataLength helper,
        In (dataLength, helper)
           [(7%nat, Ean.completeAsEan8); (11%nat, Ean.completeAsUpcA);
            (12%nat, Ean.completeAsEan13)] ->
        forall partial g,
          digits partial -> (length partial < dataLength)%nat ->
          exists t k,
            digits t /\ length (partial ++ t) = dataLength
            /\ Ean.calculateChecksum (partial ++ t) = [digit_char k]
            /\ Ean.cleanInput (fst (helper partial g))
               = (partial ++ t) ++ [digit_char k]
            /\ Ean.validate (fst (helper partial g)) = true).
Proof.
  split; [|split].
  - intros partial g. cbv zeta. rewrite ean_route_spec.
    set (cleaned := Ean.cleanInput partial).
    assert (Hok : Ean.route cleaned <> None ->
                  exists r, fst (Ean.complete partial g) = Ok r)
      by apply ean_complete_ok.
    assert (Hthrow : Ean.route cleaned = None ->
                     exists m, fst (Ean.complete partial g) = Throw m).
    { intros H. eexists. apply ean_complete_throws. exact H. }
    rewrite ean_route_spec in Hok, Hthrow.
    destruct (Nat.leb_spec 3 (length cleaned));
      destruct (Nat.ltb_spec (length cleaned) 7);
      destruct (Nat.leb_spec 7 (length cleaned));
      destruct (Nat.ltb_spec (length cleaned) 12); cbn [andb] in *;
      repeat split; intros; try lia;
      try (apply Hok; discriminate); try (apply Hthrow; reflexivity).
  - intros partial g r HD _. exact (ean_complete_valid partial g r HD).
  - intros dataLength helper Hin partial g HD HL.
    assert (Hgen : exists format,
               helper = Ean.completeAs dataLength format
               /\ (forall x, Ean.cleanInput (format x) = Ean.cleanInput x)
               /\ (dataLength = 7 \/ dataLength = 11 \/ dataLength = 12)%nat).
    { cbn in Hin. destruct Hin as [H | [H | [H | []]]]; inversion H; subst.
      - exists Ean.formatEan8. auto using ean_formatEan8_clean.
      - exists Ean.formatUpcA. auto using ean_formatUpcA_clean.
      - exists Ean.formatEan13. auto using ean_formatEan13_clean. }
    destruct Hgen as (format & -> & Hf & Hn).
    destruct (ean_completeAs_pad dataLength format partial g HD HL Hn Hf)
      as (t & k & HDt & HLt & Hk & Hc & _ & Hcl & HV).
    exists t, k. repeat split; auto. rewrite length_app. lia.
Qed.

Lemma C6_ean_complete_routing_witness :
  (Ean.route (Ean.cleanInput (lit "12345")) = Some Ean.ToEan8
   /\ exists r, fst (Ean.complete (lit "12345") sevenths_rng) = Ok r)
  /\ (Ean.route (Ean.cleanInput (lit "4006381")) = Some Ean.ToEan13
      /\ exists r, fst (Ean.complete (lit "4006381") sevenths_rng) = Ok r)
  /\ (Ean.route (Ean.cleanInput (lit "12")) = None
      /\ exists m, fst (Ean.complete (lit "12") sevenths_rng) = Throw m)
  /\ (Ean.validate (lit "4 006381 012454") = true
      /\ startsWith (Ean.cleanInput (lit "4006381"))
                    (Ean.cleanInput (lit "4 006381 012454")) = true
      /\ length (Ean.cleanInput (lit "4 006381 012454")) = 13%nat)
  /\ (exists t k,
        digits t /\ length (lit "0360002" ++ t) = 11%nat
        /\ Ean.calculateChecksum (lit "0360002" ++ t) = [digit_char k]
        /\ Ean.cleanInput (fst (Ean.completeAsUpcA (lit "0360002") sevenths_rng))
           = (lit "0360002" ++ t) ++ [digit_char k]
        /\ Ean.validate (fst (Ean.completeAsUpcA (lit "0360002") sevenths_rng))
           = true).
Proof.
  destruct C6_ean_complete_routing as (R & V & H).
  split; [apply (R (lit "12345") sevenths_rng); vm_compute; lia|].
  split; [apply (R (lit "4006381") sevenths_rng); vm_compute; lia|].
  split; [apply (R (lit "12") sevenths_rng); vm_compute; lia|].
  split; [apply (V (lit "4006381") sevenths_rng);
          [repeat constructor | vm_compute; lia | reflexivity]|].
  apply (H 11%nat Ean.completeAsUpcA);
    [right; left; reflexivity | repeat constructor | vm_compute; lia].
Defined.

(** C6, as stated, fails: a partial of cleaned length 2 (below 7) is not
    completed to EAN-8 but rejected with an error. *)
Lemma C6_counterexample :
  length (Ean.cleanInput (lit "12")) = 2%nat
  /\ fst (Ean.complete (lit "12") zero_rng)
     = Throw "Girilen kısmi EAN/UPC numarası tamamlanamıyor".
Proof. split; reflexivity. Qed.

(** C7.  Whenever the cleaned, upper-cased input starts with TR,
    [detectPossibleServiceTypes] returns exactly [[IBAN]]; so it does for
    TR5500010085118102514836, whose length is 24, not 26. *)
Theorem C7_detect_iban_precedence :
  (forall input,
     startsWith (lit "TR") (toUpperCase (remove_all is_space input)) = true ->
     ServiceFactory.detectPossibleServiceTypes input = [IBAN])
  /\ ServiceFactory.detectPossibleServiceTypes (lit "TR5500010085118102514836")
     = [IBAN]
  /\ length (lit "TR5500010085118102514836") = 24%nat.
Proof.
  split; [exact detect_iban_first|]. split; reflexivity.
Qed.

Lemma C7_detect_iban_precedence_witness :
  ServiceFactory.detectPossibleServiceTypes (lit "tr 55") = [IBAN].
Proof.
  apply (proj1 C7_detect_iban_precedence (lit "tr 55")). reflexivity.
Defined.




(** C9.  [VknService.calculateCheckDigit] computes, for a 9-digit prefix,
    the digit given by the stated formula ([p = (d + 10 - i) mod 10], [q = 9]
    when [p = 9] and [(p * 2^(10 - i)) mod 9] otherwise, check digit
    [(10 - (sum of q mod 10)) mod 10]); [validate] accepts a 10-digit string
    exactly when its last digit is that value; for 123456789 the check digit
    is 0. *)
Theorem C9_vkn_check_digit :
  (forall p,
     digits_exactly 9 p = true ->
     Vkn.calculateCheckDigit p = Num (VknSpec.check_digit p))
  /\ (forall s,
        digits_exactly 10 s = true ->
        (Vkn.validate s = true <-> digit_at s 10 = VknSpec.check_digit s))
  /\ Vkn.calculateCheckDigit (lit "123456789") = Num 0
  /\ Vkn.complete (lit "123456789") = Ok (lit "1234567890").
Proof.
  split; [exact vkn_check_digit_spec|]. split; [|split; reflexivity].
  intros s H. apply digits_exactly_spec in H. destruct H as [HL HD].
  apply length_10_inv in HL. destruct HL as (p & x & -> & HL).
  apply Forall_app in HD. destruct HD as [HDp HDx]. inversion HDx; subst.
  rewrite vkn_validate_unfold by (try apply digits_exactly_spec; auto).
  rewrite (vkn_spec_prefix p [x] HL), Z.eqb_eq.
  apply length_9_inv in HL. destruct HL as (a&b&c&d&e&f&g&h&i&->).
  reflexivity.
Qed.

Lemma C9_vkn_check_digit_witness :
  Vkn.calculateCheckDigit (lit "987654321") = Num (VknSpec.check_digit (lit "987654321"))
  /\ (Vkn.validate (lit "1234567890") = true
      <-> digit_at (lit "1234567890") 10 = VknSpec.check_digit (lit "1234567890")).
Proof.
  destruct C9_vkn_check_digit as (K & V & _).
  split; [apply (K (lit "987654321")); reflexivity|].
  apply (V (lit "1234567890")). reflexivity.
Defined.

(** C10.  [CreditCardService.complete] targets the first length listed for
    the detected network.  For Visa (lengths 13, 16, 19) every cleaned
    all-digit prefix of 4 to 12 digits starting with 4 is completed to
    exactly 13 digits, and a 13-digit prefix is rejected as already
    complete. *)
Theorem C10_credit_card_complete_first_length :
  CreditCard.lengths CreditCard.visa = [13; 16; 19]%nat
  /\ forall partialInput g,
       let c := CreditCard.cleanInput partialInput in
       digits c -> startsWith (lit "4") c = true ->
       ((4 <= length c <= 12)%nat ->
        exists r, fst (CreditCard.complete partialInput g) = Ok r
                  /\ digits (remove_all is_space r)
                  /\ length (remove_all is_space r) = 13%nat
                  /\ startsWith c (remove_all is_space r) = true
                  /\ CreditCard.validate r = true)
       /\ (length c = 13%nat ->
           fst (CreditCard.complete partialInput g)
           = Throw "Kredi kartı numarası zaten tamamlanmış").
Proof. split; [reflexivity | exact cc_complete_visa]. Qed.

Lemma C10_credit_card_complete_first_length_witness :
  (exists r, fst (CreditCard.complete (lit "4111-1111 1111") sevenths_rng) = Ok r
             /\ digits (remove_all is_space r)
             /\ length (remove_all is_space r) = 13%nat
             /\ startsWith (CreditCard.cleanInput (lit "4111-1111 1111"))
                           (remove_all is_space r) = true
             /\ CreditCard.validate r = true)
  /\ fst (CreditCard.complete (lit "4222222222222") sevenths_rng)
     = Throw "Kredi kartı numarası zaten tamamlanmış".
Proof.
  destruct C10_credit_card_complete_first_length as (_ & C).
  split.
  - apply (C (lit "4111-1111 1111") sevenths_rng);
      [repeat constructor | reflexivity | vm_compute; lia].
  - apply (C (lit "4222222222222") sevenths_rng);
      [repeat constructor | reflexivity | reflexivity].
Defined.

(* ================================================================= *)
(** * Further properties of the code *)

(** ** Luhn: what one wrong digit does *)

(** The contribution of a digit to the Luhn sum. *)
Lemma luhn_loop_cons (c : ascii) (r : str) (a : Z) (b : bool) :
  is_digit c = true ->
  exists w, 0 <= w
    /\ (forall c', is_digit c' = true -> c' <> c ->
        exists w', 0 <= w' /\ (w' - w) mod 10 <> 0
          /\ Luhn.loop (c' :: r) (Num a) b = Luhn.loop r (Num (a + w')) (negb b))
    /\ Luhn.loop (c :: r) (Num a) b = Luhn.loop r (Num (a + w)) (negb b).
Proof.
  intros Hc. pose proof (is_digit_inv c Hc) as [B E].
  assert (step : forall x, is_digit x = true ->
            Luhn.loop (x :: r) (Num a) b
            = Luhn.loop r (Num (a + (if b then
                                       if 9 <? digit_val x * 2
                                       then digit_val x * 2 - 9
                                       else digit_val x * 2
                                     else digit_val x))) (negb b)).
  { intros x Hx. cbn [Luhn.loop]. rewrite parseInt_digit by exact Hx.
    destruct b; cbn [nmul ngt]; [|reflexivity].
    destruct (9 <? digit_val x * 2); reflexivity. }
  eexists. split; [|split; [|apply step; exact Hc]].
  - destruct b; [destruct (Z.ltb_spec 9 (digit_val c * 2))|]; lia.
  - intros c' Hc' Hne. pose proof (is_digit_inv c' Hc') as [B' E'].
    assert (digit_val c' <> digit_val c) by congruence.
    eexists. split; [|split; [|apply step; exact Hc']].
    + destruct b; [destruct (Z.ltb_spec 9 (digit_val c' * 2))|]; lia.
    + destruct b;
        [destruct (Z.ltb_spec 9 (digit_val c' * 2));
         destruct (Z.ltb_spec 9 (digit_val c * 2))|];
        Z.to_euclidean_division_equations; lia.
Qed.

Lemma luhn_loop_app (l1 l2 : str) (sum : num) (b : bool) :
  Luhn.loop (l1 ++ l2) sum b
  = Luhn.loop l2 (Luhn.loop l1 sum b) (Nat.iter (length l1) negb b).
Proof.
  revert sum b. induction l1 as [|c l1 IH]; intros sum b; [reflexivity|].
  cbn [app Luhn.loop length]. rewrite IH, Nat.iter_succ_r. reflexivity.
Qed.

Lemma luhn_single_error (pre post : str) (c c' : ascii) :
  digits pre -> digits post -> is_digit c = true -> is_digit c' = true ->
  c' <> c ->
  Luhn.validateLuhn (pre ++ c :: post) = true ->
  Luhn.validateLuhn (pre ++ c' :: post) = false.
Proof.
  intros Hpre Hpost Hc Hc' Hne. unfold Luhn.validateLuhn.
  rewrite !rev_app_distr. cbn [rev]. rewrite <- !app_assoc. cbn [app].
  rewrite !luhn_loop_app.
  destruct (luhn_loop_digits (rev post) false (digits_rev _ Hpost))
    as (z1 & Hz1 & H1).
  rewrite H1. set (b := Nat.iter _ negb false).
  destruct (luhn_loop_cons c (rev pre) (0 + z1) b Hc) as (w & Hw & Hother & Hthis).
  destruct (Hother c' Hc' Hne) as (w' & Hw' & Hdiff & Hthat).
  rewrite Hthis, Hthat.
  destruct (luhn_loop_digits (rev pre) (negb b) (digits_rev _ Hpre))
    as (z2 & Hz2 & H2).
  rewrite !H2, !nmod_pos by lia. cbn [strict_eq].
  rewrite Z.eqb_eq, Z.eqb_neq. intros E.
  Z.to_euclidean_division_equations. lia.
Qed.

(** X1.  The Luhn check of [ImeiService] and [CreditCardService] detects
    every single wrong digit: when a string of digits is accepted by
    [validate], the string obtained by replacing one of its digits by a
    different digit is rejected. *)
Theorem X1_luhn_detects_one_wrong_digit (pre post : str) (c c' : ascii) :
  digits pre -> digits post -> is_digit c = true -> is_digit c' = true ->
  c' <> c ->
  (Imei.validate (pre ++ c :: post) = true ->
   Imei.validate (pre ++ c' :: post) = false)
  /\ (CreditCard.validate (pre ++ c :: post) = true ->
      CreditCard.validate (pre ++ c' :: post) = false).
Proof.
  intros Hpre Hpost Hc Hc' Hne.
  assert (D : forall x, is_digit x = true -> digits (pre ++ x :: post)).
  { intros x Hx. apply digits_app. split; [exact Hpre|].
    constructor; assumption. }
  split.
  - unfold Imei.validate. rewrite !imei_clean_digits by (apply D; assumption).
    destruct (pre ++ c :: post) as [|h t] eqn:E; [discriminate|].
    destruct (pre ++ c' :: post) as [|h' t'] eqn:E'; [reflexivity|].
    destruct (digits_exactly 15 (h :: t)); [|discriminate].
    destruct (digits_exactly 15 (h' :: t')); [|reflexivity].
    cbn [negb]. rewrite <- E, <- E'. unfold Imei.validateLuhn.
    apply luhn_single_error; assumption.
  - unfold CreditCard.validate.
    rewrite !cc_clean_digits by (apply D; assumption).
    destruct (pre ++ c :: post) as [|h t] eqn:E; [discriminate|].
    destruct (pre ++ c' :: post) as [|h' t'] eqn:E'; [reflexivity|].
    destruct (all_digits (h :: t)); [|discriminate].
    destruct (all_digits (h' :: t')); [|reflexivity].
    cbn [negb].
    destruct (CreditCard.detectCardType (h :: t)) as [ct|]; [|discriminate].
    destruct (existsb _ (CreditCard.lengths ct)); [|discriminate].
    cbn [negb]. intros HV.
    destruct (CreditCard.detectCardType (h' :: t')) as [ct'|]; [|reflexivity].
    destruct (existsb _ (CreditCard.lengths ct')); [|reflexivity].
    cbn [negb]. rewrite <- E in HV. rewrite <- E'.
    unfold CreditCard.validateLuhn in *.
    apply (luhn_single_error pre post c c'); assumption.
Qed.

Lemma X1_luhn_detects_one_wrong_digit_witness :
  Imei.validate (lit "352387080124576") = true
  /\ Imei.validate (lit "352387080124586") = false
  /\ CreditCard.validate (lit "4532015112830366") = true
  /\ CreditCard.validate (lit "4532015112830365") = false.
Proof.
  pose proof (X1_luhn_detects_one_wrong_digit (lit "3523870801245") (lit "6")
                "7"%char "8"%char) as [HI _];
    [repeat constructor | repeat constructor | reflexivity | reflexivity
    | discriminate | ].
  pose proof (X1_luhn_detects_one_wrong_digit (lit "453201511283036") []
                "6"%char "5"%char) as [_ HC];
    [repeat constructor | repeat constructor | reflexivity | reflexivity
    | discriminate | ].
  assert (VI : Imei.validate (lit "352387080124576") = true) by (vm_compute; reflexivity).
  assert (VC : CreditCard.validate (lit "4532015112830366") = true) by (vm_compute; reflexivity).
  split; [exact VI|]. split; [exact (HI VI)|]. split; [exact VC|exact (HC VC)].
Defined.

(** X2.  For a payload of 14 digits, [ImeiService.validate] accepts the
    payload followed by one more character exactly when that character is
    the check digit [calculateLuhnCheckDigit] computes: the check digit of a
    payload is unique. *)
Theorem X2_imei_check_digit_unique (payload : str) (c : ascii) :
  digits payload -> length payload = 14%nat ->
  (Imei.validate (payload ++ [c]) = true
   <-> [c] = Imei.calculateLuhnCheckDigit payload).
Proof.
  intros HD HL.
  destruct (luhn_check_digit_valid payload HD) as (d & Hd & Hcalc & Hvalid).
  unfold Imei.calculateLuhnCheckDigit. rewrite Hcalc.
  pose proof (digit_char_is_digit d Hd) as Hdc.
  assert (V : forall x, is_digit x = true ->
            Imei.validate (payload ++ [x]) = Luhn.validateLuhn (payload ++ [x])).
  { intros x Hx. unfold Imei.validate.
    assert (D : digits (payload ++ [x]))
      by (apply digits_app; split; [exact HD|repeat constructor; exact Hx]).
    rewrite imei_clean_digits by exact D.
    destruct (payload ++ [x]) as [|h t] eqn:E;
      [destruct payload; discriminate|].
    replace (digits_exactly 15 (h :: t)) with true; [reflexivity|].
    symmetry. apply digits_exactly_spec. split; [|exact D].
    rewrite <- E, length_app, HL. reflexivity. }
  split.
  - intros H. destruct (is_digit c) eqn:Hc.
    + rewrite V in H by exact Hc.
      destruct (ascii_dec c (digit_char d)) as [->|Hne]; [reflexivity|].
      assert (Luhn.validateLuhn (payload ++ [c]) = false)
        by (apply (luhn_single_error payload [] (digit_char d) c);
            [exact HD|constructor|exact Hdc|exact Hc|exact Hne|exact Hvalid]).
      congruence.
    + exfalso. unfold Imei.validate, Imei.cleanInput in H.
      rewrite remove_all_app in H.
      fold (Imei.cleanInput payload) in H.
      rewrite imei_clean_digits in H by exact HD.
      cbn [remove_all filter] in H.
      destruct (negb (Imei.separator c)).
      * destruct (payload ++ [c]) as [|h t] eqn:E; [discriminate|].
        destruct (digits_exactly 15 (h :: t)) eqn:E15; [|discriminate].
        apply digits_exactly_spec in E15. destruct E15 as [_ F].
        rewrite <- E in F. apply digits_app in F. destruct F as [_ F].
        inversion F; congruence.
      * rewrite app_nil_r in H. destruct payload as [|h t]; [discriminate|].
        destruct (digits_exactly 15 (h :: t)) eqn:E15; [|discriminate].
        apply digits_exactly_spec in E15. destruct E15 as [E15 _].
        rewrite HL in E15. discriminate.
  - intros E. injection E as ->. rewrite V by exact Hdc. exact Hvalid.
Qed.

Lemma X2_imei_check_digit_unique_witness :
  Imei.validate (lit "35238708012457" ++ ["6"%char]) = true
  <-> ["6"%char] = Imei.calculateLuhnCheckDigit (lit "35238708012457").
Proof.
  apply (X2_imei_check_digit_unique (lit "35238708012457") "6"%char);
    [repeat constructor | reflexivity].
Defined.

(** ** EAN/UPC: what one wrong digit does *)

Lemma ean_weighted_loop_app (l1 : str) (n : nat) :
  digits l1 ->
  exists z, 0 <= z
    /\ forall l2 a, length l2 = n ->
         Ean.weighted_loop (map Number_char (l1 ++ l2)) (Num a)
         = Ean.weighted_loop (map Number_char l2) (Num (a + z)).
Proof.
  induction 1 as [|c l1 Hc _ IH].
  - exists 0. split; [lia|]. intros l2 a _. cbn [app]. do 2 f_equal. lia.
  - destruct IH as (z & Hz & Hl).
    pose proof (proj1 (is_digit_inv c Hc)) as B.
    destruct (Nat.eqb (S (length l1 + n) mod 2) 1) eqn:E.
    + exists (digit_val c * 3 + z). split; [lia|]. intros l2 a HL.
      cbn [app map Ean.weighted_loop]. rewrite (Number_char_digit c Hc).
      cbn [length]. rewrite length_map, length_app, HL, E.
      cbn [nmul nadd]. rewrite Hl by exact HL. do 2 f_equal. lia.
    + exists (digit_val c * 1 + z). split; [lia|]. intros l2 a HL.
      cbn [app map Ean.weighted_loop]. rewrite (Number_char_digit c Hc).
      cbn [length]. rewrite length_map, length_app, HL, E.
      cbn [nmul nadd]. rewrite Hl by exact HL. do 2 f_equal. lia.
Qed.

Lemma ean_weighted_loop_cons (r : str) :
  exists w, (w = 1 \/ w = 3)
    /\ forall x a, is_digit x = true ->
         Ean.weighted_loop (map Number_char (x :: r)) (Num a)
         = Ean.weighted_loop (map Number_char r) (Num (a + digit_val x * w)).
Proof.
  destruct (Nat.eqb (length (Number_char "0" :: map Number_char r) mod 2) 1) eqn:E.
  - exists 3. split; [auto|]. intros x a Hx.
    cbn [map Ean.weighted_loop]. rewrite (Number_char_digit x Hx).
    cbn [length] in *. rewrite E. reflexivity.
  - exists 1. split; [auto|]. intros x a Hx.
    cbn [map Ean.weighted_loop]. rewrite (Number_char_digit x Hx).
    cbn [length] in *. rewrite E. reflexivity.
Qed.

(** The code read as data digits followed by a check digit. *)
Lemma ean_validateChecksum_snoc (data : str) (k : ascii) :
  Ean.validateChecksum (data ++ [k]) (length (data ++ [k]))
  = strict_eq (Number_char k)
      (nmod (nsub (Num 10)
               (nmod (Ean.weighted_loop (map Number_char data) (Num 0)) (Num 10)))
            (Num 10)).
Proof.
  unfold Ean.validateChecksum. rewrite length_app. cbn [length].
  rewrite Nat.add_sub, map_app.
  rewrite nth_error_app2 by (rewrite length_map; lia).
  rewrite length_map, Nat.sub_diag. cbn [map nth_error].
  rewrite firstn_app, length_map, Nat.sub_diag, firstn_O, app_nil_r.
  rewrite <- (length_map Number_char data), firstn_all. reflexivity.
Qed.

Lemma ean_checksum_single_error (pre post : str) (c c' : ascii) :
  digits pre -> digits post -> is_digit c = true -> is_digit c' = true ->
  c' <> c ->
  Ean.validateChecksum (pre ++ c :: post) (length (pre ++ c :: post)) = true ->
  Ean.validateChecksum (pre ++ c' :: post) (length (pre ++ c' :: post)) = false.
Proof.
  intros Hpre Hpost Hc Hc' Hne.
  pose proof (is_digit_inv c Hc) as [B E].
  pose proof (is_digit_inv c' Hc') as [B' E'].
  assert (Hv : digit_val c' <> digit_val c) by congruence.
  destruct post as [|p post'].
  - (* the check digit itself *)
    rewrite !ean_validateChecksum_snoc.
    destruct (ean_weighted_loop_digits pre Hpre) as (z & Hz & Hl).
    rewrite Hl, check_mod10 by lia.
    rewrite !Number_char_digit by assumption. cbn [strict_eq].
    rewrite Z.eqb_eq, Z.eqb_neq. lia.
  - (* a data digit *)
    destruct (exists_last (l := p :: post') ltac:(discriminate))
      as (mid & last & Em).
    rewrite Em.
    assert (Hmid : digits mid /\ is_digit last = true).
    { rewrite Em in Hpost. apply digits_app in Hpost. destruct Hpost as [? F].
      inversion F. auto. }
    destruct Hmid as [Hmid Hlast].
    replace (pre ++ c :: mid ++ [last]) with ((pre ++ c :: mid) ++ [last])
      by (rewrite <- app_assoc; reflexivity).
    replace (pre ++ c' :: mid ++ [last]) with ((pre ++ c' :: mid) ++ [last])
      by (rewrite <- app_assoc; reflexivity).
    rewrite !ean_validateChecksum_snoc.
    destruct (ean_weighted_loop_app pre (S (length mid)) Hpre) as (z1 & Hz1 & H1).
    rewrite !H1 by reflexivity.
    destruct (ean_weighted_loop_cons mid) as (w & Hw & Hcons).
    rewrite !Hcons by assumption.
    destruct (ean_weighted_loop_digits mid Hmid) as (z2 & Hz2 & H2).
    rewrite !H2, !check_mod10 by (destruct Hw; subst w; lia).
    rewrite !Number_char_digit by assumption. cbn [strict_eq].
    rewrite Z.eqb_eq, Z.eqb_neq. intros Ev.
    destruct Hw; subst w; Z.to_euclidean_division_equations; lia.
Qed.

Lemma ean_validate_digits (x : str) :
  digits x ->
  Ean.validate x
  = (Nat.eqb (length x) 13 || Nat.eqb (length x) 12 || Nat.eqb (length x) 8)
    && Ean.validateChecksum x (length x).
Proof.
  intros HD. unfold Ean.validate. rewrite ean_clean_digits by exact HD.
  unfold Ean.validateEan13, Ean.validateUpcA, Ean.validateEan8.
  assert (Hd : forall n, length x = n -> digits_exactly n x = true)
    by (intros n Hn; apply digits_exactly_spec; auto).
  destruct (Nat.eqb_spec (length x) 13) as [H|_];
    [rewrite Hd, H by exact H; reflexivity|].
  destruct (Nat.eqb_spec (length x) 12) as [H|_];
    [rewrite Hd, H by exact H; reflexivity|].
  destruct (Nat.eqb_spec (length x) 8) as [H|_];
    [rewrite Hd, H by exact H; reflexivity|].
  reflexivity.
Qed.

(** X3.  [EanService.validate] detects every single wrong digit: when a
    string of digits is accepted (as EAN-13, UPC-A or EAN-8), replacing one
    digit, a data digit or the check digit, by a different digit gives a
    string that is rejected. *)
Theorem X3_ean_detects_one_wrong_digit (pre post : str) (c c' : ascii) :
  digits pre -> digits post -> is_digit c = true -> is_digit c' = true ->
  c' <> c ->
  Ean.validate (pre ++ c :: post) = true ->
  Ean.validate (pre ++ c' :: post) = false.
Proof.
  intros Hpre Hpost Hc Hc' Hne.
  assert (D : forall x, is_digit x = true -> digits (pre ++ x :: post)).
  { intros x Hx. apply digits_app. split; [exact Hpre|].
    constructor; assumption. }
  rewrite !ean_validate_digits by (apply D; assumption).
  intros H. apply andb_true_iff in H. destruct H as [_ H].
  rewrite (ean_checksum_single_error pre post c c') by assumption.
  apply andb_false_r.
Qed.

Lemma X3_ean_detects_one_wrong_digit_witness :
  Ean.validate (lit "4006381333931") = true
  /\ Ean.validate (lit "4006381333031") = false.
Proof.
  assert (V : Ean.validate (lit "4006381333931") = true) by (vm_compute; reflexivity).
  split; [exact V|].
  apply (X3_ean_detects_one_wrong_digit (lit "4006381333") (lit "31")
           "9"%char "0"%char);
    [repeat constructor | repeat constructor | reflexivity | reflexivity
    | discriminate | exact V].
Defined.

(** ** ISBN-13 and EAN-13 *)

Lemma toUpperCase_is_digit (c : ascii) :
  is_digit (toUpperCase_char c) = is_digit c.
Proof. char_cases c; reflexivity. Qed.

Lemma toUpperCase_all_digits (s : str) :
  all_digits (toUpperCase s) = all_digits s.
Proof.
  induction s as [|c s IH]; [reflexivity|]. cbn [toUpperCase map all_digits forallb].
  rewrite toUpperCase_is_digit. f_equal. exact IH.
Qed.

Lemma isbn_ean_clean (x : str) :
  Isbn.cleanInput x = toUpperCase (Ean.cleanInput x).
Proof.
  unfold Isbn.cleanInput, Ean.cleanInput, remove_all. f_equal.
  apply filter_ext. intros c. unfold Isbn.separator, Ean.separator.
  rewrite orb_comm. reflexivity.
Qed.

Lemma isbn13_ean13_digits (y : str) :
  digits y -> length y = 13%nat ->
  Isbn.validateIsbn13 y
  = Ean.validateEan13 y
    && (startsWith (lit "978") y || startsWith (lit "979") y).
Proof.
  intros HD HL. unfold Isbn.validateIsbn13, Ean.validateEan13.
  replace (digits_exactly 13 y) with true
    by (symmetry; apply digits_exactly_spec; auto).
  cbn [negb].
  destruct (startsWith (lit "978") y); destruct (startsWith (lit "979") y);
    cbn [negb andb orb]; rewrite ?andb_true_r, ?andb_false_r; try reflexivity.
  all: explicit_length y 13; unfold digits in HD; split_Forall;
    unfold Isbn.weighted_sum13, Ean.validateChecksum, parseInt10_at;
    cbn [seq fold_left nth_error app Nat.modulo Nat.divmod fst snd Nat.eqb
           Nat.sub map firstn Ean.weighted_loop length];
    rewrite !parseInt10_digit, !Number_char_digit by assumption;
    digit_bounds; cbn [nmul nadd]; rewrite !check_mod10 by lia;
    cbn [strict_eq]; rewrite !Z.mul_1_r; reflexivity.
Qed.

(** X4.  On an input whose cleaned form has 13 characters,
    [IsbnService.validate] is [EanService.validate] together with the
    prefix test: an ISBN-13 is accepted exactly when it is an accepted
    EAN-13 that starts with 978 or 979. *)
Theorem X4_isbn13_is_bookland_ean13 (x : str) :
  length (Isbn.cleanInput x) = 13%nat ->
  Isbn.validate x
  = Ean.validate x
    && (startsWith (lit "978") (Isbn.cleanInput x)
        || startsWith (lit "979") (Isbn.cleanInput x)).
Proof.
  intros HL. unfold Isbn.validate, Ean.validate. rewrite HL. cbn [Nat.eqb].
  rewrite isbn_ean_clean in *. set (y := Ean.cleanInput x) in *.
  unfold toUpperCase in HL. rewrite length_map in HL. rewrite HL. cbn [Nat.eqb].
  destruct (all_digits y) eqn:E.
  - apply all_digits_iff in E. fold (toUpperCase y).
    rewrite (toUpperCase_alnum y (digits_alnum y E)).
    apply isbn13_ean13_digits; assumption.
  - unfold Isbn.validateIsbn13, Ean.validateEan13, digits_exactly.
    fold (toUpperCase y). rewrite toUpperCase_all_digits, E, !andb_false_r.
    reflexivity.
Qed.

Lemma X4_isbn13_is_bookland_ean13_witness :
  Isbn.validate (lit "978-0-306-40615-7")
  = Ean.validate (lit "978-0-306-40615-7")
    && (startsWith (lit "978") (Isbn.cleanInput (lit "978-0-306-40615-7"))
        || startsWith (lit "979") (Isbn.cleanInput (lit "978-0-306-40615-7"))).
Proof.
  apply (X4_isbn13_is_bookland_ean13 (lit "978-0-306-40615-7")). reflexivity.
Defined.

(** ** TCKN and VKN: validation against completion *)

Lemma substring_prefix (n : nat) (p t : str) :
  length p = n -> substring 0 n (p ++ t) = p.
Proof.
  intros H. unfold substring. rewrite Nat.sub_0_r. cbn [skipn].
  rewrite firstn_app, H, Nat.sub_diag, firstn_O, app_nil_r.
  apply firstn_all2. lia.
Qed.

Lemma tckn_validate_inv (s : str) :
  Tckn.validate s = true ->
  exists p x y,
    s = p ++ [x; y] /\ digits_exactly 9 p = true
    /\ is_digit x = true /\ is_digit y = true
    /\ startsWith (lit "0") p = false
    /\ includes Tckn.INVALID_PATTERNS s = false
    /\ digit_val x = TcknSpec.digit10 p /\ digit_val y = TcknSpec.digit11 p.
Proof.
  intros H.
  assert (H11 : digits_exactly 11 s = true).
  { unfold Tckn.validate in H.
    destruct (Nat.eqb (length s) 11); [|discriminate].
    destruct (digits_exactly 11 s); [reflexivity|discriminate]. }
  apply digits_exactly_spec in H11. destruct H11 as [HL HD].
  apply length_11_inv in HL. destruct HL as (p & x & y & -> & HL).
  apply Forall_app in HD. destruct HD as [HDp HDt]. split_Forall.
  assert (Hp : digits_exactly 9 p = true) by (apply digits_exactly_spec; auto).
  rewrite tckn_validate_unfold in H by assumption.
  rewrite !andb_true_iff, !negb_true_iff, !Z.eqb_eq in H.
  exists p, x, y. tauto.
Qed.

Lemma tckn_prefix_pattern (p : str) :
  In p Tckn.INVALID_PREFIXES ->
  In (p ++ [digit_char (TcknSpec.digit10 p); digit_char (TcknSpec.digit11 p)])
     Tckn.INVALID_PATTERNS.
Proof.
  unfold Tckn.INVALID_PREFIXES. cbn [map In]. intros H.
  repeat (destruct H as [<- | H]; [vm_compute; tauto|]). contradiction.
Qed.

Lemma tckn_validate_complete (s : str) :
  Tckn.validate s = true -> Tckn.complete (substring 0 9 s) = Ok s.
Proof.
  intros H. apply tckn_validate_inv in H.
  destruct H as (p & x & y & -> & Hp & Hx & Hy & H0 & Hpat & E10 & E11).
  pose proof (proj2 (is_digit_inv x Hx)) as Ex. rewrite E10 in Ex.
  pose proof (proj2 (is_digit_inv y Hy)) as Ey. rewrite E11 in Ey.
  pose proof (proj1 (digits_exactly_spec 9 p) Hp) as [HL _].
  rewrite (substring_prefix 9 p [x; y] HL).
  assert (Hpre : includes Tckn.INVALID_PREFIXES p = false).
  { destruct (includes Tckn.INVALID_PREFIXES p) eqn:E; [|reflexivity].
    apply includes_In, tckn_prefix_pattern in E. rewrite <- Ex, <- Ey in E.
    apply includes_In in E. congruence. }
  destruct (tckn_complete_accepts p Hp H0 Hpre) as (r & Hr).
  rewrite Hr. f_equal. apply tckn_complete_inv in Hr.
  destruct Hr as (_ & _ & _ & ->). congruence.
Qed.

Lemma vkn_validate_complete (s : str) :
  Vkn.validate s = true -> Vkn.complete (substring 0 9 s) = Ok s.
Proof.
  intros H.
  assert (H10 : digits_exactly 10 s = true).
  { unfold Vkn.validate in H.
    destruct (Nat.eqb (length s) 10); [|discriminate].
    destruct (digits_exactly 10 s); [reflexivity|discriminate]. }
  apply digits_exactly_spec in H10. destruct H10 as [HL HD].
  apply length_10_inv in HL. destruct HL as (p & x & -> & HL).
  apply Forall_app in HD. destruct HD as [HDp HDt]. split_Forall.
  assert (Hp : digits_exactly 9 p = true) by (apply digits_exactly_spec; auto).
  rewrite vkn_validate_unfold in H by assumption. apply Z.eqb_eq in H.
  rewrite (substring_prefix 9 p [x] HL).
  unfold Vkn.complete, Vkn.validatePrefix. rewrite Hp. cbn [negb].
  rewrite (vkn_check_digit_spec p Hp).
  rewrite toString_digit by apply vkn_check_digit_range.
  rewrite <- H. do 3 f_equal. symmetry. apply is_digit_inv. assumption.
Qed.

(** X5.  The strings accepted by [TcknService.validate] are exactly the
    results of [TcknService.complete], and likewise for [VknService]: a
    valid number is the completion of its first nine digits (so the
    denylist of prefixes and the denylist of full numbers agree). *)
Theorem X5_valid_numbers_are_completions (s : str) :
  (Tckn.validate s = true <-> exists p, Tckn.complete p = Ok s)
  /\ (Vkn.validate s = true <-> exists p, Vkn.complete p = Ok s).
Proof.
  split; split.
  - intros H. exists (substring 0 9 s). apply tckn_validate_complete, H.
  - intros [p H]. apply (tckn_complete_valid p s H).
  - intros H. exists (substring 0 9 s). apply vkn_validate_complete, H.
  - intros [p H]. apply (vkn_complete_valid p s H).
Qed.

(** X6.  The check digits of an accepted TCKN satisfy the customary
    rules: the 10th digit is (7 * (d1+d3+d5+d7+d9) - (d2+d4+d6+d8)) mod 10
    and the 11th digit is the sum of the first ten digits mod 10. *)
Theorem X6_tckn_official_check_digits (s : str) :
  Tckn.validate s = true ->
  digit_at s 10 = (7 * TcknSpec.t1 s - TcknSpec.t2 s) mod 10
  /\ digit_at s 11
     = (digit_at s 1 + digit_at s 2 + digit_at s 3 + digit_at s 4 + digit_at s 5
        + digit_at s 6 + digit_at s 7 + digit_at s 8 + digit_at s 9
        + digit_at s 10) mod 10.
Proof.
  intros H.
  assert (H11 : digits_exactly 11 s = true).
  { unfold Tckn.validate in H.
    destruct (Nat.eqb (length s) 11); [|discriminate].
    destruct (digits_exactly 11 s); [reflexivity|discriminate]. }
  apply (tckn_validate_iff s H11) in H. destruct H as (_ & _ & E10 & E11).
  rewrite E11. unfold TcknSpec.digit11. rewrite <- E10.
  revert E10. unfold TcknSpec.digit10, TcknSpec.t1, TcknSpec.t2.
  generalize (digit_at s 1) (digit_at s 2) (digit_at s 3) (digit_at s 4)
             (digit_at s 5) (digit_at s 6) (digit_at s 7) (digit_at s 8)
             (digit_at s 9) (digit_at s 10).
  intros. split; Z.to_euclidean_division_equations; lia.
Qed.

Lemma X6_tckn_official_check_digits_witness :
  digit_at (lit "12345678950") 10
  = (7 * TcknSpec.t1 (lit "12345678950") - TcknSpec.t2 (lit "12345678950")) mod 10
  /\ digit_at (lit "12345678950") 11
     = (digit_at (lit "12345678950") 1 + digit_at (lit "12345678950") 2
        + digit_at (lit "12345678950") 3 + digit_at (lit "12345678950") 4
        + digit_at (lit "12345678950") 5 + digit_at (lit "12345678950") 6
        + digit_at (lit "12345678950") 7 + digit_at (lit "12345678950") 8
        + digit_at (lit "12345678950") 9 + digit_at (lit "12345678950") 10)
       mod 10.
Proof.
  apply (X6_tckn_official_check_digits (lit "12345678950")).
  vm_compute. reflexivity.
Defined.

(** ** Display formats *)

(** X7.  Validation does not depend on the display format: for every
    string, [validate] gives the same answer on the string and on what
    [formatIban], [formatCardNumber], [formatImei], [formatEan13],
    [formatUpcA], [formatEan8], [formatIsbn10] and [formatIsbn13] make of
    it; and [formatIban] applied twice is [formatIban]. *)
Theorem X7_validate_ignores_display_format (x : str) :
  Iban.validate (Iban.formatIban x) = Iban.validate x
  /\ Iban.formatIban (Iban.formatIban x) = Iban.formatIban x
  /\ CreditCard.validate (CreditCard.formatCardNumber x) = CreditCard.validate x
  /\ Imei.validate (Imei.formatImei x) = Imei.validate x
  /\ Ean.validate (Ean.formatEan13 x) = Ean.validate x
  /\ Ean.validate (Ean.formatUpcA x) = Ean.validate x
  /\ Ean.validate (Ean.formatEan8 x) = Ean.validate x
  /\ Isbn.validate (Isbn.formatIsbn10 x) = Isbn.validate x
  /\ Isbn.validate (Isbn.formatIsbn13 x) = Isbn.validate x.
Proof.
  repeat split.
  - unfold Iban.validate. rewrite iban_format_clean. reflexivity.
  - unfold Iban.formatIban at 1. cbv zeta. rewrite iban_format_clean.
    reflexivity.
  - unfold CreditCard.validate. rewrite cc_format_clean. reflexivity.
  - unfold Imei.validate. rewrite imei_format_clean. reflexivity.
  - unfold Ean.validate. rewrite ean_formatEan13_clean. reflexivity.
  - unfold Ean.validate. rewrite ean_formatUpcA_clean. reflexivity.
  - unfold Ean.validate. rewrite ean_formatEan8_clean. reflexivity.
  - unfold Isbn.validate. rewrite isbn_formatIsbn10_clean. reflexivity.
  - unfold Isbn.validate. rewrite isbn_formatIsbn13_clean. reflexivity.
Qed.

Lemma iban_shape_display (full : str) :
  IbanSpec.shape full ->
  Iban.formatIban full = join_groups [4; 4; 4; 4; 4; 4; 2]%nat full
  /\ length (Iban.formatIban full) = 32%nat.
Proof.
  intros Hs. unfold Iban.formatIban.
  rewrite (remove_space_alnum full (iban_shape_alnum full Hs)).
  destruct Hs as (ds & -> & HL & _).
  explicit_length ds 24. split; reflexivity.
Qed.

(** X8.  [IbanService.generate] returns 32 characters: TR and 24 digits
    in groups of four separated by single spaces, the last group of two
    (TRdd dddd dddd dddd dddd dddd dd). *)
Theorem X8_iban_generate_display (g : Rng) :
  let r := fst (Iban.generate g) in
  IbanSpec.shape (remove_all is_space r)
  /\ r = join_groups [4; 4; 4; 4; 4; 4; 2]%nat (remove_all is_space r)
  /\ length r = 32%nat.
Proof.
  cbv zeta. unfold Iban.generate, bind, ret.
  pose proof (random_element_In Iban.BANK_CODES g ltac:(discriminate)) as Hb.
  destruct (random_element Iban.BANK_CODES g) as [bank g1]. cbn [fst] in Hb.
  pose proof (append_digits_spec Iban.ACCOUNT_LENGTH [] g1) as (t & Ht & HL & HD).
  unfold Iban.generateRandomAccountNumber.
  destruct (append_digits _ [] g1) as [acct g2]. cbn [fst app] in *. subst acct.
  pose proof iban_bank_codes as HB. rewrite Forall_forall in HB.
  destruct (HB bank Hb) as [HLb HDb].
  destruct (iban_full_valid bank t HLb HDb HL HD) as (Hs & _ & _).
  unfold Iban.assemble, Iban.COUNTRY_CODE.
  set (full := lit "TR" ++ _ ++ bank ++ lit "0" ++ t) in *.
  rewrite iban_format_clean.
  rewrite (remove_space_alnum full (iban_shape_alnum full Hs)).
  destruct (iban_shape_display full Hs) as [E L]. auto.
Qed.

Lemma star_not_space (n : nat) :
  remove_all is_space (repeat "*"%char n) = repeat "*"%char n.
Proof.
  apply remove_all_none. apply Forall_forall. intros c Hc.
  apply repeat_spec in Hc. subst c. reflexivity.
Qed.

(** X9.  [maskCardNumber] returns a number of fewer than 10 digits
    unchanged; for 10 digits or more the result, spaces removed, is the
    first six digits, then one asterisk for every digit in between, then
    the last four digits. *)
Theorem X9_mask_hides_the_middle (cardNumber : str) :
  digits cardNumber ->
  ((length cardNumber < 10)%nat ->
   CreditCard.maskCardNumber cardNumber = cardNumber)
  /\ ((10 <= length cardNumber)%nat ->
      remove_all is_space (CreditCard.maskCardNumber cardNumber)
      = firstn 6 cardNumber ++ repeat "*"%char (length cardNumber - 10)
          ++ skipn (length cardNumber - 4) cardNumber).
Proof.
  intros HD. unfold CreditCard.maskCardNumber. split; intros HL.
  - destruct (Nat.ltb_spec (length cardNumber) 10); [reflexivity|lia].
  - destruct (Nat.ltb_spec (length cardNumber) 10); [lia|].
    rewrite cc_format_strip, !remove_all_app, star_not_space.
    unfold substring, substring_from. rewrite Nat.sub_0_r. cbn [skipn].
    rewrite (strip_digits (firstn 6 cardNumber)) by (apply digits_firstn; exact HD).
    rewrite strip_digits; [reflexivity|].
    unfold digits in *. rewrite <- (firstn_skipn (length cardNumber - 4)) in HD.
    apply Forall_app in HD. tauto.
Qed.

Lemma X9_mask_hides_the_middle_witness :
  remove_all is_space (CreditCard.maskCardNumber (lit "4532015112830366"))
  = lit "453201******0366".
Proof.
  apply (proj2 (X9_mask_hides_the_middle (lit "4532015112830366")
                  ltac:(repeat constructor))).
  cbn. lia.
Defined.

(** ** Format detection *)

Lemma digits_only_or_X (c : str) :
  ServiceFactory.digits_only c = true -> ServiceFactory.digits_or_X c = true.
Proof.
  unfold ServiceFactory.digits_only, ServiceFactory.digits_or_X, all_digits.
  destruct c as [|a c]; [discriminate|]. generalize (a :: c). clear.
  induction l as [|x l IH]; [reflexivity|]. cbn [forallb].
  destruct (is_digit x); [|discriminate]. exact IH.
Qed.

Lemma isbn_prefix_no_card (c : str) :
  startsWith (lit "978") c || startsWith (lit "979") c = true ->
  ServiceFactory.card_prefix c = false.
Proof.
  destruct c as [|a c]; [discriminate|].
  cbn [startsWith lit String.list_ascii_of_string].
  destruct (char_eqb "9" a) eqn:E; [|discriminate].
  apply char_eqb_eq in E. subst a. reflexivity.
Qed.

Ltac candidates_solved :=
  cbn; split; [lia|]; split; [|discriminate];
  repeat (constructor; [cbn; intuition discriminate|]); constructor.

(** X10.  [detectPossibleServiceTypes] never returns more than two
    candidates and never the same candidate twice, and
    [detectServiceType] never answers VKN (ten digits are always an ISBN
    candidate as well). *)
Theorem X10_detection_candidates (input : str) :
  (length (ServiceFactory.detectPossibleServiceTypes input) <= 2)%nat
  /\ NoDup (ServiceFactory.detectPossibleServiceTypes input)
  /\ ServiceFactory.detectServiceType input <> Some VKN.
Proof.
  unfold ServiceFactory.detectServiceType, ServiceFactory.detectPossibleServiceTypes.
  cbv zeta. set (c := toUpperCase (remove_all is_space input)).
  destruct (startsWith (lit "TR") c).
  { rewrite orb_true_r. candidates_solved. }
  rewrite andb_false_l. cbn [orb].
  pose proof (digits_only_or_X c) as HX.
  destruct (ServiceFactory.digits_only c).
  - rewrite (HX eq_refl). clear HX. cbn [negb].
    pose proof (isbn_prefix_no_card c) as HP.
    destruct (startsWith (lit "978") c || startsWith (lit "979") c);
      [rewrite (HP eq_refl)|destruct (ServiceFactory.card_prefix c)];
      clear HP;
      remember (length c) as n eqn:En; clear En;
      do 20 (destruct n as [|n];
             [candidates_solved|]);
      candidates_solved.
  - clear HX. cbn [negb].
    destruct (ServiceFactory.digits_or_X c);
      [|candidates_solved].
    destruct (startsWith (lit "978") c || startsWith (lit "979") c);
      remember (length c) as n eqn:En; clear En;
      do 14 (destruct n as [|n];
             [candidates_solved|]);
      candidates_solved.
Qed.

(** What detection answers once the cleaned input is a run of digits. *)
Lemma detect_digits (input : str) :
  let c := toUpperCase (remove_all is_space input) in
  digits c -> c <> [] ->
  (length c = 11%nat -> ServiceFactory.detectPossibleServiceTypes input = [TCKN])
  /\ (length c = 10%nat ->
      ServiceFactory.detectPossibleServiceTypes input = [ISBN; VKN])
  /\ (length c = 8%nat \/ length c = 12%nat \/ length c = 13%nat ->
      In EAN (ServiceFactory.detectPossibleServiceTypes input))
  /\ (length c = 15%nat -> In IMEI (ServiceFactory.detectPossibleServiceTypes input))
  /\ ((13 <= length c <= 19)%nat -> ServiceFactory.card_prefix c = true ->
      In CREDIT_CARD (ServiceFactory.detectPossibleServiceTypes input))
  /\ (length c = 13%nat ->
      startsWith (lit "978") c || startsWith (lit "979") c = true ->
      In ISBN (ServiceFactory.detectPossibleServiceTypes input)).
Proof.
  cbv zeta. unfold ServiceFactory.detectPossibleServiceTypes. cbv zeta.
  set (c := toUpperCase (remove_all is_space input)). intros HD HN.
  assert (HT : startsWith (lit "TR") c = false).
  { destruct c as [|a r]; [congruence|]. inversion HD; subst.
    cbn [startsWith lit String.list_ascii_of_string].
    destruct (char_eqb "T" a) eqn:E; [|reflexivity].
    apply char_eqb_eq in E. subst a. discriminate. }
  assert (HO : ServiceFactory.digits_only c = true).
  { unfold ServiceFactory.digits_only. destruct c; [congruence|].
    apply all_digits_iff. exact HD. }
  rewrite HT, HO, (digits_only_or_X c HO). cbn [andb orb negb].
  destruct (startsWith (lit "978") c || startsWith (lit "979") c);
    destruct (ServiceFactory.card_prefix c);
    (refine (conj _ (conj _ (conj _ (conj _ (conj _ _)))));
     [ intros ->; reflexivity
     | intros ->; reflexivity
     | intros [-> | [-> | ->]]; cbn; auto
     | intros ->; cbn; auto
     | intros HL HC;
       first [ discriminate
             | destruct (Nat.leb_spec 13 (length c)); [|lia];
               destruct (Nat.leb_spec (length c) 19); [|lia];
               cbn [andb]; apply in_or_app; right; left; reflexivity ]
     | intros -> HI; first [discriminate | cbn; auto] ]).
Qed.

Lemma not_char (a b : ascii) : a <> b -> char_eqb a b = false.
Proof.
  intros H. destruct (char_eqb a b) eqn:E; [|reflexivity].
  apply char_eqb_eq in E. contradiction.
Qed.

Lemma plain_clean (input : str) :
  Forall (fun ch => ch <> "-"%char /\ ch <> "."%char) input ->
  CreditCard.cleanInput input = remove_all is_space input
  /\ Imei.cleanInput input = remove_all is_space input
  /\ Ean.cleanInput input = remove_all is_space input
  /\ Isbn.cleanInput input = toUpperCase (remove_all is_space input).
Proof.
  intros H. rewrite Forall_forall in H.
  unfold CreditCard.cleanInput, Imei.cleanInput, Ean.cleanInput, Isbn.cleanInput,
    remove_all.
  repeat split; try apply (f_equal toUpperCase); apply filter_ext_in;
    intros ch Hin;
    destruct (H ch Hin) as [H1 H2];
    unfold CreditCard.separator, Imei.separator, Ean.separator, Isbn.separator;
    rewrite ?(not_char ch "-" H1), ?(not_char ch "." H2), ?orb_false_r;
    reflexivity.
Qed.

Lemma cc_pattern_prefix (p : CreditCard.pattern) (y : str) :
  CreditCard.test p y = true -> ServiceFactory.card_prefix y = true.
Proof.
  unfold ServiceFactory.card_prefix. destruct p; cbn [CreditCard.test];
    intros H; try (rewrite H, ?orb_true_r; reflexivity).
  (* JCB: the factory's pattern is the shorter one *)
  destruct y as [|a [|b [|c [|d y]]]]; cbn [match_prefix] in H;
    rewrite ?andb_false_r in H; try discriminate.
  cbn [match_prefix].
  rewrite !andb_true_iff in H. destruct H as (-> & -> & -> & _).
  cbn [andb]. rewrite !orb_true_r. reflexivity.
Qed.

Lemma cc_detected_prefix (y : str) (ct : CreditCard.card_info) :
  CreditCard.detectCardType y = Some ct ->
  ServiceFactory.card_prefix y = true
  /\ forall n, existsb (Nat.eqb n) (CreditCard.lengths ct) = true ->
               (13 <= n <= 19)%nat.
Proof.
  unfold CreditCard.detectCardType. intros H. apply find_some in H.
  destruct H as [Hin Hp]. split.
  - apply existsb_exists in Hp. destruct Hp as (p & _ & Hp).
    apply (cc_pattern_prefix p y Hp).
  - intros n Hn. apply existsb_exists in Hn. destruct Hn as (m & Hm & E).
    apply Nat.eqb_eq in E. subst m.
    unfold CreditCard.CARD_TYPES in Hin. cbn [In] in Hin.
    repeat (destruct Hin as [<- | Hin];
            [cbn [CreditCard.lengths CreditCard.visa CreditCard.mastercard
                    CreditCard.amex CreditCard.discover CreditCard.jcb
                    CreditCard.diners In] in Hm; lia|]).
    contradiction.
Qed.

Lemma digits_plain (y : str) : digits y -> toUpperCase (remove_all is_space y) = y.
Proof.
  intros H. rewrite strip_digits by exact H.
  apply toUpperCase_alnum, digits_alnum, H.
Qed.

Lemma valid_plain_detected (t : ServiceType) (input : str) :
  Forall (fun ch => ch <> "-"%char /\ ch <> "."%char) input ->
  Service.validate t input = true ->
  In t (ServiceFactory.detectPossibleServiceTypes input).
Proof.
  intros HP HV. destruct (plain_clean input HP) as (Ecc & Eimei & Eean & Eisbn).
  set (y := remove_all is_space input) in *.
  assert (HU : forall n, digits_exactly n y = true ->
                 toUpperCase y = y /\ digits (toUpperCase y)
                 /\ length (toUpperCase y) = n).
  { intros n Hn. apply digits_exactly_spec in Hn. destruct Hn as [HL HD].
    rewrite (toUpperCase_alnum y (digits_alnum y HD)). auto. }
  assert (HNE : forall n, length (toUpperCase y) = S n -> toUpperCase y <> [])
    by (intros n Hn E; rewrite E in Hn; discriminate).
  destruct t; cbn [Service.validate] in HV.
  - (* TCKN *)
    unfold Tckn.validate in HV. destruct (Nat.eqb (length input) 11); [|discriminate].
    destruct (digits_exactly 11 input) eqn:E; [|discriminate].
    pose proof (proj1 (digits_exactly_spec _ _) E) as [HL HD].
    pose proof (digits_plain input HD) as Ec.
    destruct (detect_digits input) as (H & _); rewrite ?Ec; auto.
    { intros ->. discriminate. }
    rewrite H by (rewrite Ec; exact HL). left. reflexivity.
  - (* VKN *)
    unfold Vkn.validate in HV. destruct (Nat.eqb (length input) 10); [|discriminate].
    destruct (digits_exactly 10 input) eqn:E; [|discriminate].
    pose proof (proj1 (digits_exactly_spec _ _) E) as [HL HD].
    pose proof (digits_plain input HD) as Ec.
    destruct (detect_digits input) as (_ & H & _); rewrite ?Ec; auto.
    { intros ->. discriminate. }
    rewrite H by (rewrite Ec; exact HL). right. left. reflexivity.
  - (* IBAN *)
    rewrite detect_iban_first; [left; reflexivity|].
    unfold Iban.validate in HV. fold y in HV. unfold Iban.COUNTRY_CODE in HV.
    fold y.
    destruct (startsWith (lit "TR") (toUpperCase y)); [reflexivity|discriminate].
  - (* credit card *)
    unfold CreditCard.validate in HV. rewrite Ecc in HV.
    destruct y as [|a r] eqn:Ey; [discriminate|]. rewrite <- Ey in *.
    destruct (all_digits y) eqn:E; [|discriminate]. cbn [negb] in HV.
    apply all_digits_iff in E.
    destruct (CreditCard.detectCardType y) as [ct|] eqn:Ect; [|discriminate].
    destruct (existsb _ (CreditCard.lengths ct)) eqn:EL; [|discriminate].
    destruct (cc_detected_prefix y ct Ect) as [Hpre Hlen].
    specialize (Hlen _ EL).
    pose proof (toUpperCase_alnum y (digits_alnum y E)) as Ec.
    destruct (detect_digits input) as (_ & _ & _ & _ & H & _); fold y;
      rewrite ?Ec; auto.
    { rewrite Ey. discriminate. }
    apply H; fold y; rewrite Ec; assumption.
  - (* ISBN *)
    unfold Isbn.validate in HV. rewrite Eisbn in HV.
    set (c := toUpperCase y) in *.
    destruct (Nat.eqb_spec (length c) 10) as [H10|_].
    + unfold ServiceFactory.detectPossibleServiceTypes. cbv zeta. fold y. fold c.
      unfold Isbn.validateIsbn10, Isbn.isbn10_shape in HV.
      rewrite H10 in HV. cbn [Nat.eqb andb] in HV.
      destruct (forallb _ c) eqn:EX; [|discriminate].
      assert (HT : startsWith (lit "TR") c = false).
      { destruct c as [|a r]; [discriminate|]. cbn [forallb] in EX.
        cbn [startsWith lit String.list_ascii_of_string].
        destruct (char_eqb "T" a) eqn:E; [|reflexivity].
        apply char_eqb_eq in E. subst a. discriminate. }
      rewrite HT. cbn [andb orb].
      assert (HX : ServiceFactory.digits_or_X c = true)
        by (unfold ServiceFactory.digits_or_X; destruct c; [discriminate|exact EX]).
      rewrite HX, H10. cbn [Nat.eqb].
      destruct (ServiceFactory.digits_only c); cbn; auto.
    + destruct (Nat.eqb_spec (length c) 13) as [H13|_]; [|discriminate].
      unfold Isbn.validateIsbn13 in HV.
      destruct (digits_exactly 13 c) eqn:E; [|discriminate]. cbn [negb] in HV.
      apply digits_exactly_spec in E. destruct E as [_ HD].
      destruct (startsWith (lit "978") c) eqn:E8;
        destruct (startsWith (lit "979") c) eqn:E9; try discriminate;
        (destruct (detect_digits input) as (_ & _ & _ & _ & _ & H); fold y; fold c;
         [exact HD | intros E; rewrite E in H13; discriminate
         | apply H; fold y; fold c; [exact H13 | rewrite E8, E9; reflexivity]]).
  - (* EAN *)
    unfold Ean.validate in HV. rewrite Eean in HV.
    unfold Ean.validateEan13, Ean.validateUpcA, Ean.validateEan8 in HV.
    destruct (Nat.eqb_spec (length y) 13) as [H13|_];
      [|destruct (Nat.eqb_spec (length y) 12) as [H12|_];
        [|destruct (Nat.eqb_spec (length y) 8) as [H8|_]; [|discriminate]]];
      (match type of HV with
       | context [digits_exactly ?n ?z] =>
           destruct (digits_exactly n z) eqn:E; [|discriminate];
           destruct (HU n E) as (Ec & HD & HL)
       end);
      (destruct (detect_digits input) as (_ & _ & H & _); fold y;
       [exact HD | apply (HNE _ HL) | apply H; fold y; rewrite HL; auto]).
  - (* IMEI *)
    unfold Imei.validate in HV. rewrite Eimei in HV.
    destruct y as [|a r] eqn:Ey; [discriminate|]. rewrite <- Ey in *.
    destruct (digits_exactly 15 y) eqn:E; [|discriminate].
    destruct (HU 15%nat E) as (Ec & HD & HL).
    destruct (detect_digits input) as (_ & _ & _ & H & _); fold y;
      [exact HD | apply (HNE _ HL) | apply H; fold y; exact HL].
Qed.

(** X11.  Detection is complete for input written without hyphens and
    dots: whenever a service's [validate] accepts such an input, that
    service is among the candidates of [detectPossibleServiceTypes]. *)
Theorem X11_valid_plain_input_is_detected (t : ServiceType) (input : str) :
  Forall (fun ch => ch <> "-"%char /\ ch <> "."%char) input ->
  Service.validate t input = true ->
  In t (ServiceFactory.detectPossibleServiceTypes input).
Proof. apply valid_plain_detected. Qed.

Lemma X11_valid_plain_input_is_detected_witness :
  In IMEI (ServiceFactory.detectPossibleServiceTypes (lit "35 238708 012457 6")).
Proof.
  apply (X11_valid_plain_input_is_detected IMEI (lit "35 238708 012457 6")).
  - repeat constructor; discriminate.
  - vm_compute. reflexivity.
Defined.

(** An input that starts with a digit and contains a hyphen has no
    candidate. *)
Lemma detect_hyphenated (a : ascii) (t : str) :
  is_digit a = true -> In "-"%char t ->
  ServiceFactory.detectPossibleServiceTypes (a :: t) = [].
Proof.
  intros Ha Hin. unfold ServiceFactory.detectPossibleServiceTypes. cbv zeta.
  cbn [remove_all filter]. rewrite (digit_not_space a Ha). cbn [negb].
  fold (remove_all is_space t). cbn [toUpperCase map].
  fold (toUpperCase (remove_all is_space t)).
  rewrite (proj2 (proj2 (proj2 (proj2 (digit_not_separator a Ha))))).
  set (r := toUpperCase (remove_all is_space t)).
  assert (Hr : In "-"%char r).
  { unfold r, toUpperCase.
    change "-"%char with (toUpperCase_char "-"). apply in_map.
    apply filter_In. split; [exact Hin|reflexivity]. }
  assert (HT : startsWith (lit "TR") (a :: r) = false).
  { cbn [startsWith lit String.list_ascii_of_string].
    destruct (char_eqb "T" a) eqn:E; [|reflexivity].
    apply char_eqb_eq in E. subst a. discriminate. }
  assert (HX : ServiceFactory.digits_or_X (a :: r) = false).
  { unfold ServiceFactory.digits_or_X.
    destruct (forallb _ (a :: r)) eqn:E; [|reflexivity].
    rewrite forallb_forall in E. specialize (E "-"%char (or_intror Hr)).
    discriminate. }
  assert (HO : ServiceFactory.digits_only (a :: r) = false).
  { destruct (ServiceFactory.digits_only (a :: r)) eqn:E; [|reflexivity].
    apply digits_only_or_X in E. congruence. }
  rewrite HT, HX, HO. reflexivity.
Qed.

Lemma isbn10_display_undetected (p : str) :
  digits p -> length p = 9%nat ->
  ServiceFactory.detectPossibleServiceTypes
    (Isbn.formatIsbn10 (p ++ Isbn.calculateIsbn10CheckDigit (Isbn.weighted_sum10 p)))
  = [].
Proof.
  intros HD HL. destruct (isbn_sum10_digits p [] HD HL) as (z & Hz & Hs & _).
  rewrite Hs. destruct (isbn10_check_char z Hz) as (k & -> & _).
  explicit_length p 9. unfold digits in HD. split_Forall.
  apply detect_hyphenated; [assumption|]. cbn. auto.
Qed.

Lemma isbn13_display_undetected (p : str) :
  digits p -> length p = 12%nat ->
  ServiceFactory.detectPossibleServiceTypes
    (Isbn.formatIsbn13 (p ++ Isbn.calculateIsbn13CheckDigit p))
  = [].
Proof.
  intros HD HL. destruct (isbn_sum13_digits p [] HD HL) as (z & Hz & Hs & _).
  unfold Isbn.calculateIsbn13CheckDigit.
  rewrite Hs, check_mod10, toString_digit by (lia || apply check_mod10_range).
  explicit_length p 12. unfold digits in HD. split_Forall.
  apply detect_hyphenated; [assumption|]. cbn. auto.
Qed.

Lemma isbn_generateIsbn10_undetected (fuel : nat) (g : Rng) (s : str) :
  fst (Isbn.generateIsbn10 fuel g) = Some s ->
  ServiceFactory.detectPossibleServiceTypes s = [].
Proof.
  revert g. induction fuel as [|fuel IH]; intros g; [discriminate|].
  cbn [Isbn.generateIsbn10].
  unfold Isbn.generateIsbn10_body, Isbn.getRandomElement, bind, ret.
  draw_element isbn_common_groups. destruct F as [HLe HDe].
  do 2 draw_digits.
  destruct (Nat.ltb_spec 9 (length e + length t + length t0)) as [Hgt | Hle].
  - apply IH.
  - unfold fst. intros H. apply Some_eq_inv in H. subst s.
    apply isbn10_display_undetected.
    + digits_tac. apply digits_repeat_zero.
    + rewrite !length_app, repeat_length. lia.
Qed.

Lemma isbn_generateIsbn13_undetected (fuel : nat) (g : Rng) (s : str) :
  fst (Isbn.generateIsbn13 fuel g) = Some s ->
  ServiceFactory.detectPossibleServiceTypes s = [].
Proof.
  revert g. induction fuel as [|fuel IH]; intros g; [discriminate|].
  cbn [Isbn.generateIsbn13].
  unfold Isbn.generateIsbn13_body, Isbn.getRandomElement, bind, ret.
  draw_element isbn_common_prefixes. destruct F as (HLp & HDp & HPp).
  draw_element isbn_common_groups. destruct F as [HLe HDe].
  do 2 draw_digits.
  destruct (Nat.ltb_spec 12 (length e + length e0 + length t + length t0))
    as [Hgt | Hle].
  - apply IH.
  - unfold fst. intros H. apply Some_eq_inv in H. subst s.
    apply isbn13_display_undetected.
    + digits_tac. apply digits_repeat_zero.
    + rewrite !length_app, repeat_length. lia.
Qed.

(** X12.  What [IsbnService.generate] returns is accepted by
    [IsbnService.validate] but has no candidate at all in
    [detectPossibleServiceTypes] (the hyphens of the display format are
    not removed by the factory), so [detectServiceType] answers null. *)
Theorem X12_generated_isbn_is_not_detected (fuel : nat) (g : Rng) (s : str) :
  fst (Isbn.generate fuel g) = Some s ->
  Isbn.validate s = true
  /\ ServiceFactory.detectPossibleServiceTypes s = []
  /\ ServiceFactory.detectServiceType s = None.
Proof.
  intros H. split; [apply (isbn_generate_valid fuel g s H)|].
  assert (E : ServiceFactory.detectPossibleServiceTypes s = []).
  { revert H. unfold Isbn.generate, bind, random.
    destruct (Qle_bool _ _); cbn [negb];
      [apply isbn_generateIsbn10_undetected | apply isbn_generateIsbn13_undetected]. }
  split; [exact E|]. unfold ServiceFactory.detectServiceType. rewrite E.
  reflexivity.
Qed.

Lemma X12_generated_isbn_is_not_detected_witness :
  Isbn.validate (lit "978-2-578-12400-5") = true
  /\ ServiceFactory.detectPossibleServiceTypes (lit "978-2-578-12400-5") = []
  /\ ServiceFactory.detectServiceType (lit "978-2-578-12400-5") = None.
Proof.
  apply (X12_generated_isbn_is_not_detected 1 sevenths_rng (lit "978-2-578-12400-5")).
  vm_compute. reflexivity.
Defined.

(** ** Generated numbers and detection *)

Lemma spaced_plain (r : str) :
  digits (remove_all is_space r) ->
  Forall (fun ch => ch <> "-"%char /\ ch <> "."%char) r.
Proof.
  intros HD. apply Forall_forall. intros ch Hin.
  unfold digits in HD. rewrite Forall_forall in HD.
  split; intros ->;
    (assert (Hf : In _ (remove_all is_space r))
       by (apply filter_In; split; [exact Hin|reflexivity]);
     specialize (HD _ Hf); discriminate).
Qed.

Lemma valid_spaced_detected (t : ServiceType) (r : str) :
  digits (remove_all is_space r) -> Service.validate t r = true ->
  In t (ServiceFactory.detectPossibleServiceTypes r).
Proof. intros HD. apply valid_plain_detected, spaced_plain, HD. Qed.

Lemma cc_generate_spaced (g : Rng) :
  digits (remove_all is_space (fst (CreditCard.generate g))).
Proof.
  unfold CreditCard.generate, CreditCard.getRandomCardType, bind, ret.
  pose proof (random_below_range (Z.of_nat (length CreditCard.CARD_TYPES)) g eq_refl)
    as R.
  destruct (random_below _ g) as [i g1]. cbn [fst] in R.
  set (ct := nth (Z.to_nat i) CreditCard.CARD_TYPES CreditCard.visa).
  assert (Hin : In ct CreditCard.CARD_TYPES).
  { apply nth_In. cbn [length CreditCard.CARD_TYPES] in *. lia. }
  destruct (cc_generate_number ct g1 Hin) as (HD & HL & Hdet).
  destruct (CreditCard.generateNumberForPattern _ _ g1) as [y g2].
  cbn [fst] in *.
  rewrite (substring_all _ y HL).
  destruct (luhn_check_digit_valid y HD) as (d & Hd & Hc & HV).
  unfold CreditCard.calculateLuhnCheckDigit. rewrite Hc.
  assert (HDy : digits (y ++ [digit_char d])).
  { apply digits_app. split; [exact HD|].
    constructor; [apply digit_char_is_digit; exact Hd | constructor]. }
  rewrite cc_format_strip, strip_digits; exact HDy.
Qed.

Lemma imei_generate_spaced (g : Rng) :
  digits (remove_all is_space (fst (Imei.generate g))).
Proof.
  unfold Imei.generate, bind, ret.
  pose proof (random_element_In Imei.COMMON_TACS g ltac:(discriminate)) as Ht.
  destruct (random_element Imei.COMMON_TACS g) as [tac g1]. cbn [fst] in Ht.
  pose proof imei_common_tacs as HT. rewrite Forall_forall in HT.
  destruct (HT tac Ht) as [HLt HDt].
  draw.
  destruct (padStart_toString 6 z ltac:(lia) ltac:(change (10 ^ Z.of_nat 6) with 1000000; lia))
    as (HLs & HDs & _).
  set (serial := padStart 6 "0" (toString (Num z))) in *.
  assert (HDp : digits (tac ++ serial)) by (apply digits_app; split; assumption).
  destruct (luhn_check_digit_valid (tac ++ serial) HDp) as (d & Hd & Hc & _).
  cbn [fst]. unfold Imei.calculateLuhnCheckDigit. rewrite Hc.
  assert (HDy : digits ((tac ++ serial) ++ [digit_char d])).
  { apply digits_app. split; [exact HDp|].
    constructor; [apply digit_char_is_digit; exact Hd | constructor]. }
  unfold Imei.formatImei.
  rewrite (regroup_first_clean is_space (fun c H => H)), strip_digits; exact HDy.
Qed.

Lemma ean_display_spaced (d : str) (format : str -> str) :
  digits d ->
  (forall x, remove_all is_space (format x) = remove_all is_space x) ->
  digits (remove_all is_space (format (d ++ Ean.calculateChecksum d))).
Proof.
  intros HD Hf. destruct (ean_checksum_valid d HD) as (k & Hk & Hc & _).
  rewrite Hc, Hf, strip_digits;
    (apply digits_app; split; [exact HD|];
     constructor; [apply digit_char_is_digit; exact Hk | constructor]).
Qed.

Lemma ean_formatEan13_strip (x : str) :
  remove_all is_space (Ean.formatEan13 x) = remove_all is_space x.
Proof.
  unfold Ean.formatEan13. destruct (Nat.eqb_spec (length x) 13) as [H|]; [|reflexivity].
  explicit_length x 13. reflexivity.
Qed.

Lemma ean_formatUpcA_strip (x : str) :
  remove_all is_space (Ean.formatUpcA x) = remove_all is_space x.
Proof.
  unfold Ean.formatUpcA. destruct (Nat.eqb_spec (length x) 12) as [H|]; [|reflexivity].
  explicit_length x 12. reflexivity.
Qed.

Lemma ean_formatEan8_strip (x : str) :
  remove_all is_space (Ean.formatEan8 x) = remove_all is_space x.
Proof.
  unfold Ean.formatEan8. destruct (Nat.eqb_spec (length x) 8) as [H|]; [|reflexivity].
  explicit_length x 8. reflexivity.
Qed.

Lemma ean_generate_spaced (g : Rng) :
  digits (remove_all is_space (fst (Ean.generate g))).
Proof.
  unfold Ean.generate, bind, random.
  destruct (Qle_bool _ _); cbn [negb]; [destruct (Qle_bool _ _); cbn [negb]|].
  - unfold Ean.generateEan8, Ean.generateRandomDigits, bind, ret.
    do 3 draw_digits.
    destruct (Nat.ltb_spec (length (t ++ t0 ++ t1)) 7) as [Hlt|Hge].
    + draw_digits. cbn [fst].
      apply ean_display_spaced; [digits_tac|apply ean_formatEan8_strip].
    + destruct (Nat.ltb_spec 7 (length (t ++ t0 ++ t1))) as [Hgt|Hle];
        cbn [fst]; (apply ean_display_spaced; [|apply ean_formatEan8_strip]);
        unfold substring; cbn [Nat.sub skipn]; try apply digits_firstn; digits_tac.
  - unfold Ean.generateUpcA, Ean.generateRandomDigits, bind, ret.
    destruct (random_digit_spec (snd (random g))) as (d & Hd & He).
    unfold random in He. cbn [snd] in He.
    destruct (random_digit _) as [ds g1]. cbn [fst] in He. subst ds.
    do 2 draw_digits. cbn [fst].
    apply ean_display_spaced; [|apply ean_formatUpcA_strip].
    apply digits_app. split; [|digits_tac].
    constructor; [apply digit_char_is_digit; exact Hd | constructor].
  - unfold Ean.generateEan13, Ean.getRandomElement, Ean.generateRandomDigits,
      bind, ret.
    draw_element ean_gs1_prefixes. destruct F as [HLp HDp].
    do 2 draw_digits.
    destruct (Nat.ltb_spec (length e + length t + length t0) 12) as [Hlt|Hge].
    + draw_digits. cbn [fst].
      apply ean_display_spaced; [digits_tac|apply ean_formatEan13_strip].
    + destruct (Nat.ltb_spec 12 (length e + length t + length t0)) as [Hgt|Hle];
        cbn [fst]; (apply ean_display_spaced; [|apply ean_formatEan13_strip]);
        unfold substring; cbn [Nat.sub skipn]; try apply digits_firstn; digits_tac.
Qed.

Lemma iban_valid_detected (value : str) :
  Iban.validate value = true ->
  ServiceFactory.detectServiceType value = Some IBAN.
Proof.
  intros HV. unfold ServiceFactory.detectServiceType.
  rewrite detect_iban_first; [reflexivity|].
  unfold Iban.validate, Iban.COUNTRY_CODE in HV.
  destruct (startsWith (lit "TR") _); [reflexivity|discriminate].
Qed.

(** X13.  For the other six services the generated number is detected:
    a generated TCKN is detected as TCKN and a generated IBAN as IBAN, a
    generated VKN has the candidates ISBN and VKN, and a generated credit
    card number, IMEI and EAN each have their own service among the
    candidates. *)
Theorem X13_generated_numbers_are_detected (fuel : nat) (g : Rng) :
  (forall s, fst (Tckn.generate fuel g) = Some (Ok s) ->
             ServiceFactory.detectServiceType s = Some TCKN)
  /\ (forall s, fst (Vkn.generate g) = Ok s ->
                ServiceFactory.detectPossibleServiceTypes s = [ISBN; VKN])
  /\ ServiceFactory.detectServiceType (fst (Iban.generate g)) = Some IBAN
  /\ In CREDIT_CARD
        (ServiceFactory.detectPossibleServiceTypes (fst (CreditCard.generate g)))
  /\ In IMEI (ServiceFactory.detectPossibleServiceTypes (fst (Imei.generate g)))
  /\ In EAN (ServiceFactory.detectPossibleServiceTypes (fst (Ean.generate g))).
Proof.
  refine (conj _ (conj _ (conj _ (conj _ (conj _ _))))).
  - intros s H. destruct (tckn_generate_valid fuel g (Ok s) H) as (s' & E & HV).
    injection E as <-.
    assert (H11 : digits_exactly 11 s = true).
    { unfold Tckn.validate in HV.
      destruct (Nat.eqb (length s) 11); [|discriminate].
      destruct (digits_exactly 11 s); [reflexivity|discriminate]. }
    apply digits_exactly_spec in H11. destruct H11 as [HL HD].
    unfold ServiceFactory.detectServiceType.
    destruct (detect_digits s) as (E & _); rewrite ?digits_plain by exact HD;
      [exact HD | intros ->; discriminate | ].
    rewrite E by (rewrite digits_plain by exact HD; exact HL). reflexivity.
  - intros s H. destruct (vkn_generate_valid g) as (s' & E & HV).
    rewrite H in E. injection E as <-.
    assert (H10 : digits_exactly 10 s = true).
    { unfold Vkn.validate in HV.
      destruct (Nat.eqb (length s) 10); [|discriminate].
      destruct (digits_exactly 10 s); [reflexivity|discriminate]. }
    apply digits_exactly_spec in H10. destruct H10 as [HL HD].
    destruct (detect_digits s) as (_ & E & _); rewrite ?digits_plain by exact HD;
      [exact HD | intros ->; discriminate | ].
    apply E. rewrite digits_plain by exact HD. exact HL.
  - apply iban_valid_detected, iban_generate_valid.
  - apply valid_spaced_detected; [apply cc_generate_spaced|apply cc_generate_valid].
  - apply valid_spaced_detected; [apply imei_generate_spaced|apply imei_generate_valid].
  - apply valid_spaced_detected; [apply ean_generate_spaced|apply ean_generate_valid].
Qed.

Lemma X13_generated_numbers_are_detected_witness :
  ServiceFactory.detectServiceType (lit "11245780176") = Some TCKN.
Proof.
  apply (proj1 (X13_generated_numbers_are_detected 1 sevenths_rng)).
  vm_compute. reflexivity.
Defined.

(** ** Service names *)

Lemma service_value_alias (t : ServiceType) :
  toLowerCase (ServiceType_value t) = ServiceType_value t
  /\ lookup SERVICE_ALIASES (ServiceType_value t) = Some t.
Proof. destruct t; split; reflexivity. Qed.

Lemma find_value (type : str) :
  match find (fun t => str_eqb type (ServiceType_value t))
             ServiceFactory.getAvailableServices with
  | Some t => type = ServiceType_value t
  | None => True
  end.
Proof.
  destruct (find _ _) as [t|] eqn:E; [|exact I].
  apply find_some in E. destruct E as [_ E]. apply str_eqb_eq in E. exact E.
Qed.

Lemma getService_alias (type : str) (t : ServiceType) :
  ServiceFactory.getService type = Ok t
  <-> lookup SERVICE_ALIASES (toLowerCase type) = Some t.
Proof.
  unfold ServiceFactory.getService, ServiceFactory.normalizeServiceType.
  pose proof (find_value type) as HF.
  destruct (find _ _) as [t'|].
  - subst type. destruct (service_value_alias t') as [-> ->].
    cbn [ServiceFactory.createService]. split; intros H; inversion H; reflexivity.
  - destruct (lookup SERVICE_ALIASES (toLowerCase type)) as [alias|].
    + cbn [ServiceFactory.createService]. split; intros H; inversion H; reflexivity.
    + split; [|discriminate].
      destruct (str_eqb _ (lit "constructor")); [discriminate|].
      destruct (str_eqb _ (lit "__proto__")); discriminate.
Qed.

(** X14.  [ServiceFactory.getService] returns a service exactly for the
    eight names of [SERVICE_ALIASES], compared without regard to case, and
    throws on every other name; the command line's [isKnownService]
    accepts exactly the names [getService] resolves. *)
Theorem X14_service_names (type : str) :
  (forall t, ServiceFactory.getService type = Ok t
             <-> lookup SERVICE_ALIASES (toLowerCase type) = Some t)
  /\ (Cli.isKnownService type = true
      <-> exists t, ServiceFactory.getService type = Ok t).
Proof.
  split; [intros t; apply getService_alias|].
  unfold Cli.isKnownService.
  destruct (lookup SERVICE_ALIASES (toLowerCase type)) as [t|] eqn:E.
  - split; [|reflexivity]. intros _. exists t. apply getService_alias, E.
  - split; [discriminate|]. intros [t H]. apply getService_alias in H. congruence.
Qed.

(** ** Command line *)

Lemma known_service_word (name : str) :
  Cli.isKnownService name = true ->
  exists c r, name = c :: r /\ is_digit c = false /\ char_eqb "-" c = false.
Proof.
  unfold Cli.isKnownService. destruct name as [|c r]; [discriminate|].
  intros H. exists c, r. split; [reflexivity|].
  cbn [toLowerCase map] in H. fold (toLowerCase r) in H.
  assert (L : is_lower (toLowerCase_char c) = true).
  { unfold SERVICE_ALIASES in H. cbn [lookup str_eqb lit String.list_ascii_of_string] in H.
    repeat match type of H with
           | context [char_eqb (toLowerCase_char c) ?k] =>
               let E := fresh "E" in
               destruct (char_eqb (toLowerCase_char c) k) eqn:E;
               [apply char_eqb_eq in E; rewrite E; reflexivity|];
               cbn [andb] in H
           end.
    discriminate. }
  clear H. revert L. char_cases c; vm_compute; intros H; try discriminate H; auto.
Qed.

Lemma not_a_flag (arg : str) :
  startsWith (lit "-") arg = false ->
  forall long short,
    startsWith (lit "-") long = true -> startsWith (lit "-") short = true ->
    Cli.is_flag long short arg = false.
Proof.
  intros H long short HL HS. unfold Cli.is_flag.
  destruct (str_eqb arg long) eqn:E1; [apply str_eqb_eq in E1; congruence|].
  destruct (str_eqb arg short) eqn:E2; [apply str_eqb_eq in E2; congruence|].
  reflexivity.
Qed.

Lemma parse_positional (arg : str) (rest : list str) (r : Cli.CliArgs) :
  startsWith (lit "-") arg = false ->
  Cli.parse_loop (arg :: rest) r = Cli.parse_loop rest (Cli.positional arg r).
Proof.
  intros H. cbn [Cli.parse_loop].
  rewrite !(not_a_flag arg H) by reflexivity. rewrite H. reflexivity.
Qed.

Lemma positional_keeps (arg : str) (r : Cli.CliArgs) :
  Cli.help (Cli.positional arg r) = Cli.help r
  /\ Cli.version (Cli.positional arg r) = Cli.version r
  /\ Cli.action (Cli.positional arg r) = Cli.action r
  /\ Cli.serviceSetViaFlag (Cli.positional arg r) = Cli.serviceSetViaFlag r.
Proof.
  unfold Cli.positional.
  repeat match goal with
         | |- context [if ?b then _ else _] => destruct b
         end; repeat split.
Qed.

Lemma parse_positionals (args : list str) (r : Cli.CliArgs) :
  Forall (fun arg => startsWith (lit "-") arg = false) args ->
  exists r', Cli.parse_loop args r = Ok r'
             /\ Cli.help r' = Cli.help r /\ Cli.version r' = Cli.version r
             /\ Cli.action r' = Cli.action r
             /\ Cli.serviceSetViaFlag r' = Cli.serviceSetViaFlag r.
Proof.
  intros H. revert r. induction H as [|arg args Ha _ IH]; intros r.
  - exists r. repeat split.
  - rewrite (parse_positional arg args r Ha).
    destruct (IH (Cli.positional arg r)) as (r' & E & H1 & H2 & H3 & H4).
    destruct (positional_keeps arg r) as (K1 & K2 & K3 & K4).
    exists r'. repeat split; congruence.
Qed.

(** X15.  [parseArgs] never throws on arguments none of which starts with
    a dash, and then sets neither [help], [version], [action] nor
    [serviceSetViaFlag]. *)
Theorem X15_positional_arguments_parse (args : list str) :
  Forall (fun arg => startsWith (lit "-") arg = false) args ->
  exists r, Cli.parseArgs args = Ok r
            /\ Cli.help r = false /\ Cli.version r = false
            /\ Cli.action r = None /\ Cli.serviceSetViaFlag r = false.
Proof.
  intros H. unfold Cli.parseArgs.
  apply (parse_positionals args (Cli.mkArgs false false None false None (Num 1) None) H).
Qed.

Lemma X15_positional_arguments_parse_witness :
  exists r, Cli.parseArgs [lit "vkn"; lit "5"] = Ok r
            /\ Cli.help r = false /\ Cli.version r = false
            /\ Cli.action r = None /\ Cli.serviceSetViaFlag r = false.
Proof.
  apply (X15_positional_arguments_parse [lit "vkn"; lit "5"]).
  repeat constructor.
Defined.

Lemma parseInt10_digits (s : str) :
  digits s -> s <> [] -> parseInt10 s = Num (dec_value s).
Proof.
  intros HD HN. destruct s as [|z r]; [congruence|].
  pose proof HD as HD'. inversion HD' as [|? ? Hz Hr]; subst.
  unfold parseInt10. cbn [drop_leading_space].
  rewrite (digit_not_space z Hz). unfold split_sign.
  destruct (digit_not_sign z Hz) as (-> & -> & _).
  rewrite leading_digits_all by assumption. reflexivity.
Qed.

Lemma digits_word (d : str) :
  digits d -> d <> [] ->
  startsWith (lit "-") d = false /\ Cli.isKnownService d = false
  /\ ServiceFactory.digits_only d = true.
Proof.
  intros HD HN. destruct d as [|c r]; [congruence|].
  pose proof HD as HD'. inversion HD' as [|? ? Hc _]; subst.
  split; [|split].
  - cbn [startsWith lit String.list_ascii_of_string].
    destruct (char_eqb "-" c) eqn:E; [|reflexivity].
    apply char_eqb_eq in E. subst c. discriminate.
  - destruct (Cli.isKnownService (c :: r)) eqn:E; [|reflexivity].
    apply known_service_word in E. destruct E as (c' & r' & E & Hd & _).
    injection E as <- <-. congruence.
  - apply all_digits_iff. exact HD.
Qed.

(** X16.  A number after a service name is read in two ways: in the short
    form [name digits] it is the count, after [-s name] it is the input.
    The digits are at most 15, so that their value is represented
    exactly. *)
Theorem X16_short_and_flag_forms (name d : str) :
  Cli.isKnownService name = true ->
  digits d -> d <> [] -> (length d <= 15)%nat ->
  Cli.parseArgs [name; d]
  = Ok (Cli.mkArgs false false (Some name) false None (Num (dec_value d)) None)
  /\ Cli.parseArgs [lit "-s"; name; d]
     = Ok (Cli.mkArgs false false (Some name) true None (Num 1) (Some d)).
Proof.
  intros HK HD HN _.
  destruct (known_service_word name HK) as (c & r & -> & _ & Hdash).
  destruct (digits_word d HD HN) as (Hd1 & Hd2 & Hd3).
  assert (Hn : startsWith (lit "-") (c :: r) = false).
  { cbn [startsWith lit String.list_ascii_of_string]. rewrite Hdash. reflexivity. }
  unfold Cli.parseArgs. split.
  - rewrite (parse_positional _ _ _ Hn), (parse_positional _ _ _ Hd1).
    cbn [Cli.parse_loop]. unfold Cli.positional.
    rewrite HK. cbn [Cli.service Cli.truthy negb andb Cli.with_service].
    rewrite Hd2, Hd3.
    cbn [Cli.service Cli.truthy negb andb Cli.with_service Cli.count strict_eq
           Z.eqb Pos.eqb Cli.serviceSetViaFlag Cli.with_count Cli.help Cli.version
           Cli.action Cli.input].
    rewrite (parseInt10_digits d HD HN). reflexivity.
  - cbn [Cli.parse_loop]. change (Cli.is_flag (lit "--help") (lit "-h") (lit "-s")) with false.
    change (Cli.is_flag (lit "--version") (lit "-v") (lit "-s")) with false.
    change (Cli.is_flag (lit "--service") (lit "-s") (lit "-s")) with true.
    cbv iota. rewrite !(not_a_flag d Hd1) by reflexivity. rewrite Hd1.
    cbn [negb]. unfold Cli.positional. rewrite Hd2, Hd3.
    reflexivity.
Qed.

Lemma X16_short_and_flag_forms_witness :
  Cli.parseArgs [lit "vkn"; lit "5"]
  = Ok (Cli.mkArgs false false (Some (lit "vkn")) false None
          (Num (dec_value (lit "5"))) None)
  /\ Cli.parseArgs [lit "-s"; lit "vkn"; lit "5"]
     = Ok (Cli.mkArgs false false (Some (lit "vkn")) true None (Num 1)
             (Some (lit "5"))).
Proof.
  apply (X16_short_and_flag_forms (lit "vkn") (lit "5"));
    [reflexivity | repeat constructor | discriminate | cbn; lia].
Defined.

(** ** The default action *)

Lemma cli_separator_digits (s : str) : digits s -> remove_all Cli.separator s = s.
Proof. apply cc_clean_digits. Qed.

Lemma toUpperCase_dash (c : ascii) :
  char_eqb (toUpperCase_char c) "-" = char_eqb c "-".
Proof. char_cases c; reflexivity. Qed.

Lemma iban_clean_length (value : str) :
  IbanSpec.shape (toUpperCase (remove_all is_space value)) ->
  length (remove_all Cli.separator value) = 26%nat.
Proof.
  intros Hs. rewrite <- (iban_shape_length _ Hs).
  unfold toUpperCase. rewrite length_map.
  pose proof (iban_shape_alnum _ Hs) as HA. f_equal.
  unfold toUpperCase in HA. rewrite Forall_map in HA.
  unfold remove_all in *. rewrite Forall_forall in HA.
  apply filter_ext_in. intros ch Hin. unfold Cli.separator.
  destruct (is_space ch) eqn:E; [reflexivity|]. cbn [orb]. f_equal.
  assert (Hf : In ch (filter (fun c => negb (is_space c)) value))
    by (apply filter_In; rewrite E; auto).
  specialize (HA ch Hf). rewrite <- toUpperCase_dash.
  destruct (char_eqb (toUpperCase_char ch) "-") eqn:D; [|reflexivity].
  apply char_eqb_eq in D. rewrite D in HA. destruct HA; discriminate.
Qed.

Lemma default_action_validate (name value : str) (t : ServiceType)
      (h v f : bool) (a : option Cli.Action) (n : num) :
  ServiceFactory.getService name = Ok t ->
  Service.validate t value = true ->
  Forall (fun ch => ch <> "."%char) value ->
  Cli.determineDefaultAction (Cli.mkArgs h v (Some name) f a n (Some value))
  = Cli.Validate.
Proof.
  intros HS HV HP. unfold Cli.determineDefaultAction.
  cbn [Cli.service Cli.input].
  destruct name as [|c r]; [discriminate|].
  destruct value as [|x y]; [destruct t; discriminate|].
  rewrite HS. clear HS. set (value := x :: y) in *.
  destruct t; cbn [Service.getExpectedLength Service.validate] in *.
  - unfold Tckn.validate in HV. destruct (Nat.eqb (length value) 11); [|discriminate].
    destruct (digits_exactly 11 value) eqn:E; [|discriminate].
    apply digits_exactly_spec in E. destruct E as [HL HD].
    unfold Tckn.getExpectedLength. rewrite cli_separator_digits, HL by exact HD.
    reflexivity.
  - unfold Vkn.validate in HV. destruct (Nat.eqb (length value) 10); [|discriminate].
    destruct (digits_exactly 10 value) eqn:E; [|discriminate].
    apply digits_exactly_spec in E. destruct E as [HL HD].
    unfold Vkn.getExpectedLength. rewrite cli_separator_digits, HL by exact HD.
    reflexivity.
  - apply iban_validate_spec in HV. cbv zeta in HV. destruct HV as (Hs & _).
    unfold Iban.getExpectedLength, Iban.TOTAL_LENGTH.
    rewrite (iban_clean_length value Hs). reflexivity.
  - unfold CreditCard.validate in HV.
    change (remove_all Cli.separator value) with (CreditCard.cleanInput value).
    destruct (CreditCard.cleanInput value) as [|k w] eqn:Ek; [discriminate|].
    rewrite <- Ek in *.
    destruct (all_digits (CreditCard.cleanInput value)); [|discriminate].
    cbn [negb] in HV.
    destruct (CreditCard.detectCardType _) as [ct|] eqn:Ect; [|discriminate].
    destruct (existsb _ (CreditCard.lengths ct)) eqn:EL; [|discriminate].
    destruct (cc_detected_prefix _ ct Ect) as [_ Hlen]. specialize (Hlen _ EL).
    unfold CreditCard.getExpectedLength.
    destruct (Nat.leb_spec 13 (length (CreditCard.cleanInput value))); [|lia].
    destruct (Nat.leb_spec (length (CreditCard.cleanInput value)) 19); [|lia].
    reflexivity.
  - unfold Isbn.validate in HV.
    assert (EL : length (Isbn.cleanInput value)
                 = length (remove_all Cli.separator value)).
    { unfold Isbn.cleanInput, toUpperCase. rewrite length_map. f_equal.
      apply filter_ext. intros ch. unfold Isbn.separator, Cli.separator.
      rewrite orb_comm. reflexivity. }
    rewrite EL in HV. unfold Isbn.getExpectedLength.
    destruct (Nat.eqb_spec (length (remove_all Cli.separator value)) 10) as [->|_];
      [reflexivity|].
    destruct (Nat.eqb_spec (length (remove_all Cli.separator value)) 13) as [->|_];
      [reflexivity|discriminate].
  - unfold Ean.validate in HV.
    change (Ean.cleanInput value) with (remove_all Cli.separator value) in HV.
    unfold Ean.getExpectedLength.
    destruct (Nat.eqb_spec (length (remove_all Cli.separator value)) 13) as [->|_];
      [reflexivity|].
    destruct (Nat.eqb_spec (length (remove_all Cli.separator value)) 12) as [->|_];
      [reflexivity|].
    destruct (Nat.eqb_spec (length (remove_all Cli.separator value)) 8) as [->|_];
      [reflexivity|discriminate].
  - unfold Imei.validate in HV.
    assert (EC : Imei.cleanInput value = remove_all Cli.separator value).
    { apply filter_ext_in. intros ch Hin. rewrite Forall_forall in HP.
      unfold Imei.separator, Cli.separator.
      rewrite (not_char ch "." (HP ch Hin)), orb_false_r. reflexivity. }
    rewrite EC in HV.
    destruct (remove_all Cli.separator value) as [|k w] eqn:Ek; [discriminate|].
    rewrite <- Ek in *.
    destruct (digits_exactly 15 _) eqn:E; [|discriminate].
    apply digits_exactly_spec in E. destruct E as [HL _].
    unfold Imei.getExpectedLength. rewrite HL. reflexivity.
Qed.

Lemma getService_word (name : str) (t : ServiceType) :
  ServiceFactory.getService name = Ok t -> Cli.truthy (Some name) = true.
Proof.
  intros H. destruct name; [discriminate|reflexivity].
Qed.

Lemma parse_flag_form (name value : str) :
  Cli.truthy (Some name) = true ->
  startsWith (lit "-") value = false ->
  Cli.parseArgs [lit "-s"; name; value]
  = Ok (Cli.mkArgs false false (Some name) true None (Num 1) (Some value)).
Proof.
  intros HN HV. unfold Cli.parseArgs. cbn [Cli.parse_loop].
  change (Cli.is_flag (lit "--help") (lit "-h") (lit "-s")) with false.
  change (Cli.is_flag (lit "--version") (lit "-v") (lit "-s")) with false.
  change (Cli.is_flag (lit "--service") (lit "-s") (lit "-s")) with true.
  cbv iota. rewrite !(not_a_flag value HV) by reflexivity. rewrite HV.
  cbn [negb]. unfold Cli.positional.
  cbn [Cli.service Cli.with_service Cli.count Cli.input Cli.serviceSetViaFlag
         Cli.help Cli.version Cli.action].
  rewrite HN. cbn [negb andb strict_eq Z.eqb Pos.eqb Cli.truthy].
  rewrite andb_false_r.
  destruct (ServiceFactory.digits_only value); [reflexivity|].
  destruct (Cli.iban_like value); reflexivity.
Qed.

(** X17.  From the command line to the services: [-s name value], for a
    name the factory resolves and a value its service accepts (written
    without dots and not starting with a dash), is parsed with that service
    and input, and [determineDefaultAction] chooses [validate]. *)
Theorem X17_valid_input_is_validated_by_default (name value : str)
        (t : ServiceType) :
  ServiceFactory.getService name = Ok t ->
  Service.validate t value = true ->
  Forall (fun ch => ch <> "."%char) value ->
  startsWith (lit "-") value = false ->
  exists args,
    Cli.parseArgs [lit "-s"; name; value] = Ok args
    /\ Cli.service args = Some name /\ Cli.input args = Some value
    /\ Cli.determineDefaultAction args = Cli.Validate.
Proof.
  intros HS HV HP HD. eexists. split.
  - apply parse_flag_form; [apply (getService_word name t HS)|exact HD].
  - split; [reflexivity|]. split; [reflexivity|].
    apply (default_action_validate name value t); assumption.
Qed.

Lemma X17_valid_input_is_validated_by_default_witness :
  exists args,
    Cli.parseArgs [lit "-s"; lit "iban"; lit "TR32 0010 0099 9990 1234 5678 90"]
    = Ok args
    /\ Cli.service args = Some (lit "iban")
    /\ Cli.input args = Some (lit "TR32 0010 0099 9990 1234 5678 90")
    /\ Cli.determineDefaultAction args = Cli.Validate.
Proof.
  apply (X17_valid_input_is_validated_by_default (lit "iban")
           (lit "TR32 0010 0099 9990 1234 5678 90") IBAN).
  - reflexivity.
  - vm_compute. reflexivity.
  - repeat constructor; discriminate.
  - reflexivity.
Defined.

(** ** Detailed validation *)

(** X18.  [validateDetailed] of [IbanService], [CreditCardService] and
    [ImeiService] agrees with [validate]: an accepted input gives
    [{ isValid: true }] without errors, a rejected one gives
    [isValid: false] with exactly one message. *)
Theorem X18_validateDetailed_agrees (x : str) :
  (Iban.validateDetailed x = valid /\ Iban.validate x = true
   \/ exists m, Iban.validateDetailed x = invalid m /\ Iban.validate x = false)
  /\ (CreditCard.validateDetailed x = valid /\ CreditCard.validate x = true
      \/ exists m, CreditCard.validateDetailed x = invalid m
                   /\ CreditCard.validate x = false)
  /\ (Imei.validateDetailed x = valid /\ Imei.validate x = true
      \/ exists m, Imei.validateDetailed x = invalid m /\ Imei.validate x = false).
Proof.
  split; [|split].
  - unfold Iban.validateDetailed, Iban.validate.
    repeat match goal with
           | |- context [if negb ?b then _ else _] =>
               destruct b; cbn [negb]; [|right; eexists; split; reflexivity]
           end.
    left. split; reflexivity.
  - unfold CreditCard.validateDetailed, CreditCard.validate. cbv zeta.
    destruct (CreditCard.cleanInput x) as [|c r];
      [right; eexists; split; reflexivity|].
    destruct (all_digits (c :: r)); cbn [negb];
      [|right; eexists; split; reflexivity].
    destruct (CreditCard.detectCardType (c :: r)) as [ct|];
      [|right; eexists; split; reflexivity].
    destruct (existsb _ (CreditCard.lengths ct)); cbn [negb];
      [|right; eexists; split; reflexivity].
    destruct (CreditCard.validateLuhn (c :: r)); cbn [negb];
      [left; split; reflexivity|right; eexists; split; reflexivity].
  - unfold Imei.validateDetailed, Imei.validate. cbv zeta.
    destruct (Imei.cleanInput x) as [|c r];
      [right; eexists; split; reflexivity|].
    destruct (digits_exactly 15 (c :: r)); cbn [negb];
      [|right; eexists; split; reflexivity].
    destruct (Imei.validateLuhn (c :: r)); cbn [negb];
      [left; split; reflexivity|right; eexists; split; reflexivity].
Qed.

(** ** IBAN: suggestions and check digits *)

Lemma iban_suggest_valid (codes : list str) (suggestions : list str) (g : Rng) :
  Forall (fun b => length b = 5%nat /\ digits b) codes ->
  Forall (fun s => Iban.validate s = true) suggestions ->
  Forall (fun s => Iban.validate s = true) (fst (Iban.suggest codes suggestions g))
  /\ length (fst (Iban.suggest codes suggestions g))
     = (length suggestions + length codes)%nat.
Proof.
  intros HC. revert suggestions g.
  induction HC as [|bank codes [HLb HDb] _ IH]; intros suggestions g HS.
  - cbn. split; [exact HS|lia].
  - cbn [Iban.suggest]. unfold bind, Iban.generateRandomAccountNumber.
    pose proof (append_digits_spec Iban.ACCOUNT_LENGTH [] g) as (t & Ht & HL & HD).
    destruct (append_digits _ [] g) as [acct g2]. cbn [fst app] in *. subst acct.
    destruct (IH (suggestions ++ [Iban.assemble bank t]) g2) as [V L].
    + apply Forall_app. split; [exact HS|].
      constructor; [|constructor]. apply iban_assemble_valid; assumption.
    + split; [exact V|]. rewrite L, length_app. cbn [length]. lia.
Qed.

(** X19.  [IbanService.getCompletionSuggestions] always returns at least
    one suggestion; for a partial IBAN that starts with TR and has 5 to 25
    characters it returns three, each accepted by [validate]. *)
Theorem X19_iban_suggestions (partialNumber : str) (g : Rng) :
  let clean := toUpperCase (remove_all is_space partialNumber) in
  let suggestions := fst (Iban.getCompletionSuggestions partialNumber g) in
  (1 <= length suggestions)%nat
  /\ (startsWith (lit "TR") clean = true -> (4 < length clean < 26)%nat ->
      length suggestions = 3%nat
      /\ Forall (fun s => Iban.validate s = true) suggestions).
Proof.
  cbv zeta. unfold Iban.getCompletionSuggestions.
  set (clean := toUpperCase (remove_all is_space partialNumber)).
  assert (HB : Forall (fun b => length b = 5%nat /\ digits b)
                 (firstn 3 Iban.BANK_CODES)) by (repeat constructor).
  destruct (iban_suggest_valid (firstn 3 Iban.BANK_CODES) [] g HB (Forall_nil _))
    as [V L].
  destruct (startsWith (lit "TR") clean); cbn [negb].
  - destruct (Nat.leb_spec (length clean) 4).
    + split; [cbn; lia|]. intros _ ?. lia.
    + unfold Iban.TOTAL_LENGTH. destruct (Nat.ltb_spec (length clean) 26).
      * rewrite L. split; [cbn; lia|]. intros _ _. split; [reflexivity|exact V].
      * split; [cbn; lia|]. intros _ ?. lia.
  - split; [|discriminate]. destruct (Nat.eqb (length clean) 0); cbn; lia.
Qed.

Lemma X19_iban_suggestions_witness :
  length (fst (Iban.getCompletionSuggestions (lit "TR12345") sevenths_rng)) = 3%nat
  /\ Forall (fun s => Iban.validate s = true)
       (fst (Iban.getCompletionSuggestions (lit "TR12345") sevenths_rng)).
Proof.
  apply (proj2 (X19_iban_suggestions (lit "TR12345") sevenths_rng));
    [reflexivity | cbn; lia].
Defined.

(** X20.  The check digits [calculateCheckDigits] computes for TR00
    followed by digits are two digits whose value lies between 02 and
    98. *)
Theorem X20_iban_check_digits_range (body : str) :
  digits body ->
  let checkDigits := Iban.calculateCheckDigits (lit "TR00" ++ body) in
  length checkDigits = 2%nat /\ digits checkDigits
  /\ 2 <= dec_value checkDigits <= 98.
Proof.
  intros HD. destruct (iban_check_digits_spec body HD) as (HL & HDc & HV).
  cbv zeta. split; [exact HL|]. split; [exact HDc|].
  change (lit "TR00" ++ body) with (lit "TR" ++ lit "00" ++ body).
  rewrite HV. pose proof (Z.mod_pos_bound (dec_value body * 10 ^ 6 + 292700) 97).
  lia.
Qed.

Lemma X20_iban_check_digits_range_witness :
  length (Iban.calculateCheckDigits (lit "TR00" ++ lit "0010009999901234567890"))
  = 2%nat
  /\ digits (Iban.calculateCheckDigits (lit "TR00" ++ lit "0010009999901234567890"))
  /\ 2 <= dec_value
            (Iban.calculateCheckDigits (lit "TR00" ++ lit "0010009999901234567890"))
       <= 98.
Proof.
  apply (X20_iban_check_digits_range (lit "0010009999901234567890")).
  repeat constructor.
Defined.

(** ** Credit card: generation for a named network *)

Lemma cc_key_lookup (key : str) (info : CreditCard.card_info) :
  lookup CreditCard.CARD_KEYS key = Some info ->
  In info CreditCard.CARD_TYPES /\ key <> [].
Proof.
  unfold CreditCard.CARD_KEYS. cbn [lookup]. intros H.
  split; [|intros ->; discriminate].
  repeat match type of H with
         | (if ?b then _ else _) = _ =>
             destruct b; [injection H as <-; cbn; tauto|]
         end.
  discriminate.
Qed.

Lemma cc_generate_for (ct : CreditCard.card_info) (g : Rng) :
  In ct CreditCard.CARD_TYPES ->
  let y := fst (CreditCard.generateNumberForPattern
                  (nth 0 (CreditCard.patterns ct) CreditCard.P_4)
                  (nth 0 (CreditCard.lengths ct) 0%nat) g) in
  let payload := substring 0 (nth 0 (CreditCard.lengths ct) 0 - 1)%nat y in
  let r := CreditCard.formatCardNumber
             (payload ++ CreditCard.calculateLuhnCheckDigit payload) in
  CreditCard.validate r = true
  /\ CreditCard.detectCardType (CreditCard.cleanInput r) = Some ct
  /\ length (CreditCard.cleanInput r) = nth 0 (CreditCard.lengths ct) 0%nat.
Proof.
  intros Hin. cbv zeta.
  destruct (cc_generate_number ct g Hin) as (HD & HL & Hdet).
  destruct (CreditCard.generateNumberForPattern _ _ g) as [y g2].
  cbn [fst] in *.
  rewrite (substring_all _ y HL).
  destruct (luhn_check_digit_valid y HD) as (d & Hd & Hc & HV).
  unfold CreditCard.calculateLuhnCheckDigit. rewrite Hc.
  pose proof (cc_lengths_pos ct Hin) as Hpos.
  assert (HDy : digits (y ++ [digit_char d])).
  { apply digits_app. split; [exact HD|].
    constructor; [apply digit_char_is_digit; exact Hd | constructor]. }
  assert (HLy : length (y ++ [digit_char d]) = nth 0 (CreditCard.lengths ct) 0%nat)
    by (rewrite length_app, HL; cbn [length]; lia).
  rewrite cc_format_clean, cc_clean_digits by exact HDy.
  split; [|split; [apply Hdet|exact HLy]].
  apply (cc_validate_formatted _ ct); auto.
  intros E. apply app_eq_nil in E. destruct E; discriminate.
Qed.

(** X21.  [generateWithOptions] with the name of a network, in any letter
    case, returns a number that [validate] accepts, whose detected network
    is the named one and whose length is the first length of that network;
    with any other non-empty name it throws. *)
Theorem X21_generate_for_named_network (cardType : str) (g : Rng) :
  toLowerCase cardType <> [] ->
  match lookup CreditCard.CARD_KEYS (toLowerCase cardType) with
  | Some info =>
      exists r, fst (CreditCard.generateWithOptions (Some cardType) g) = Ok r
                /\ CreditCard.validate r = true
                /\ CreditCard.detectCardType (CreditCard.cleanInput r) = Some info
                /\ length (CreditCard.cleanInput r)
                   = nth 0 (CreditCard.lengths info) 0%nat
  | None =>
      exists m, fst (CreditCard.generateWithOptions (Some cardType) g) = Throw m
  end.
Proof.
  intros HN. unfold CreditCard.generateWithOptions.
  destruct (toLowerCase cardType) as [|c k] eqn:Ek; [congruence|].
  destruct (lookup CreditCard.CARD_KEYS (c :: k)) as [info|] eqn:E.
  - destruct (cc_key_lookup _ _ E) as [Hin _].
    unfold bind, ret. cbn [fst].
    destruct (cc_generate_for info g Hin) as (V & D & L).
    destruct (CreditCard.generateNumberForPattern _ _ g) as [y g2].
    cbn [fst] in *. eexists. split; [reflexivity|]. auto.
  - unfold bind, ret.
    destruct (includes INHERITED (c :: k)); cbn [fst]; eexists; reflexivity.
Qed.

Lemma X21_generate_for_named_network_witness :
  exists r, fst (CreditCard.generateWithOptions (Some (lit "AmEx")) sevenths_rng) = Ok r
            /\ CreditCard.validate r = true
            /\ CreditCard.detectCardType (CreditCard.cleanInput r)
               = Some CreditCard.amex
            /\ length (CreditCard.cleanInput r) = 15%nat.
Proof.
  apply (X21_generate_for_named_network (lit "AmEx") sevenths_rng). discriminate.
Defined.

(** ** Single wrong digits: TCKN, VKN, ISBN *)

Ltac explicit_nat x H n :=
  lazymatch n with
  | O => destruct x; [|discriminate H]
  | S ?m => destruct x as [|? x]; [discriminate H | explicit_nat x H m]
  end.

(** [H : length (pre ++ c :: post) = S n]: one case for every position the
    character [c] can have. *)
Ltac positions pre post H n :=
  cbn [length app] in H;
  lazymatch n with
  | O => destruct pre; [destruct post; [|discriminate H] | destruct pre; discriminate H]
  | S ?m =>
      destruct pre as [|? pre];
      [explicit_nat post H n | apply eq_add_S in H; positions pre post H m]
  end.

Lemma tckn_single_error (pre post : str) (c c' : ascii) :
  digits pre -> digits post -> is_digit c = true -> is_digit c' = true ->
  c' <> c ->
  Tckn.validate (pre ++ c :: post) = true ->
  Tckn.validate (pre ++ c' :: post) = false.
Proof.
  intros Hpre Hpost Hc Hc' Hne HV.
  assert (Hv : digit_val c' <> digit_val c).
  { intros E. apply Hne. rewrite (proj2 (is_digit_inv c Hc)),
      (proj2 (is_digit_inv c' Hc')). congruence. }
  assert (H11 : digits_exactly 11 (pre ++ c :: post) = true).
  { unfold Tckn.validate in HV.
    destruct (Nat.eqb (length (pre ++ c :: post)) 11); [|discriminate].
    destruct (digits_exactly 11 (pre ++ c :: post)); [reflexivity|discriminate]. }
  assert (H11' : digits_exactly 11 (pre ++ c' :: post) = true).
  { apply digits_exactly_spec in H11. destruct H11 as [HL _].
    apply digits_exactly_spec. split.
    - rewrite length_app in *. exact HL.
    - apply digits_app. split; [exact Hpre|]. constructor; assumption. }
  destruct (Tckn.validate (pre ++ c' :: post)) eqn:HV'; [exfalso|reflexivity].
  apply (tckn_validate_iff _ H11) in HV. apply (tckn_validate_iff _ H11') in HV'.
  destruct HV as (_ & _ & E10 & E11). destruct HV' as (_ & _ & E10' & E11').
  apply digits_exactly_spec in H11. destruct H11 as [HL _].
  unfold digits in Hpre, Hpost.
  unfold TcknSpec.digit11, TcknSpec.digit10, TcknSpec.t1, TcknSpec.t2, digit_at in *.
  positions pre post HL 10%nat; split_Forall; digit_bounds;
    cbn [app nth Nat.sub] in *;
    Z.to_euclidean_division_equations; lia.
Qed.

Lemma vkn_q_digit (i d : Z) :
  1 <= i <= 9 -> 0 <= d <= 9 -> 0 <= VknSpec.q i d <= 9.
Proof.
  intros Hi Hd.
  assert (Ei : i = 1 \/ i = 2 \/ i = 3 \/ i = 4 \/ i = 5 \/ i = 6 \/ i = 7
               \/ i = 8 \/ i = 9) by lia.
  repeat (destruct Ei as [Ei | Ei]; [subst i | ]); [ .. | subst i];
    digit_cases d; vm_compute; split; discriminate.
Qed.

Lemma vkn_q_injective (i d d' : Z) :
  1 <= i <= 9 -> 0 <= d <= 9 -> 0 <= d' <= 9 ->
  VknSpec.q i d = VknSpec.q i d' -> d = d'.
Proof.
  intros Hi Hd Hd'.
  assert (Ei : i = 1 \/ i = 2 \/ i = 3 \/ i = 4 \/ i = 5 \/ i = 6 \/ i = 7
               \/ i = 8 \/ i = 9) by lia.
  repeat (destruct Ei as [Ei | Ei]; [subst i | ]); [ .. | subst i];
    digit_cases d; digit_cases d'; vm_compute; intros E;
    first [reflexivity | discriminate E].
Qed.

Lemma vkn_validate_iff (s : str) :
  digits_exactly 10 s = true ->
  (Vkn.validate s = true <-> digit_at s 10 = VknSpec.check_digit s).
Proof.
  intros H. apply digits_exactly_spec in H. destruct H as [HL HD].
  apply length_10_inv in HL. destruct HL as (p & x & -> & HL).
  apply Forall_app in HD. destruct HD as [HDp HDt]. split_Forall.
  assert (Hp : digits_exactly 9 p = true) by (apply digits_exactly_spec; auto).
  rewrite vkn_validate_unfold by assumption.
  rewrite (vkn_spec_prefix p [x] HL), Z.eqb_eq.
  apply length_9_inv in HL. destruct HL as (a&b&c&d&e&f&g&h&i&->).
  reflexivity.
Qed.

Lemma vkn_single_error (pre post : str) (c c' : ascii) :
  digits pre -> digits post -> is_digit c = true -> is_digit c' = true ->
  c' <> c ->
  Vkn.validate (pre ++ c :: post) = true ->
  Vkn.validate (pre ++ c' :: post) = false.
Proof.
  intros Hpre Hpost Hc Hc' Hne HV.
  pose proof (proj1 (is_digit_inv c Hc)) as Bc.
  pose proof (proj1 (is_digit_inv c' Hc')) as Bc'.
  assert (Hv : digit_val c' <> digit_val c).
  { intros E. apply Hne. rewrite (proj2 (is_digit_inv c Hc)),
      (proj2 (is_digit_inv c' Hc')). congruence. }
  assert (H10 : digits_exactly 10 (pre ++ c :: post) = true).
  { unfold Vkn.validate in HV.
    destruct (Nat.eqb (length (pre ++ c :: post)) 10); [|discriminate].
    destruct (digits_exactly 10 (pre ++ c :: post)); [reflexivity|discriminate]. }
  assert (H10' : digits_exactly 10 (pre ++ c' :: post) = true).
  { apply digits_exactly_spec in H10. destruct H10 as [HL _].
    apply digits_exactly_spec. split.
    - rewrite length_app in *. exact HL.
    - apply digits_app. split; [exact Hpre|]. constructor; assumption. }
  destruct (Vkn.validate (pre ++ c' :: post)) eqn:HV'; [exfalso|reflexivity].
  apply (vkn_validate_iff _ H10) in HV. apply (vkn_validate_iff _ H10') in HV'.
  apply digits_exactly_spec in H10. destruct H10 as [HL _].
  unfold digits in Hpre, Hpost.
  unfold VknSpec.check_digit, VknSpec.sum, digit_at in *.
  positions pre post HL 9%nat; split_Forall;
    cbn [app nth Nat.sub seq fold_right Z.of_nat Pos.of_succ_nat Pos.succ] in *;
    try (apply Hv; congruence);
    match goal with
    | H : context [VknSpec.q ?i (digit_val c)] |- _ =>
        pose proof (vkn_q_digit i (digit_val c) ltac:(lia) Bc);
        pose proof (vkn_q_digit i (digit_val c') ltac:(lia) Bc');
        apply Hv; apply (vkn_q_injective i); try assumption; try lia
    end;
    Z.to_euclidean_division_equations; lia.
Qed.

(** A check character of ISBN: a digit or [X]. *)
Lemma isbn_check_clean (k : ascii) :
  is_digit k || char_eqb k "X" = true -> Isbn.cleanInput [k] = [k].
Proof.
  intros H. apply orb_true_iff in H. destruct H as [H|H].
  - apply isbn_clean_digits. constructor; [exact H|constructor].
  - apply char_eqb_eq in H. subst k. reflexivity.
Qed.

(** Nine digits followed by a check character. *)
Lemma isbn10_validate_check (p : str) (k : ascii) :
  digits p -> length p = 9%nat -> is_digit k || char_eqb k "X" = true ->
  Isbn.validate (p ++ [k])
  = str_eqb [k] (Isbn.calculateIsbn10CheckDigit (Isbn.weighted_sum10 p)).
Proof.
  intros HD HL Hk. unfold Isbn.validate. cbv zeta.
  rewrite isbn_clean_app, isbn_clean_digits, (isbn_check_clean k Hk) by exact HD.
  rewrite length_app, HL. cbn [length Nat.add Nat.eqb].
  unfold Isbn.validateIsbn10.
  destruct (isbn_sum10_digits p [k] HD HL) as (z & _ & Hs1 & Hs2).
  rewrite Hs2, Hs1.
  assert (Hshape : Isbn.isbn10_shape (p ++ [k]) = true).
  { unfold Isbn.isbn10_shape. rewrite length_app, HL. cbn [length Nat.add Nat.eqb andb].
    rewrite forallb_app. cbn [forallb]. rewrite Hk. cbn [andb]. rewrite andb_true_r.
    apply forallb_forall. intros x Hx. unfold digits in HD. rewrite Forall_forall in HD.
    rewrite (HD x Hx). reflexivity. }
  rewrite Hshape. cbn [negb].
  replace (substring 9 10 (p ++ [k])) with [k]; [reflexivity|].
  apply length_9_inv in HL. destruct HL as (a&b&c0&d&e&f&g&h&i&->). reflexivity.
Qed.

Lemma isbn10_check_value (z : Z) :
  0 <= z ->
  Isbn.calculateIsbn10CheckDigit (Num z)
  = if (11 - z mod 11) mod 11 =? 10 then lit "X"
    else [digit_char ((11 - z mod 11) mod 11)].
Proof.
  intros Hz. unfold Isbn.calculateIsbn10CheckDigit.
  rewrite nmod_pos by lia. cbn [nsub].
  pose proof (Z.mod_pos_bound z 11 ltac:(lia)) as B.
  rewrite nmod_pos by lia. cbn [strict_eq].
  pose proof (Z.mod_pos_bound (11 - z mod 11) 11 ltac:(lia)) as B'.
  destruct (Z.eqb_spec ((11 - z mod 11) mod 11) 10) as [E|NE]; [reflexivity|].
  apply toString_digit. lia.
Qed.

Lemma isbn10_check_injective (z z' : Z) :
  0 <= z -> 0 <= z' ->
  Isbn.calculateIsbn10CheckDigit (Num z) = Isbn.calculateIsbn10CheckDigit (Num z') ->
  (11 - z mod 11) mod 11 = (11 - z' mod 11) mod 11.
Proof.
  intros Hz Hz'. rewrite !isbn10_check_value by assumption.
  pose proof (Z.mod_pos_bound (11 - z mod 11) 11 ltac:(lia)) as B.
  pose proof (Z.mod_pos_bound (11 - z' mod 11) 11 ltac:(lia)) as B'.
  set (v := (11 - z mod 11) mod 11) in *. set (v' := (11 - z' mod 11) mod 11) in *.
  destruct (Z.eqb_spec v 10) as [E|NE]; destruct (Z.eqb_spec v' 10) as [E'|NE'].
  - congruence.
  - intros H. injection H as H.
    assert (D : is_digit (digit_char v') = true) by (apply digit_char_is_digit; lia).
    rewrite <- H in D. discriminate.
  - intros H. injection H as H.
    assert (D : is_digit (digit_char v) = true) by (apply digit_char_is_digit; lia).
    rewrite H in D. discriminate.
  - intros H. injection H as H. apply (f_equal digit_val) in H.
    rewrite !digit_val_char in H by lia. exact H.
Qed.

Lemma isbn10_data_error (pre post : str) (c c' : ascii) :
  digits pre -> digits post -> is_digit c = true -> is_digit c' = true ->
  c' <> c -> length (pre ++ c :: post) = 9%nat ->
  Isbn.calculateIsbn10CheckDigit (Isbn.weighted_sum10 (pre ++ c :: post))
  <> Isbn.calculateIsbn10CheckDigit (Isbn.weighted_sum10 (pre ++ c' :: post)).
Proof.
  intros Hpre Hpost Hc Hc' Hne HL.
  pose proof (proj1 (is_digit_inv c Hc)) as Bc.
  pose proof (proj1 (is_digit_inv c' Hc')) as Bc'.
  assert (Hv : digit_val c' <> digit_val c).
  { intros E. apply Hne. rewrite (proj2 (is_digit_inv c Hc)),
      (proj2 (is_digit_inv c' Hc')). congruence. }
  unfold digits in Hpre, Hpost.
  positions pre post HL 8%nat; split_Forall;
    unfold Isbn.weighted_sum10, parseInt10_at;
    cbn [seq fold_left nth_error app];
    rewrite !parseInt10_digit by assumption;
    digit_bounds; cbn [nmul nadd Z.of_nat Pos.of_succ_nat Pos.succ Z.sub Z.add
                         Z.opp Z.pos_sub Pos.pred_double Z.succ_double Z.pred_double
                         Z.double];
    intros E; apply isbn10_check_injective in E; try lia;
    Z.to_euclidean_division_equations; lia.
Qed.

Lemma isbn_plain_clean (p : str) (k : ascii) :
  digits p -> is_digit k || char_eqb k "X" = true ->
  Isbn.cleanInput (p ++ [k]) = p ++ [k].
Proof.
  intros HD Hk.
  rewrite isbn_clean_app, isbn_clean_digits, (isbn_check_clean k Hk) by exact HD.
  reflexivity.
Qed.

Lemma isbn13_validate_digits (s : str) :
  digits s -> length s = 13%nat ->
  Isbn.validate s = true -> Ean.validateChecksum s (length s) = true.
Proof.
  intros HD HL. unfold Isbn.validate. rewrite isbn_clean_digits by exact HD.
  rewrite HL. cbn [Nat.eqb]. rewrite (isbn13_ean13_digits s HD HL).
  unfold Ean.validateEan13.
  destruct (digits_exactly 13 s); cbn [negb andb]; [|discriminate].
  destruct (Ean.validateChecksum s 13); [reflexivity|discriminate].
Qed.

Lemma isbn13_invalid_digits (s : str) :
  digits s -> length s = 13%nat ->
  Ean.validateChecksum s (length s) = false -> Isbn.validate s = false.
Proof.
  intros HD HL H. unfold Isbn.validate. rewrite isbn_clean_digits by exact HD.
  rewrite HL in *. cbn [Nat.eqb]. rewrite (isbn13_ean13_digits s HD HL).
  unfold Ean.validateEan13. rewrite H.
  destruct (digits_exactly 13 s); reflexivity.
Qed.

Lemma isbn_plain_lengths (p : str) (k : ascii) :
  digits p -> is_digit k || char_eqb k "X" = true ->
  Isbn.validate (p ++ [k]) = true ->
  length p = 9%nat \/ (length p = 12%nat /\ is_digit k = true).
Proof.
  intros HD Hk. unfold Isbn.validate. cbv zeta.
  rewrite (isbn_plain_clean p k HD Hk), length_app. cbn [length].
  destruct (Nat.eqb_spec (length p + 1) 10); [intros _; left; lia|].
  destruct (Nat.eqb_spec (length p + 1) 13); [|discriminate].
  unfold Isbn.validateIsbn13.
  destruct (digits_exactly 13 (p ++ [k])) eqn:E; [|discriminate].
  intros _. right. split; [lia|].
  apply digits_exactly_spec in E. destruct E as [_ E].
  apply digits_app in E. destruct E as [_ E]. inversion E. assumption.
Qed.

(** X22.  [IsbnService.validate] detects every single wrong digit of an
    ISBN-10 or ISBN-13 written without separators: replacing one of the
    data digits by a different digit, or the check character by a
    different digit or X, turns an accepted number into a rejected one. *)
Theorem X22_isbn_detects_one_wrong_digit (pre post : str) (c c' k k' : ascii) :
  digits pre -> digits post -> is_digit c = true -> is_digit c' = true ->
  c' <> c ->
  is_digit k || char_eqb k "X" = true ->
  is_digit k' || char_eqb k' "X" = true -> k' <> k ->
  (Isbn.validate (pre ++ c :: post ++ [k]) = true ->
   Isbn.validate (pre ++ c' :: post ++ [k]) = false)
  /\ (Isbn.validate (pre ++ [k]) = true -> Isbn.validate (pre ++ [k']) = false).
Proof.
  intros Hpre Hpost Hc Hc' Hne Hk Hk' Hnk.
  assert (D : forall x, is_digit x = true -> digits (pre ++ x :: post)).
  { intros x Hx. apply digits_app. split; [exact Hpre|]. constructor; assumption. }
  split; intros HV.
  - replace (pre ++ c :: post ++ [k]) with ((pre ++ c :: post) ++ [k]) in HV
      by (rewrite <- app_assoc; reflexivity).
    replace (pre ++ c' :: post ++ [k]) with ((pre ++ c' :: post) ++ [k])
      by (rewrite <- app_assoc; reflexivity).
    destruct (isbn_plain_lengths _ k (D c Hc) Hk HV) as [HL | [HL Hkd]].
    + assert (HL' : length (pre ++ c' :: post) = 9%nat)
        by (rewrite length_app in *; exact HL).
      rewrite isbn10_validate_check in * by auto.
      apply str_eqb_eq in HV.
      destruct (str_eqb [k] _) eqn:E; [|reflexivity].
      apply str_eqb_eq in E. exfalso.
      apply (isbn10_data_error pre post c c'); auto. congruence.
    + assert (DS : forall x, is_digit x = true -> digits ((pre ++ x :: post) ++ [k])).
      { intros x Hx. apply digits_app. split; [apply D, Hx|].
        constructor; [exact Hkd|constructor]. }
      assert (L : forall x, length ((pre ++ x :: post) ++ [k]) = 13%nat).
      { intros x. rewrite !length_app in *. cbn [length] in *. lia. }
      apply isbn13_invalid_digits; [apply DS, Hc'|apply L|].
      apply (isbn13_validate_digits _ (DS c Hc) (L c)) in HV.
      rewrite <- !app_assoc in *. cbn [app] in *.
      apply (ean_checksum_single_error pre (post ++ [k]) c c'); auto.
      apply digits_app. split; [exact Hpost|]. constructor; [exact Hkd|constructor].
  - destruct (isbn_plain_lengths _ k Hpre Hk HV) as [HL | [HL Hkd]].
    + rewrite isbn10_validate_check in * by auto.
      apply str_eqb_eq in HV. rewrite <- HV.
      destruct (str_eqb [k'] [k]) eqn:E; [|reflexivity].
      apply str_eqb_eq in E. congruence.
    + pose proof Hk' as Hk2. destruct (is_digit k') eqn:Hkd' in Hk2 |- .
      * assert (DS : forall x, is_digit x = true -> digits (pre ++ [x])).
        { intros x Hx. apply digits_app. split; [exact Hpre|].
          constructor; [exact Hx|constructor]. }
        assert (L : forall x, length (pre ++ [x]) = 13%nat)
          by (intros x; rewrite length_app; cbn [length]; lia).
        apply isbn13_invalid_digits; [apply DS, Hkd'|apply L|].
        apply (isbn13_validate_digits _ (DS k Hkd) (L k)) in HV.
        apply (ean_checksum_single_error pre [] k k'); auto. constructor.
      * unfold Isbn.validate. cbv zeta.
        rewrite (isbn_plain_clean pre k' Hpre Hk'), length_app, HL.
        cbn [length Nat.add Nat.eqb]. unfold Isbn.validateIsbn13.
        replace (digits_exactly 13 (pre ++ [k'])) with false; [reflexivity|].
        symmetry. destruct (digits_exactly 13 (pre ++ [k'])) eqn:E; [|reflexivity].
        apply digits_exactly_spec in E. destruct E as [_ E].
        apply digits_app in E. destruct E as [_ E]. inversion E. congruence.
Qed.

Lemma X22_isbn_detects_one_wrong_digit_witness :
  Isbn.validate (lit "0306406152") = true
  /\ Isbn.validate (lit "0306506152") = false
  /\ Isbn.validate (lit "030640615X") = false.
Proof.
  pose proof (X22_isbn_detects_one_wrong_digit (lit "03064") (lit "615")
                "0"%char "5"%char "2"%char "X"%char) as [H1 _];
    [repeat constructor | repeat constructor | reflexivity | reflexivity
    | discriminate | reflexivity | reflexivity | discriminate | ].
  pose proof (X22_isbn_detects_one_wrong_digit (lit "030640615") []
                "0"%char "5"%char "2"%char "X"%char) as [_ H2];
    [repeat constructor | repeat constructor | reflexivity | reflexivity
    | discriminate | reflexivity | reflexivity | discriminate | ].
  assert (V : Isbn.validate (lit "0306406152") = true) by (vm_compute; reflexivity).
  split; [exact V|]. split; [exact (H1 V)|exact (H2 V)].
Defined.

(** X23.  [TcknService.validate] and [VknService.validate] detect every
    single wrong digit: an accepted number with one digit replaced by a
    different digit is rejected. *)
Theorem X23_tckn_vkn_detect_one_wrong_digit (pre post : str) (c c' : ascii) :
  digits pre -> digits post -> is_digit c = true -> is_digit c' = true ->
  c' <> c ->
  (Tckn.validate (pre ++ c :: post) = true ->
   Tckn.validate (pre ++ c' :: post) = false)
  /\ (Vkn.validate (pre ++ c :: post) = true ->
      Vkn.validate (pre ++ c' :: post) = false).
Proof.
  intros Hpre Hpost Hc Hc' Hne. split.
  - apply tckn_single_error; assumption.
  - apply vkn_single_error; assumption.
Qed.

Lemma X23_tckn_vkn_detect_one_wrong_digit_witness :
  Tckn.validate (lit "12345678950") = true
  /\ Tckn.validate (lit "12345678940") = false.
Proof.
  assert (V : Tckn.validate (lit "12345678950") = true) by (vm_compute; reflexivity).
  split; [exact V|].
  apply (proj1 (X23_tckn_vkn_detect_one_wrong_digit (lit "123456789") (lit "0")
                  "5"%char "4"%char ltac:(repeat constructor)
                  ltac:(repeat constructor) eq_refl eq_refl ltac:(discriminate))).
  exact V.
Defined.

(** ** Luhn: two neighbouring digits exchanged *)

Lemma luhn_loop_step (x : ascii) (r : str) (a : Z) (b : bool) :
  is_digit x = true ->
  Luhn.loop (x :: r) (Num a) b
  = Luhn.loop r
      (Num (a + (if b then
                   if 9 <? digit_val x * 2 then digit_val x * 2 - 9
                   else digit_val x * 2
                 else digit_val x))) (negb b).
Proof.
  intros Hx. cbn [Luhn.loop]. rewrite parseInt_digit by exact Hx.
  destruct b; cbn [nmul ngt]; [|reflexivity].
  destruct (9 <? digit_val x * 2); reflexivity.
Qed.

Lemma luhn_pair_sum (pre post : str) (c1 c2 : ascii) :
  digits pre -> digits post -> is_digit c1 = true -> is_digit c2 = true ->
  exists (z : Z) (b : bool), 0 <= z
    /\ forall x y, is_digit x = true -> is_digit y = true ->
         Luhn.loop (rev (pre ++ x :: y :: post)) (Num 0) false
         = Num (z
                + (if b then
                     if 9 <? digit_val y * 2 then digit_val y * 2 - 9
                     else digit_val y * 2
                   else digit_val y)
                + (if negb b then
                     if 9 <? digit_val x * 2 then digit_val x * 2 - 9
                     else digit_val x * 2
                   else digit_val x)).
Proof.
  intros Hpre Hpost _ _.
  destruct (luhn_loop_digits (rev post) false (digits_rev _ Hpost))
    as (z1 & Hz1 & H1).
  set (b := Nat.iter (length (rev post)) negb false).
  destruct (luhn_loop_digits (rev pre) (negb (negb b)) (digits_rev _ Hpre))
    as (z2 & Hz2 & H2).
  exists (z1 + z2), b. split; [lia|]. intros x y Hx Hy.
  rewrite rev_app_distr. cbn [rev]. rewrite <- !app_assoc. cbn [app].
  rewrite luhn_loop_app, H1. fold b.
  rewrite (luhn_loop_step y _ _ b Hy), (luhn_loop_step x _ _ (negb b) Hx), H2.
  f_equal. lia.
Qed.

Lemma luhn_transposition (pre post : str) (c1 c2 : ascii) :
  digits pre -> digits post -> is_digit c1 = true -> is_digit c2 = true ->
  (c1 <> c2 ->
   ~ (digit_val c1 = 0 /\ digit_val c2 = 9) ->
   ~ (digit_val c1 = 9 /\ digit_val c2 = 0) ->
   Luhn.validateLuhn (pre ++ c1 :: c2 :: post) = true ->
   Luhn.validateLuhn (pre ++ c2 :: c1 :: post) = false)
  /\ (digit_val c1 = 0 -> digit_val c2 = 9 ->
      Luhn.validateLuhn (pre ++ c2 :: c1 :: post)
      = Luhn.validateLuhn (pre ++ c1 :: c2 :: post)).
Proof.
  intros Hpre Hpost H1 H2.
  pose proof (is_digit_inv c1 H1) as [B1 E1].
  pose proof (is_digit_inv c2 H2) as [B2 E2].
  destruct (luhn_pair_sum pre post c1 c2 Hpre Hpost H1 H2) as (z & b & Hz & HS).
  unfold Luhn.validateLuhn. rewrite !HS by assumption.
  split.
  - intros Hne N09 N90.
    assert (Hv : digit_val c1 <> digit_val c2) by congruence.
    destruct b; cbn [negb];
      destruct (Z.ltb_spec 9 (digit_val c1 * 2));
      destruct (Z.ltb_spec 9 (digit_val c2 * 2));
      rewrite !nmod_pos by lia; cbn [strict_eq];
      rewrite Z.eqb_eq, Z.eqb_neq; intros E;
      Z.to_euclidean_division_equations; lia.
  - intros -> ->.
    destruct b; cbn [negb]; change (9 <? 9 * 2) with true;
      change (9 <? 0 * 2) with false; cbv iota;
      match goal with
      | |- strict_eq (nmod (Num ?A) _) _ = strict_eq (nmod (Num ?B) _) _ =>
          replace A with B by lia
      end; reflexivity.
Qed.

(** X24.  The Luhn check of [ImeiService] and exchanged neighbours: when
    an accepted 15-digit IMEI has two different neighbouring digits
    exchanged, the result is rejected, unless the two digits are 0 and 9;
    exchanging a neighbouring 0 and 9 never changes the answer of
    [validate]. *)
Theorem X24_luhn_exchanged_neighbours (pre post : str) (c1 c2 : ascii) :
  digits pre -> digits post -> is_digit c1 = true -> is_digit c2 = true ->
  length (pre ++ c1 :: c2 :: post) = 15%nat ->
  (c1 <> c2 ->
   ~ (digit_val c1 = 0 /\ digit_val c2 = 9) ->
   ~ (digit_val c1 = 9 /\ digit_val c2 = 0) ->
   Imei.validate (pre ++ c1 :: c2 :: post) = true ->
   Imei.validate (pre ++ c2 :: c1 :: post) = false)
  /\ (digit_val c1 = 0 -> digit_val c2 = 9 ->
      Imei.validate (pre ++ c2 :: c1 :: post)
      = Imei.validate (pre ++ c1 :: c2 :: post)).
Proof.
  intros Hpre Hpost H1 H2 HL.
  assert (V : forall x y, is_digit x = true -> is_digit y = true ->
            Imei.validate (pre ++ x :: y :: post)
            = Luhn.validateLuhn (pre ++ x :: y :: post)).
  { intros x y Hx Hy.
    assert (D : digits (pre ++ x :: y :: post)).
    { apply digits_app. split; [exact Hpre|]. repeat (constructor; [assumption|]).
      exact Hpost. }
    unfold Imei.validate. rewrite imei_clean_digits by exact D.
    destruct (pre ++ x :: y :: post) as [|h t] eqn:E;
      [destruct pre; discriminate|].
    replace (digits_exactly 15 (h :: t)) with true; [reflexivity|].
    symmetry. apply digits_exactly_spec. split; [|exact D].
    rewrite <- E. rewrite length_app in *. exact HL. }
  rewrite !V by assumption.
  apply luhn_transposition; assumption.
Qed.

Lemma X24_luhn_exchanged_neighbours_witness :
  Imei.validate (lit "352387080124576") = true
  /\ Imei.validate (lit "352387080124567") = false
  /\ Imei.validate (lit "490154203237518") = true
  /\ Imei.validate (lit "409154203237518") = true.
Proof.
  assert (V1 : Imei.validate (lit "352387080124576") = true) by (vm_compute; reflexivity).
  assert (V2 : Imei.validate (lit "409154203237518") = true) by (vm_compute; reflexivity).
  pose proof (X24_luhn_exchanged_neighbours (lit "3523870801245") []
                "7"%char "6"%char ltac:(repeat constructor) ltac:(constructor)
                eq_refl eq_refl eq_refl) as [HA _].
  pose proof (X24_luhn_exchanged_neighbours (lit "4") (lit "154203237518")
                "0"%char "9"%char ltac:(repeat constructor)
                ltac:(repeat constructor) eq_refl eq_refl eq_refl) as [_ HB].
  split; [exact V1|]. split.
  - apply HA; [discriminate | vm_compute; intros [? ?]; discriminate
              | vm_compute; intros [? ?]; discriminate | exact V1].
  - split; [|exact V2]. exact (eq_trans (HB eq_refl eq_refl) V2).
Defined.

(** ** EAN/UPC: two neighbouring digits exchanged *)

Lemma parity_step (n : nat) :
  Nat.eqb (S n mod 2) 1 = negb (Nat.eqb (n mod 2) 1).
Proof.
  destruct (Nat.eqb_spec (S n mod 2) 1); destruct (Nat.eqb_spec (n mod 2) 1);
    cbn [negb]; try reflexivity; exfalso;
    pose proof (Nat.mod_upper_bound n 2); pose proof (Nat.mod_upper_bound (S n) 2);
    pose proof (Nat.div_mod_eq n 2); pose proof (Nat.div_mod_eq (S n) 2); lia.
Qed.

Lemma ean_weighted_loop_pair (r : str) :
  exists w, (w = 1 \/ w = 3)
    /\ forall x y a, is_digit x = true -> is_digit y = true ->
         Ean.weighted_loop (map Number_char (x :: y :: r)) (Num a)
         = Ean.weighted_loop (map Number_char r)
             (Num (a + digit_val x * w + digit_val y * (4 - w))).
Proof.
  pose proof (parity_step (S (length r))) as P.
  destruct (Nat.eqb (S (length r) mod 2) 1) eqn:E; cbn [negb] in P.
  - exists 1. split; [auto|]. intros x y a Hx Hy.
    cbn [map Ean.weighted_loop]. rewrite (Number_char_digit x Hx), (Number_char_digit y Hy).
    cbn [length]. rewrite !length_map, P, E. reflexivity.
  - exists 3. split; [auto|]. intros x y a Hx Hy.
    cbn [map Ean.weighted_loop]. rewrite (Number_char_digit x Hx), (Number_char_digit y Hy).
    cbn [length]. rewrite !length_map, P, E. cbn [nmul nadd]. do 2 f_equal.
Qed.

Lemma ean_checksum_transposition (pre post : str) (c1 c2 : ascii) :
  digits pre -> digits post -> is_digit c1 = true -> is_digit c2 = true ->
  (c1 <> c2 ->
   digit_val c1 - digit_val c2 <> 5 -> digit_val c2 - digit_val c1 <> 5 ->
   Ean.validateChecksum (pre ++ c1 :: c2 :: post) (length (pre ++ c1 :: c2 :: post))
   = true ->
   Ean.validateChecksum (pre ++ c2 :: c1 :: post) (length (pre ++ c2 :: c1 :: post))
   = false)
  /\ (digit_val c1 - digit_val c2 = 5 ->
      Ean.validateChecksum (pre ++ c2 :: c1 :: post)
        (length (pre ++ c2 :: c1 :: post))
      = Ean.validateChecksum (pre ++ c1 :: c2 :: post)
          (length (pre ++ c1 :: c2 :: post))).
Proof.
  intros Hpre Hpost H1 H2.
  pose proof (is_digit_inv c1 H1) as [B1 E1].
  pose proof (is_digit_inv c2 H2) as [B2 E2].
  assert (Hv : c1 <> c2 -> digit_val c1 <> digit_val c2) by (intros N E; congruence).
  destruct post as [|p post'].
  - (* the last data digit and the check digit *)
    replace (pre ++ [c1; c2]) with ((pre ++ [c1]) ++ [c2])
      by (rewrite <- app_assoc; reflexivity).
    replace (pre ++ [c2; c1]) with ((pre ++ [c2]) ++ [c1])
      by (rewrite <- app_assoc; reflexivity).
    rewrite !ean_validateChecksum_snoc.
    destruct (ean_weighted_loop_app pre 1 Hpre) as (z1 & Hz1 & HA).
    rewrite !HA by reflexivity.
    cbn [map Ean.weighted_loop length Nat.modulo Nat.divmod fst snd Nat.eqb Nat.sub].
    rewrite !Number_char_digit by assumption. cbn [nmul nadd].
    rewrite !check_mod10 by lia. cbn [strict_eq].
    split.
    + intros Hne N1 N2. specialize (Hv Hne). rewrite Z.eqb_eq, Z.eqb_neq.
      intros E. Z.to_euclidean_division_equations. lia.
    + intros E5.
      destruct (Z.eqb_spec (digit_val c1)
                  ((10 - (0 + z1 + digit_val c2 * 3) mod 10) mod 10));
        destruct (Z.eqb_spec (digit_val c2)
                    ((10 - (0 + z1 + digit_val c1 * 3) mod 10) mod 10));
        try reflexivity; exfalso; Z.to_euclidean_division_equations; lia.
  - destruct (exists_last (l := p :: post') ltac:(discriminate))
      as (mid & last & Em).
    rewrite Em.
    assert (Hmid : digits mid /\ is_digit last = true).
    { rewrite Em in Hpost. apply digits_app in Hpost. destruct Hpost as [? F].
      inversion F. auto. }
    destruct Hmid as [Hmid Hlast].
    replace (pre ++ c1 :: c2 :: mid ++ [last])
      with ((pre ++ c1 :: c2 :: mid) ++ [last])
      by (rewrite <- app_assoc; reflexivity).
    replace (pre ++ c2 :: c1 :: mid ++ [last])
      with ((pre ++ c2 :: c1 :: mid) ++ [last])
      by (rewrite <- app_assoc; reflexivity).
    rewrite !ean_validateChecksum_snoc.
    destruct (ean_weighted_loop_app pre (S (S (length mid))) Hpre) as (z1 & Hz1 & HA).
    rewrite !HA by reflexivity.
    destruct (ean_weighted_loop_pair mid) as (w & Hw & HP).
    rewrite !HP by assumption.
    destruct (ean_weighted_loop_digits mid Hmid) as (z2 & Hz2 & HM).
    rewrite !HM, !check_mod10 by (destruct Hw; subst w; lia).
    rewrite !Number_char_digit by assumption. cbn [strict_eq].
    pose proof (proj1 (is_digit_inv last Hlast)) as BL.
    split.
    + intros Hne N1 N2. specialize (Hv Hne). rewrite Z.eqb_eq, Z.eqb_neq.
      intros E. destruct Hw; subst w; Z.to_euclidean_division_equations; lia.
    + intros E5.
      match goal with
      | |- (_ =? ?A) = (_ =? ?B) => replace A with B; [reflexivity|]
      end.
      destruct Hw; subst w; Z.to_euclidean_division_equations; lia.
Qed.

(** X25.  [EanService.validate] and exchanged neighbours: exchanging two
    different neighbouring digits of an accepted code gives a rejected
    code, unless the two digits differ by 5; exchanging neighbours that
    differ by 5 never changes the answer of [validate]. *)
Theorem X25_ean_exchanged_neighbours (pre post : str) (c1 c2 : ascii) :
  digits pre -> digits post -> is_digit c1 = true -> is_digit c2 = true ->
  (c1 <> c2 ->
   digit_val c1 - digit_val c2 <> 5 -> digit_val c2 - digit_val c1 <> 5 ->
   Ean.validate (pre ++ c1 :: c2 :: post) = true ->
   Ean.validate (pre ++ c2 :: c1 :: post) = false)
  /\ (digit_val c1 - digit_val c2 = 5 ->
      Ean.validate (pre ++ c2 :: c1 :: post)
      = Ean.validate (pre ++ c1 :: c2 :: post)).
Proof.
  intros Hpre Hpost H1 H2.
  assert (D : forall x y, is_digit x = true -> is_digit y = true ->
                          digits (pre ++ x :: y :: post)).
  { intros x y Hx Hy. apply digits_app. split; [exact Hpre|].
    repeat (constructor; [assumption|]). exact Hpost. }
  rewrite !ean_validate_digits by (apply D; assumption).
  destruct (ean_checksum_transposition pre post c1 c2 Hpre Hpost H1 H2) as [HA HB].
  assert (L : length (pre ++ c2 :: c1 :: post) = length (pre ++ c1 :: c2 :: post))
    by (rewrite !length_app; reflexivity).
  split.
  - intros Hne N1 N2 H. apply andb_true_iff in H. destruct H as [_ H].
    rewrite (HA Hne N1 N2 H). apply andb_false_r.
  - intros E5. rewrite (HB E5), L. reflexivity.
Qed.

Lemma X25_ean_exchanged_neighbours_witness :
  Ean.validate (lit "4006381333931") = true
  /\ Ean.validate (lit "4006381333391") = false
  /\ Ean.validate (lit "4006831333931") = true.
Proof.
  assert (V : Ean.validate (lit "4006381333931") = true) by (vm_compute; reflexivity).
  pose proof (X25_ean_exchanged_neighbours (lit "400638133") (lit "31")
                "3"%char "9"%char ltac:(repeat constructor)
                ltac:(repeat constructor) eq_refl eq_refl) as [HA _].
  pose proof (X25_ean_exchanged_neighbours (lit "4006") (lit "1333931")
                "8"%char "3"%char ltac:(repeat constructor)
                ltac:(repeat constructor) eq_refl eq_refl) as [_ HB].
  split; [exact V|]. split.
  - apply HA; [discriminate | vm_compute; discriminate | vm_compute; discriminate
              | exact V].
  - exact (eq_trans (eq_sym (HB eq_refl)) V).
Defined.

(** ** IBAN: what one wrong digit does *)

Lemma numeric_digits (s : str) (acc : Z) :
  digits s ->
  fold_left IbanSpec.numeric_step s acc
  = fold_left (fun a c => a * 10 + digit_val c) s acc.
Proof.
  intros H. revert acc. induction H as [|c s Hc _ IH]; intros acc; [reflexivity|].
  cbn [fold_left]. rewrite IH. f_equal. unfold IbanSpec.numeric_step.
  destruct (digit_not_sign c Hc) as (_ & _ & _ & _ & _ & -> & _). reflexivity.
Qed.

(** The IBAN [TR k1 k2 body] as a number: the body, then 29 27 for TR, then
    the two check digits. *)
Lemma iban_checksum_digits (k1 k2 : ascii) (body : str) :
  is_digit k1 = true -> is_digit k2 = true -> digits body ->
  IbanSpec.checksum ("T" :: "R" :: k1 :: k2 :: body)%char
  = (dec_value body * 10 ^ 6 + 292700 + digit_val k1 * 10 + digit_val k2) mod 97.
Proof.
  intros H1 H2 HD. unfold IbanSpec.checksum, IbanSpec.numeric. cbn [skipn firstn].
  rewrite fold_left_app, (numeric_digits body 0 HD). fold (dec_value body).
  cbn [fold_left]. unfold IbanSpec.numeric_step at 1 2.
  destruct (digit_not_sign k1 H1) as (_ & _ & _ & _ & _ & U1 & _).
  destruct (digit_not_sign k2 H2) as (_ & _ & _ & _ & _ & U2 & _).
  unfold IbanSpec.numeric_step. rewrite U1, U2.
  change (is_upper "T") with true. change (is_upper "R") with true. cbv iota.
  change (code "T" - 55) with 29. change (code "R" - 55) with 27.
  f_equal. lia.
Qed.

Lemma times_ten_mod97 (x : Z) : x mod 97 <> 0 -> (x * 10) mod 97 <> 0.
Proof. intros H E. apply H. Z.to_euclidean_division_equations. lia. Qed.

Lemma times_power_mod97 (e : nat) (x : Z) :
  x mod 97 <> 0 -> (x * 10 ^ Z.of_nat e) mod 97 <> 0.
Proof.
  revert x. induction e as [|e IH]; intros x H.
  - rewrite Z.mul_1_r. exact H.
  - rewrite Nat2Z.inj_succ, Z.pow_succ_r, Z.mul_assoc by lia.
    apply IH, times_ten_mod97, H.
Qed.

Lemma iban_validate_digits (ds : str) :
  digits ds ->
  (Iban.validate (lit "TR" ++ ds) = true <->
   length ds = 24%nat /\ nth_error (lit "TR" ++ ds) 9 = Some "0"%char
   /\ IbanSpec.checksum (lit "TR" ++ ds) = 1).
Proof.
  intros HD. rewrite iban_validate_spec. cbv zeta.
  assert (HA : Forall alnum (lit "TR" ++ ds)).
  { apply Forall_app. split; [|apply digits_alnum, HD].
    repeat constructor; right; reflexivity. }
  rewrite (remove_space_alnum _ HA), (toUpperCase_alnum _ HA).
  split.
  - intros (Hs & H9 & Hc). split; [|auto].
    apply iban_shape_length in Hs. rewrite length_app in Hs. cbn in Hs. lia.
  - intros (HL & H9 & Hc). split; [|auto]. exists ds. auto.
Qed.

Lemma iban_single_error (pre post : str) (c c' : ascii) :
  digits pre -> digits post -> is_digit c = true -> is_digit c' = true ->
  c' <> c ->
  Iban.validate (lit "TR" ++ pre ++ c :: post) = true ->
  Iban.validate (lit "TR" ++ pre ++ c' :: post) = false.
Proof.
  intros Hpre Hpost Hc Hc' Hne HV.
  pose proof (proj1 (is_digit_inv c Hc)) as Bc.
  pose proof (proj1 (is_digit_inv c' Hc')) as Bc'.
  assert (Hv : digit_val c' <> digit_val c).
  { intros E. apply Hne. rewrite (proj2 (is_digit_inv c Hc)),
      (proj2 (is_digit_inv c' Hc')). congruence. }
  assert (D : forall x, is_digit x = true -> digits (pre ++ x :: post)).
  { intros x Hx. apply digits_app. split; [exact Hpre|]. constructor; assumption. }
  destruct (Iban.validate (lit "TR" ++ pre ++ c' :: post)) eqn:HV';
    [exfalso|reflexivity].
  apply (iban_validate_digits _ (D c Hc)) in HV.
  apply (iban_validate_digits _ (D c' Hc')) in HV'.
  destruct HV as (HL & _ & E). destruct HV' as (_ & _ & E').
  unfold digits in Hpre, Hpost.
  destruct pre as [|k1 [|k2 pre']]; cbn [app lit String.list_ascii_of_string] in *.
  - destruct post as [|k2 body]; [discriminate|]. split_Forall.
    rewrite iban_checksum_digits in E, E' by assumption.
    revert E E'. generalize (dec_value body * 10 ^ 6). intros.
    digit_bounds. Z.to_euclidean_division_equations. lia.
  - split_Forall. rewrite iban_checksum_digits in E, E' by assumption.
    revert E E'. generalize (dec_value post * 10 ^ 6). intros.
    digit_bounds. Z.to_euclidean_division_equations. lia.
  - split_Forall.
    rewrite iban_checksum_digits in E, E'
      by first [ assumption
               | apply digits_app; split; [|constructor]; assumption ].
    rewrite !dec_value_app in E, E'.
    unfold dec_value at 2 in E. unfold dec_value at 2 in E'.
    cbn [fold_left] in E, E'. rewrite !dec_fold_app in E, E'.
    cbn [length] in E, E'.
    assert (U : ((digit_val c - digit_val c') * 10 ^ Z.of_nat (length post + 6))
                  mod 97 <> 0).
    { apply times_power_mod97. Z.to_euclidean_division_equations. lia. }
    apply U. rewrite Nat2Z.inj_add, Z.pow_add_r by lia.
    change (Z.of_nat 6) with 6.
    set (P := 10 ^ Z.of_nat (length post)) in *.
    set (Q := 10 ^ Z.of_nat (S (length post))) in *.
    replace ((digit_val c - digit_val c') * (P * 10 ^ 6))
      with (((dec_value pre' * Q + ((0 * 10 + digit_val c) * P + dec_value post))
               * 10 ^ 6 + 292700 + digit_val k1 * 10 + digit_val k2)
            - ((dec_value pre' * Q + ((0 * 10 + digit_val c') * P + dec_value post))
                 * 10 ^ 6 + 292700 + digit_val k1 * 10 + digit_val k2)) by ring.
    revert E E'.
    generalize ((dec_value pre' * Q + ((0 * 10 + digit_val c) * P + dec_value post))
                  * 10 ^ 6 + 292700 + digit_val k1 * 10 + digit_val k2).
    generalize ((dec_value pre' * Q + ((0 * 10 + digit_val c') * P + dec_value post))
                  * 10 ^ 6 + 292700 + digit_val k1 * 10 + digit_val k2).
    intros. Z.to_euclidean_division_equations. lia.
Qed.

(** X26.  [IbanService.validate] detects every single wrong digit: when
    TR followed by digits is accepted, replacing one of the digits by a
    different digit gives an IBAN that is rejected. *)
Theorem X26_iban_detects_one_wrong_digit (pre post : str) (c c' : ascii) :
  digits pre -> digits post -> is_digit c = true -> is_digit c' = true ->
  c' <> c ->
  Iban.validate (lit "TR" ++ pre ++ c :: post) = true ->
  Iban.validate (lit "TR" ++ pre ++ c' :: post) = false.
Proof. apply iban_single_error. Qed.

Lemma X26_iban_detects_one_wrong_digit_witness :
  Iban.validate (lit "TR320010009999901234567890") = true
  /\ Iban.validate (lit "TR320010009999901234567891") = false.
Proof.
  assert (V : Iban.validate (lit "TR320010009999901234567890") = true)
    by (vm_compute; reflexivity).
  split; [exact V|].
  apply (X26_iban_detects_one_wrong_digit (lit "32001000999990123456789") []
           "0"%char "1"%char);
    [repeat constructor | constructor | reflexivity | reflexivity | discriminate
    | exact V].
Defined.

(** ** Letter case and white space *)

Lemma case_and_space (c : ascii) :
  is_space (toUpperCase_char c) = is_space c
  /\ is_space (toLowerCase_char c) = is_space c
  /\ toUpperCase_char (toUpperCase_char c) = toUpperCase_char c
  /\ toUpperCase_char (toLowerCase_char c) = toUpperCase_char c.
Proof. char_cases c; repeat split. Qed.

Lemma remove_space_map (f : ascii -> ascii) (s : str) :
  (forall c, is_space (f c) = is_space c) ->
  remove_all is_space (map f s) = map f (remove_all is_space s).
Proof.
  intros Hf. induction s as [|c s IH]; [reflexivity|].
  cbn [map remove_all filter]. rewrite Hf. fold (remove_all is_space (map f s)).
  fold (remove_all is_space s). rewrite IH. destruct (is_space c); reflexivity.
Qed.

Lemma clean_clean (s : str) :
  toUpperCase (remove_all is_space (toUpperCase (remove_all is_space s)))
  = toUpperCase (remove_all is_space s).
Proof.
  unfold toUpperCase.
  rewrite remove_space_map by (intros c; apply case_and_space).
  rewrite remove_all_idem, map_map. apply map_ext. intros c. apply case_and_space.
Qed.

Lemma clean_lower (s : str) :
  toUpperCase (remove_all is_space (toLowerCase s))
  = toUpperCase (remove_all is_space s).
Proof.
  unfold toUpperCase, toLowerCase.
  rewrite remove_space_map by (intros c; apply case_and_space).
  rewrite map_map. apply map_ext. intros c. apply case_and_space.
Qed.

Lemma clean_spaces (s : str) :
  toUpperCase (remove_all is_space (remove_all is_space s))
  = toUpperCase (remove_all is_space s).
Proof. rewrite remove_all_idem. reflexivity. Qed.

(** X27.  Letter case and white space do not matter to
    [detectPossibleServiceTypes] and to [IbanService.validate]: the answer
    for an input is the answer for the input in lower case, for the input
    without white space, and for its cleaned form. *)
Theorem X27_case_and_space_are_ignored (input : str) :
  ServiceFactory.detectPossibleServiceTypes (toLowerCase input)
  = ServiceFactory.detectPossibleServiceTypes input
  /\ ServiceFactory.detectPossibleServiceTypes (remove_all is_space input)
     = ServiceFactory.detectPossibleServiceTypes input
  /\ ServiceFactory.detectPossibleServiceTypes
       (toUpperCase (remove_all is_space input))
     = ServiceFactory.detectPossibleServiceTypes input
  /\ Iban.validate (toLowerCase input) = Iban.validate input
  /\ Iban.validate (remove_all is_space input) = Iban.validate input.
Proof.
  unfold ServiceFactory.detectPossibleServiceTypes, Iban.validate. cbv zeta.
  rewrite clean_lower, clean_spaces, clean_clean. repeat split.
Qed.

(** ** The default action for a prefix *)

(** X28.  A prefix that [TcknService.complete] (or [VknService.complete])
    accepts, given on the command line as [-s name prefix] with a name of
    that service, is parsed and [determineDefaultAction] chooses
    [complete]. *)
Theorem X28_accepted_prefix_is_completed_by_default (name prefix : str) :
  ((exists r, Tckn.complete prefix = Ok r) ->
   ServiceFactory.getService name = Ok TCKN ->
   exists args,
     Cli.parseArgs [lit "-s"; name; prefix] = Ok args
     /\ Cli.determineDefaultAction args = Cli.Complete)
  /\ ((exists r, Vkn.complete prefix = Ok r) ->
      ServiceFactory.getService name = Ok VKN ->
      exists args,
        Cli.parseArgs [lit "-s"; name; prefix] = Ok args
        /\ Cli.determineDefaultAction args = Cli.Complete).
Proof.
  assert (G : forall t n,
            digits_exactly 9 prefix = true ->
            ServiceFactory.getService name = Ok t ->
            Service.getExpectedLength t = Exactly n -> n <> 9%nat ->
            exists args,
              Cli.parseArgs [lit "-s"; name; prefix] = Ok args
              /\ Cli.determineDefaultAction args = Cli.Complete).
  { intros t n H9 HS HE Hn.
    pose proof (proj1 (digits_exactly_spec _ _) H9) as [HL HD].
    assert (HN : prefix <> []) by (intros ->; discriminate).
    destruct (digits_word prefix HD HN) as (Hdash & _ & _).
    eexists. split.
    - apply parse_flag_form; [apply (getService_word name t HS)|exact Hdash].
    - unfold Cli.determineDefaultAction. cbn [Cli.service Cli.input].
      destruct name as [|a b]; [discriminate|].
      destruct prefix as [|x y]; [congruence|].
      rewrite HS, HE, cli_separator_digits, HL, H9 by exact HD.
      destruct (Nat.eqb_spec 9 n); [congruence|reflexivity]. }
  split; intros [r Hr] HS.
  - apply tckn_complete_inv in Hr. destruct Hr as (H9 & _).
    apply (G TCKN 11%nat); auto; discriminate.
  - apply vkn_complete_inv in Hr. destruct Hr as (H9 & _).
    apply (G VKN 10%nat); auto; discriminate.
Qed.

Lemma X28_accepted_prefix_is_completed_by_default_witness :
  exists args,
    Cli.parseArgs [lit "-s"; lit "tckn"; lit "123456789"] = Ok args
    /\ Cli.determineDefaultAction args = Cli.Complete.
Proof.
  apply (proj1 (X28_accepted_prefix_is_completed_by_default (lit "tckn")
                  (lit "123456789"))).
  - eexists. vm_compute. reflexivity.
  - reflexivity.
Defined.
